(** * what-if-investments-backend: the investment-data endpoint of [src/app.js]

    A shallow embedding of the Express handler [GET /api/investment-data] and
    of its helpers [getCompanyDetails] and [formatDateToYMD], together with the
    part of the JavaScript runtime they rest on (Number, String, Date,
    [Promise.all]), and the properties of the handler stated in the
    specification.

    Conventions of the embedding
    - a JavaScript Number is an IEEE 754 binary64 value, Rocq's primitive
      [float]; the integral Numbers a [Date] produces are kept as [Z], with
      [None] for [NaN];
    - a JavaScript String is a [string] (the text is taken to be ASCII);
    - a value that may be [undefined] or [null] has type [nullable A];
    - the replies of the provider are typed as the program reads them: what
      it dereferences with a plain [.] or calls a method on is an object or
      a Number (a record, a [Date], a [float]); what it reads through [?.],
      tests for truthiness or only passes on is [nullable]; a query
      parameter is a string or absent;
    - a promise is modelled once settled, with its outcome and the time at
      which it settled: [Promise.all] rejects with the earliest rejection;
    - the handler runs in the monad [Run]: it reads the upstream provider and
      the clock from a [Host] and appends to a log of observable events;
    - a response is the status and the object handed to [res.json], before
      serialization. *)

From Stdlib Require Import ZArith List Bool Ascii String Lia Floats.
From Stdlib Require Import Permutation.
Import ListNotations.

Local Open Scope string_scope.
Local Open Scope Z_scope.

(* ================================================================= *)
(** * JavaScript values *)
(* ================================================================= *)

(** A value of type [A], [undefined] or [null]. *)
Inductive nullable (A : Type) : Type :=
| undefined : nullable A
| null : nullable A
| val (a : A) : nullable A.
Arguments undefined {A}.
Arguments null {A}.
Arguments val {A} a.

(** [ToBoolean]: [undefined], [null], [0], [-0], [NaN] and the empty string
    are falsy; every object is truthy. *)
Class Truthy (A : Type) : Type := truthy : A -> bool.

#[export] Instance Truthy_Number : Truthy float :=
  fun x => negb (PrimFloat.is_zero x || PrimFloat.is_nan x).

#[export] Instance Truthy_Boolean : Truthy bool := fun b => b.

#[export] Instance Truthy_String : Truthy string :=
  fun s => match s with EmptyString => false | String _ _ => true end.

#[export] Instance Truthy_nullable {A} `{Truthy A} : Truthy (nullable A) :=
  fun o => match o with val a => truthy a | _ => false end.

(** [a || b] where [b] is a plain value: [a] when it is truthy, else [b]. *)
Definition or_else {A} `{Truthy A} (a : nullable A) (b : A) : A :=
  match a with
  | val x => if truthy x then x else b
  | _ => b
  end.

(** Optional chaining [o?.f]: [undefined] when [o] is [undefined] or [null]. *)
Definition chain {A B} (o : nullable A) (f : A -> nullable B) : nullable B :=
  match o with
  | val a => f a
  | _ => undefined
  end.

Notation "o ?. f" := (chain o f) (at level 20, left associativity, f at level 9, format "o ?. f").

(** [ToNumber] of a Number that may be absent. *)
Definition ToNumber (o : nullable float) : float :=
  match o with
  | undefined => PrimFloat.nan
  | null => PrimFloat.zero
  | val x => x
  end.

(* ================================================================= *)
(** * Strings *)
(* ================================================================= *)

Module Str.

(** [s.length] *)
Definition length (s : string) : Z := Z.of_nat (String.length s).

Fixpoint repeat (c : ascii) (n : nat) : string :=
  match n with
  | O => ""
  | S n' => String c (repeat c n')
  end.

(** [s.padStart(w, c)] with a one-character filler. *)
Definition padStart (w : nat) (c : ascii) (s : string) : string :=
  repeat c (w - String.length s) ++ s.

(** The first [n] characters of [s], and the others. *)
Fixpoint take (n : nat) (s : string) : string :=
  match n, s with
  | S n', String c s' => String c (take n' s')
  | _, _ => ""
  end.

Fixpoint drop (n : nat) (s : string) : string :=
  match n, s with
  | S n', String _ s' => drop n' s'
  | _, _ => s
  end.

(** [s.startsWith(t)] *)
Fixpoint startsWith (t s : string) : bool :=
  match t, s with
  | EmptyString, _ => true
  | String a t', String b s' => (a =? b)%char && startsWith t' s'
  | String _ _, EmptyString => false
  end.

(** [s.includes(t)] *)
Fixpoint includes (t s : string) : bool :=
  startsWith t s ||
  match s with
  | EmptyString => false
  | String _ s' => includes t s'
  end.

Definition upper (c : ascii) : ascii :=
  let n := nat_of_ascii c in
  if ((97 <=? n) && (n <=? 122))%nat then ascii_of_nat (n - 32) else c.

(** [s.toUpperCase()] on ASCII text. *)
Fixpoint toUpperCase (s : string) : string :=
  match s with
  | EmptyString => EmptyString
  | String c s' => String (upper c) (toUpperCase s')
  end.

Definition digit (d : Z) : ascii := ascii_of_nat (48 + Z.to_nat d).

(** The decimal digits of a non-negative integer, most significant first;
    [fuel] bounds the number of digits. *)
Fixpoint digits (fuel : nat) (n : Z) (acc : string) : string :=
  match fuel with
  | O => acc
  | S fuel' =>
      let acc' := String (digit (n mod 10)) acc in
      if n / 10 =? 0 then acc' else digits fuel' (n / 10) acc'
  end.

(** [String(n)] for an integral Number [n]. *)
Definition of_Z (n : Z) : string :=
  let a := Z.abs n in
  let ds := digits (S (Z.to_nat (Z.log2 a))) a "" in
  if n <? 0 then String "-" ds else ds.

End Str.

(** [String(x)] for the integral-or-NaN Numbers of the Date methods. *)
Definition String_of (x : option Z) : string :=
  match x with
  | Some n => Str.of_Z n
  | None => "NaN"
  end.

(** [`${x}`] for a String that may be absent. *)
Definition interpolate (o : nullable string) : string :=
  match o with
  | undefined => "undefined"
  | null => "null"
  | val s => s
  end.

(* ================================================================= *)
(** * Numbers *)
(* ================================================================= *)

(** The exact conversions between Numbers and decimal text that
    [Number.prototype.toFixed], [Number::toString] and [parseFloat] are
    specified by (ECMA-262, 6.1.6.1.20, 21.1.3.3 and 19.2.4). Arithmetic on
    Numbers is the primitive binary64 arithmetic. *)
Module Number.

(** A positive rational [num / den]. *)
Definition ratio : Type := (Z * Z)%type.

Definition pow10 (j : Z) : ratio :=
  if 0 <=? j then (10 ^ j, 1) else (1, 10 ^ (- j)).

Definition rmul (a b : ratio) : ratio := (fst a * fst b, snd a * snd b).
Definition rleb (a b : ratio) : bool := fst a * snd b <=? fst b * snd a.
Definition rltb (a b : ratio) : bool := fst a * snd b <? fst b * snd a.

(** The value [m * 2 ^ e] of a finite Number. *)
Definition exact (m : positive) (e : Z) : ratio :=
  if 0 <=? e then (Zpos m * 2 ^ e, 1) else (Zpos m, 2 ^ (- e)).

(** The Number nearest to [± p / q] (ties to even). *)
Definition of_ratio (neg : bool) (r : ratio) : float :=
  match fst r, snd r with
  | Zpos p, Zpos q =>
      SF2Prim (SFdiv prec emax (S754_finite neg p 0) (S754_finite false q 0))
  | _, _ => if neg then neg_zero else zero
  end.

Definition ndigits (n : Z) : Z := Str.length (Str.of_Z n).

(** The Number nearest to [± m * 10 ^ e10], for [0 <= m]. Beyond the range
    of binary64 the result is known without forming the power of ten. *)
Definition of_decimal (neg : bool) (m : Z) (e10 : Z) : float :=
  if m =? 0 then (if neg then neg_zero else zero)
  else if 310 <? e10 + ndigits m then (if neg then neg_infinity else infinity)
  else if e10 + ndigits m <? -330 then (if neg then neg_zero else zero)
  else of_ratio neg (rmul (m, 1) (pow10 e10)).

(** The integer [n] for which [n / 10 ^ f - x] is as close to zero as
    possible, the larger one when there are two. *)
Definition nearest_scaled (f : nat) (x : ratio) : Z :=
  (2 * fst x * 10 ^ Z.of_nat f + snd x) / (2 * snd x).

(** [a ++ "." ++ b] with [b] the last [f] digits, zero-padded at the left. *)
Definition place_point (f : nat) (ds : string) : string :=
  match f with
  | O => ds
  | _ =>
      let m := Str.padStart (S f) "0" ds in
      let k := String.length m in
      Str.take (k - f) m ++ "." ++ Str.drop (k - f) m
  end.

(** The exponent [n] with [10 ^ (n - 1) <= x < 10 ^ n]. *)
Fixpoint adjust_up (fuel : nat) (x : ratio) (n : Z) : Z :=
  match fuel with
  | O => n
  | S fuel' => if rleb (pow10 n) x then adjust_up fuel' x (n + 1) else n
  end.

Fixpoint adjust_down (fuel : nat) (x : ratio) (n : Z) : Z :=
  match fuel with
  | O => n
  | S fuel' => if rltb x (pow10 (n - 1)) then adjust_down fuel' x (n - 1) else n
  end.

Definition decimal_exponent (m : positive) (e : Z) : Z :=
  let x := exact m e in
  let n0 := (e + Z.log2 (Zpos m) + 1) * 30103 / 100000 in
  adjust_up 4 x (adjust_down 4 x n0).

(** The digits [s] and exponent [n] of [Number::toString]: the shortest
    [s] (as a number of [k] digits) with [s * 10 ^ (n - k)] rounding to the
    Number, the closest such [s] to its value, the even one of two. *)
Fixpoint shortest (fuel : nat) (m : positive) (e : Z) (n : Z) (k : Z) : Z * Z :=
  let x := exact m e in
  let scaled := rmul x (pow10 (k - n)) in
  let lo := fst scaled / snd scaled in
  let rem := fst scaled mod snd scaled in
  let hi := lo + 1 in
  let ok s := PrimFloat.eqb (of_decimal false s (n - k)) (SF2Prim (S754_finite false m e)) in
  let norm s := if s =? 10 ^ k then (s / 10, n + 1) else (s, n) in
  let prefer_lo := (2 * rem <? snd scaled) || ((2 * rem =? snd scaled) && Z.even lo) in
  match fuel with
  | O => (lo, n)
  | S fuel' =>
      match ok lo, ok hi with
      | true, true => if prefer_lo then (lo, n) else norm hi
      | true, false => (lo, n)
      | false, true => norm hi
      | false, false => shortest fuel' m e n (k + 1)
      end
  end.

Definition strip_zeros (s : Z) : Z :=
  Z.iter 20 (fun s => if (s mod 10 =? 0) && negb (s =? 0) then s / 10 else s) s.

(** [Number::toString(x)] in radix 10 for a positive finite [x]. *)
Definition toString_finite (m : positive) (e : Z) : string :=
  let n0 := decimal_exponent m e in
  let '(s0, n) := shortest 17 m e n0 1 in
  let ds := Str.of_Z (strip_zeros s0) in
  let k := Str.length ds in
  if (k <=? n) && (n <=? 21) then ds ++ Str.repeat "0" (Z.to_nat (n - k))
  else if (0 <? n) && (n <=? 21) then
    Str.take (Z.to_nat n) ds ++ "." ++ Str.drop (Z.to_nat n) ds
  else if (-6 <? n) && (n <=? 0) then "0." ++ Str.repeat "0" (Z.to_nat (- n)) ++ ds
  else
    let ex := n - 1 in
    let es := (if ex <? 0 then "-" else "+") ++ Str.of_Z (Z.abs ex) in
    if k =? 1 then ds ++ "e" ++ es
    else Str.take 1 ds ++ "." ++ Str.drop 1 ds ++ "e" ++ es.

(** [Number::toString(x)], radix 10. *)
Definition toString (x : float) : string :=
  match Prim2SF x with
  | S754_nan => "NaN"
  | S754_zero _ => "0"
  | S754_infinity s => if s then "-Infinity" else "Infinity"
  | S754_finite s m e =>
      (if s then "-" else "") ++ toString_finite m e
  end.

(** [x.toFixed(f)] for [0 <= f <= 100]. *)
Definition toFixed (f : nat) (x : float) : string :=
  match Prim2SF x with
  | S754_nan => "NaN"
  | S754_infinity s => if s then "-Infinity" else "Infinity"
  | S754_zero _ => place_point f "0"
  | S754_finite s m e =>
      (if s then "-" else "") ++
      (if rleb (pow10 21) (exact m e) then toString_finite m e
       else place_point f (Str.of_Z (nearest_scaled f (exact m e))))
  end.


Definition is_space (c : ascii) : bool :=
  let n := nat_of_ascii c in
  (((9 <=? n) && (n <=? 13)) || (n =? 32))%nat.

Fixpoint trim_start (s : string) : string :=
  match s with
  | String c s' => if is_space c then trim_start s' else s
  | EmptyString => s
  end.

Definition is_digit (c : ascii) : bool :=
  let n := nat_of_ascii c in ((48 <=? n) && (n <=? 57))%nat.

(** Reads a run of decimal digits onto [acc]: the value, how many digits
    were read, and the rest of the text. *)
Fixpoint scan_digits (s : string) (acc : Z) (cnt : Z) : Z * Z * string :=
  match s with
  | String c s' =>
      if is_digit c
      then scan_digits s' (10 * acc + Z.of_nat (nat_of_ascii c - 48)) (cnt + 1)
      else (acc, cnt, s)
  | EmptyString => (acc, cnt, s)
  end.

(** The sign at the head of [t], and the text after it. *)
Definition split_sign (t : string) : bool * string :=
  match t with
  | String "+" r => (false, r)
  | String "-" r => (true, r)
  | _ => (false, t)
  end.

(** The [ExponentPart] at the head of [s], or [0] when there is none. *)
Definition scan_exponent (s : string) : Z :=
  match s with
  | String c s' =>
      if (c =? "e")%char || (c =? "E")%char then
        let '(neg, s'') := split_sign s' in
        let '(ev, n, _) := scan_digits s'' 0 0 in
        if n =? 0 then 0 else if neg then - ev else ev
      else 0
  | EmptyString => 0
  end.

(** [parseFloat(s)]: the longest prefix of the trimmed text that is a
    [StrDecimalLiteral], as a Number; [NaN] when there is none. *)
Definition parseFloat (s : string) : float :=
  let '(neg, u) := split_sign (trim_start s) in
  if Str.startsWith "Infinity" u then (if neg then neg_infinity else infinity)
  else
    let '(ip, ni, r1) := scan_digits u 0 0 in
    match r1 with
    | String "." r2 =>
        let '(m, nd, r3) := scan_digits r2 ip ni in
        if nd =? 0 then nan
        else of_decimal neg m (scan_exponent r3 - (nd - ni))
    | _ =>
        if ni =? 0 then nan else of_decimal neg ip (scan_exponent r1)
    end.

End Number.

(** [parseFloat(x.toFixed(f))], the rounding idiom of the handler. *)
Definition round_to (f : nat) (x : float) : float :=
  Number.parseFloat (Number.toFixed f x).

(* ================================================================= *)
(** * Dates *)
(* ================================================================= *)

(** A [Date] object: its time value, milliseconds since the epoch in UTC, or
    [None] for an Invalid Date (time value [NaN]). *)
Record Date : Type := mkDate { DateValue : option Z }.

(** Every object is truthy, an Invalid Date included. *)
#[export] Instance Truthy_Date : Truthy Date := fun _ => true.

(** The UTC calendar of ECMA-262, 21.4.1. *)
Module Date.

Definition msPerDay : Z := 86400000.

Definition Day (t : Z) : Z := t / msPerDay.
Definition TimeWithinDay (t : Z) : Z := t mod msPerDay.

Definition DaysInYear (y : Z) : Z :=
  if negb (y mod 4 =? 0) then 365
  else if negb (y mod 100 =? 0) then 366
  else if negb (y mod 400 =? 0) then 365
  else 366.

Definition DayFromYear (y : Z) : Z :=
  365 * (y - 1970) + (y - 1969) / 4 - (y - 1901) / 100 + (y - 1601) / 400.

(** The year of day number [d]: the largest [y] with [DayFromYear y <= d],
    found from the mean length of a Gregorian year (146097 days in 400
    years) and corrected by at most one year either way. *)
Definition YearFromDay (d : Z) : Z :=
  let y := 1970 + (400 * d) / 146097 in
  if d <? DayFromYear y then y - 1
  else if DayFromYear (y + 1) <=? d then y + 1
  else y.

Definition YearFromTime (t : Z) : Z := YearFromDay (Day t).

Definition InLeapYear (t : Z) : Z :=
  if DaysInYear (YearFromTime t) =? 366 then 1 else 0.

Definition DayWithinYear (t : Z) : Z := Day t - DayFromYear (YearFromTime t).

(** Month number, [0] for January to [11] for December. *)
Definition MonthFromTime (t : Z) : Z :=
  let d := DayWithinYear t in
  let l := InLeapYear t in
  if d <? 31 then 0
  else if d <? 59 + l then 1
  else if d <? 90 + l then 2
  else if d <? 120 + l then 3
  else if d <? 151 + l then 4
  else if d <? 181 + l then 5
  else if d <? 212 + l then 6
  else if d <? 243 + l then 7
  else if d <? 273 + l then 8
  else if d <? 304 + l then 9
  else if d <? 334 + l then 10
  else 11.

(** Day of the month, from [1]. *)
Definition DateFromTime (t : Z) : Z :=
  let d := DayWithinYear t in
  let l := InLeapYear t in
  match MonthFromTime t with
  | 0 => d + 1
  | 1 => d - 30
  | 2 => d - 58 - l
  | 3 => d - 89 - l
  | 4 => d - 119 - l
  | 5 => d - 150 - l
  | 6 => d - 180 - l
  | 7 => d - 211 - l
  | 8 => d - 242 - l
  | 9 => d - 272 - l
  | 10 => d - 303 - l
  | _ => d - 333 - l
  end.

Definition HourFromTime (t : Z) : Z := (t / 3600000) mod 24.
Definition MinFromTime (t : Z) : Z := (t / 60000) mod 60.
Definition SecFromTime (t : Z) : Z := (t / 1000) mod 60.
Definition msFromTime (t : Z) : Z := t mod 1000.

(** [date.getUTCFullYear()], [date.getUTCMonth()], [date.getUTCDate()]:
    [NaN] on an Invalid Date. *)
Definition getUTCFullYear (d : Date) : option Z := option_map YearFromTime (DateValue d).
Definition getUTCMonth (d : Date) : option Z := option_map MonthFromTime (DateValue d).
Definition getUTCDate (d : Date) : option Z := option_map DateFromTime (DateValue d).

(** The local-time counterparts, [date.getFullYear()], [date.getMonth()] and
    [date.getDate()], in a process whose zone is [tza] milliseconds ahead of
    UTC. The program never calls them. *)
Definition LocalTime (tza t : Z) : Z := t + tza.
Definition getFullYear (tza : Z) (d : Date) : option Z :=
  option_map (fun t => YearFromTime (LocalTime tza t)) (DateValue d).
Definition getMonth (tza : Z) (d : Date) : option Z :=
  option_map (fun t => MonthFromTime (LocalTime tza t)) (DateValue d).
Definition getDate (tza : Z) (d : Date) : option Z :=
  option_map (fun t => DateFromTime (LocalTime tza t)) (DateValue d).

(** [TimeClip]: a time value beyond 8.64e15 ms is [NaN]. *)
Definition TimeClip (t : option Z) : option Z :=
  match t with
  | Some v => if 8640000000000000 <? Z.abs v then None else Some v
  | None => None
  end.

(** [new Date(v)] for a [Date] [v] that may be absent: a copy with the
    same time value, the epoch for [null] and an Invalid Date for
    [undefined]. *)
Definition construct (v : nullable Date) : Date :=
  match v with
  | val d => mkDate (TimeClip (DateValue d))
  | null => mkDate (Some 0)
  | undefined => mkDate None
  end.

Definition pad (w : nat) (n : Z) : string := Str.padStart w "0" (Str.of_Z n).

(** [date.toISOString()]; [None] stands for the [RangeError] thrown on an
    Invalid Date. *)
Definition toISOString (d : Date) : option string :=
  match DateValue d with
  | None => None
  | Some t =>
      let y := YearFromTime t in
      let ys :=
        if (0 <=? y) && (y <=? 9999) then pad 4 y
        else (if y <? 0 then "-" else "+") ++ pad 6 (Z.abs y) in
      Some (ys ++ "-" ++ pad 2 (MonthFromTime t + 1) ++ "-" ++ pad 2 (DateFromTime t)
            ++ "T" ++ pad 2 (HourFromTime t) ++ ":" ++ pad 2 (MinFromTime t)
            ++ ":" ++ pad 2 (SecFromTime t) ++ "." ++ pad 3 (msFromTime t) ++ "Z")
  end.

(** [MakeDay(year, month, date)] for a month [0..11] within the year, and
    the time value of that UTC midnight, which is [Date.UTC(year, month,
    date)] for every year but 0 to 99 (which [Date.UTC] reads as 1900 to
    1999). *)
Definition DaysBeforeMonth (leap : Z) (m : Z) : Z :=
  match m with
  | 0 => 0
  | 1 => 31
  | 2 => 59 + leap
  | 3 => 90 + leap
  | 4 => 120 + leap
  | 5 => 151 + leap
  | 6 => 181 + leap
  | 7 => 212 + leap
  | 8 => 243 + leap
  | 9 => 273 + leap
  | 10 => 304 + leap
  | _ => 334 + leap
  end.

Definition MakeDay (year month date : Z) : Z :=
  DayFromYear year
  + DaysBeforeMonth (if DaysInYear year =? 366 then 1 else 0) month
  + date - 1.

Definition UTC (year month date : Z) : Z := MakeDay year month date * msPerDay.

End Date.

(** [x + 1] on a Number that is integral or [NaN]. *)
Definition succ_number (x : option Z) : option Z := option_map (fun n => n + 1) x.

(* ================================================================= *)
(** * Helper functions of [src/app.js] *)
(* ================================================================= *)

(** [x !== 0] for a Number that may be absent. *)
Definition not_zero (x : nullable float) : bool :=
  match x with
  | val v => negb (v =? 0)%float
  | _ => true
  end.

(** [formatMarketCap(num)], lines 15-20. The handler does not call it. *)
Definition formatMarketCap (num : nullable float) : string :=
  if negb (truthy num) && not_zero num then "N/A"
  else
    let n := ToNumber num in
    if (n <? 1000000000)%float
    then "$" ++ Number.toFixed 2 (n / 1000000)%float ++ " Million"
    else if (n <? 1000000000000)%float
    then "$" ++ Number.toFixed 2 (n / 1000000000)%float ++ " Billion"
    else "$" ++ Number.toFixed 2 (n / 1000000000000)%float ++ " Trillion".

(** [formatDateToYMD(date)], lines 54-59. *)
Definition formatDateToYMD (date : Date) : string :=
  let year := Date.getUTCFullYear date in
  let month := Str.padStart 2 "0" (String_of (succ_number (Date.getUTCMonth date))) in
  let day := Str.padStart 2 "0" (String_of (Date.getUTCDate date)) in
  String_of year ++ "-" ++ month ++ "-" ++ day.

(* ================================================================= *)
(** * Upstream data, as the handler reads it *)
(* ================================================================= *)

(** One row of [yahooFinance.historical]. *)
Module HistoricalRow.
Record t : Type := mk { date : Date; adjClose : float }.
End HistoricalRow.

Module HistoricalOptions.
Record t : Type := mk { period1 : string; interval : string }.
End HistoricalOptions.

(** The result of [yahooFinance.quote]. *)
Module Quote.
Record t : Type := mk {
  regularMarketPrice : nullable float;
  regularMarketPreviousClose : nullable float;
  marketCap : nullable float
}.
End Quote.

(** The modules of [yahooFinance.quoteSummary] the program reads. *)
Module AssetProfile.
Record t : Type := mk {
  longBusinessSummary : nullable string;
  sector : nullable string;
  industry : nullable string;
  city : nullable string;
  country : nullable string
}.
End AssetProfile.

Module Price.
Record t : Type := mk { longName : nullable string; exchangeName : nullable string }.
End Price.

Module KeyStatistics.
Record t : Type := mk { sharesOutstanding : nullable float }.
End KeyStatistics.

Module IncomeStatement.
Record t : Type := mk { totalRevenue : nullable float; endDate : nullable Date }.
End IncomeStatement.

Module IncomeStatementHistory.
Record t : Type := mk { incomeStatementHistory : nullable (list IncomeStatement.t) }.
End IncomeStatementHistory.

Module SummaryDetail.
Record t : Type := mk { beta : nullable float }.
End SummaryDetail.

Module RawValue.
Record t : Type := mk { raw : nullable float }.
End RawValue.

Module FinancialData.
Record t : Type := mk { totalRevenue : nullable RawValue.t }.
End FinancialData.

Module QuoteSummary.
Record t : Type := mk {
  assetProfile : nullable AssetProfile.t;
  price : nullable Price.t;
  defaultKeyStatistics : nullable KeyStatistics.t;
  incomeStatementHistory : nullable IncomeStatementHistory.t;
  summaryDetail : nullable SummaryDetail.t;
  financialData : nullable FinancialData.t
}.
End QuoteSummary.

(** [a?.[0]] on an array that may be absent. *)
Definition first_of {A} (a : nullable (list A)) : nullable A :=
  match a with
  | val (x :: _) => val x
  | _ => undefined
  end.

(** A thrown or rejected error, as the [catch] blocks read it. *)
Record Error : Type := mkError { code : nullable string; message : nullable string }.

Inductive Outcome (A : Type) : Type :=
| Fulfilled (a : A)
| Rejected (e : Error).
Arguments Fulfilled {A} a.
Arguments Rejected {A} e.

(** A promise that has settled: how it settled and when, on the clock of the
    event loop. *)
Record Promise (A : Type) : Type := mkPromise { outcome : Outcome A; settledAt : nat }.
Arguments mkPromise {A}.
Arguments outcome {A}.
Arguments settledAt {A}.

(** The rejection of a promise, if any, with its time. *)
Definition rejection {A} (p : Promise A) : list (nat * Error) :=
  match outcome p with
  | Rejected e => [(settledAt p, e)]
  | Fulfilled _ => []
  end.

(** The earliest of the rejections, the first listed among equals. *)
Fixpoint earliest (rs : list (nat * Error)) : option (nat * Error) :=
  match rs with
  | [] => None
  | (t, e) :: rs' =>
      match earliest rs' with
      | Some (t', e') => if (t' <? t)%nat then Some (t', e') else Some (t, e)
      | None => Some (t, e)
      end
  end.

(** [await Promise.all([pa, pb, pc, pd])]: the four values when all are
    fulfilled, and otherwise the reason of the promise that rejected first. *)
Definition Promise_all {A B C D}
    (pa : Promise A) (pb : Promise B) (pc : Promise C) (pd : Promise D)
    : Outcome (A * B * C * D) :=
  match earliest (rejection pa ++ rejection pb ++ rejection pc ++ rejection pd)%list with
  | Some (_, e) => Rejected e
  | None =>
      match outcome pa, outcome pb, outcome pc, outcome pd with
      | Fulfilled a, Fulfilled b, Fulfilled c, Fulfilled d => Fulfilled (a, b, c, d)
      | Rejected e, _, _, _ | _, Rejected e, _, _
      | _, _, Rejected e, _ | _, _, _, Rejected e => Rejected e
      end
  end.

(* ================================================================= *)
(** * The host: provider, clock and log *)
(* ================================================================= *)

(** What a run of the handler observes of the outside: the replies of the
    data provider and the clock read by [new Date()]. *)
Record Host : Type := mkHost {
  historical : string -> HistoricalOptions.t -> Promise (list HistoricalRow.t);
  quote : string -> Promise Quote.t;
  quoteSummary : string -> list string -> Promise QuoteSummary.t;
  now : Z
}.

(** What a run does to the outside, in program order. *)
Inductive Event : Type :=
| Fetch_historical (ticker : string) (options : HistoricalOptions.t)
| Fetch_quote (ticker : string)
| Fetch_quoteSummary (ticker : string) (modules : list string)
| Console_error (text : string) (detail : nullable string).

(** A computation that reads the host and appends to the log. *)
Definition Run (A : Type) : Type := Host -> list Event -> A * list Event.

Definition ret {A} (a : A) : Run A := fun _ log => (a, log).

Definition bind {A B} (m : Run A) (k : A -> Run B) : Run B :=
  fun h log => let '(a, log') := m h log in k a h log'.

Notation "x <- m ;; k" := (bind m (fun x => k))
  (at level 61, m at next level, right associativity).
Notation "m ;;; k" := (bind m (fun _ => k))
  (at level 61, right associativity).

Definition emit (e : Event) : Run unit := fun _ log => (tt, (log ++ [e])%list).

Definition yahooFinance_historical (ticker : string) (o : HistoricalOptions.t)
    : Run (Promise (list HistoricalRow.t)) :=
  emit (Fetch_historical ticker o) ;;; fun h log => (historical h ticker o, log).

Definition yahooFinance_quote (ticker : string) : Run (Promise Quote.t) :=
  emit (Fetch_quote ticker) ;;; fun h log => (quote h ticker, log).

Definition yahooFinance_quoteSummary (ticker : string) (modules : list string)
    : Run (Promise QuoteSummary.t) :=
  emit (Fetch_quoteSummary ticker modules) ;;; fun h log => (quoteSummary h ticker modules, log).

Definition console_error (text : string) (detail : nullable string) : Run unit :=
  emit (Console_error text detail).

(** [new Date()] *)
Definition new_Date : Run Date := fun h log => (mkDate (Some (now h)), log).

(** The events of a run started on an empty log, and its result. *)
Definition run {A} (m : Run A) (h : Host) : A * list Event := m h [].
Definition result_of {A} (m : Run A) (h : Host) : A := fst (run m h).
Definition events_of {A} (m : Run A) (h : Host) : list Event := snd (run m h).

(* ================================================================= *)
(** * The response *)
(* ================================================================= *)

Module Summary.
Record t : Type := mk {
  initialInvestment : float;
  currentValue : float;
  totalReturnDollars : float;
  totalReturnPercent : float;
  ticker : string;
  startDate : string;
  sharesOwned : float;
  requestTimestamp : string
}.
End Summary.

Module ChartPoint.
Record t : Type := mk { date : string; value : float; price : float }.
End ChartPoint.

Module Profile.
Record t : Type := mk {
  name : string;
  sector : string;
  industry : string;
  summary : string;
  location : string;
  exchange : string
}.
End Profile.

Module PreviousClose.
Record t : Type := mk { value : float; asOfDate : string }.
End PreviousClose.

Module MarketCap.
Record t : Type := mk { value : nullable float; asOfDate : string }.
End MarketCap.

Module TotalRevenue.
Record t : Type := mk { value : nullable float; asOfDate : nullable string; label : string }.
End TotalRevenue.

Module Beta.
Record t : Type := mk { value : nullable float }.
End Beta.

Module Metrics.
Record t : Type := mk {
  previousClose : PreviousClose.t;
  marketCap : MarketCap.t;
  totalRevenue : TotalRevenue.t;
  beta : Beta.t
}.
End Metrics.

Module Result.
Record t : Type := mk {
  summary : Summary.t;
  chartData : list ChartPoint.t;
  profile : Profile.t;
  metrics : Metrics.t
}.
End Result.

(** The JSON body: [{ error }] or the combined result. *)
Inductive Body : Type :=
| ErrorBody (error : string)
| ResultBody (result : Result.t).

(** [res.status(status).json(body)] *)
Record Response : Type := mkResponse { status : Z; body : Body }.

(** [req.query]: each parameter is a string or absent. *)
Module Query.
Record t : Type := mk {
  ticker : nullable string;
  startDate : nullable string;
  amount : nullable string
}.
End Query.

Record Request : Type := mkRequest { query : Query.t }.

(* ================================================================= *)
(** * [getCompanyDetails], lines 27-46 *)
(* ================================================================= *)

Module CompanyDetails.
Record t : Type := mk {
  fullName : nullable string;
  businessSummary : nullable string;
  sector : nullable string;
  industry : nullable string;
  location : string;
  exchange : nullable string
}.
End CompanyDetails.

(** The object built at lines 33-40. *)
Definition companyDetails (summary : QuoteSummary.t) : CompanyDetails.t :=
  let assetProfile := QuoteSummary.assetProfile summary in
  let price := QuoteSummary.price summary in
  {| CompanyDetails.fullName := price?.Price.longName;
     CompanyDetails.businessSummary := assetProfile?.AssetProfile.longBusinessSummary;
     CompanyDetails.sector := assetProfile?.AssetProfile.sector;
     CompanyDetails.industry := assetProfile?.AssetProfile.industry;
     CompanyDetails.location :=
       interpolate (assetProfile?.AssetProfile.city) ++ ", " ++
       interpolate (assetProfile?.AssetProfile.country);
     CompanyDetails.exchange := price?.Price.exchangeName |}.

Definition profileModules : list string := ["assetProfile"; "price"].

(** The promise an invocation returns fulfils with the details, or with
    [null] once the failure of the fetch has been logged; it never rejects. *)
Definition getCompanyDetails (ticker : string) : Run (Promise (nullable CompanyDetails.t)) :=
  p <- yahooFinance_quoteSummary ticker profileModules ;;
  match outcome p with
  | Fulfilled summary =>
      ret (mkPromise (Fulfilled (val (companyDetails summary))) (settledAt p))
  | Rejected error =>
      console_error ("Error fetching profile data for " ++ ticker ++ ":") (message error) ;;;
      ret (mkPromise (Fulfilled null) (settledAt p))
  end.

(* ================================================================= *)
(** * The endpoint [GET /api/investment-data], lines 75-189 *)
(* ================================================================= *)

(** Lines 102-117: value, date and label of the revenue figure. *)
Definition resolveRevenue (summaryData : QuoteSummary.t) (lastTradingDayDate : string)
    : nullable float * nullable string * string :=
  let latestAnnualStatement :=
    first_of ((QuoteSummary.incomeStatementHistory summaryData)
                ?.IncomeStatementHistory.incomeStatementHistory) in
  let annualRevenue := latestAnnualStatement?.IncomeStatement.totalRevenue in
  let annualEnd := latestAnnualStatement?.IncomeStatement.endDate in
  let ttm :=
    (QuoteSummary.financialData summaryData)
      ?.FinancialData.totalRevenue?.RawValue.raw in
  if truthy annualRevenue && truthy annualEnd then
    (annualRevenue, val (formatDateToYMD (Date.construct annualEnd)), "Annual")
  else if truthy ttm then (ttm, val lastTradingDayDate, "TTM")
  else (null, null, "Annual").

(** Lines 122-125. *)
Definition calculatedMarketCap (quote : Quote.t) (sharesOutstanding : nullable float)
    : nullable float :=
  if truthy (Quote.regularMarketPreviousClose quote) && truthy sharesOutstanding
  then val (ToNumber (Quote.regularMarketPreviousClose quote) * ToNumber sharesOutstanding)%float
  else Quote.marketCap quote.

(** Lines 147-151: one chart point per historical row. *)
Definition chartPoint (sharesPurchased : float) (day : HistoricalRow.t) : ChartPoint.t :=
  {| ChartPoint.date := formatDateToYMD (HistoricalRow.date day);
     ChartPoint.value := round_to 2 (sharesPurchased * HistoricalRow.adjClose day)%float;
     ChartPoint.price := round_to 2 (HistoricalRow.adjClose day) |}.

(** Lines 152-159. *)
Definition profileBlock (profileData : nullable CompanyDetails.t) (ticker : string)
    : Profile.t :=
  {| Profile.name := or_else (profileData?.CompanyDetails.fullName) (Str.toUpperCase ticker);
     Profile.sector := or_else (profileData?.CompanyDetails.sector) "N/A";
     Profile.industry := or_else (profileData?.CompanyDetails.industry) "N/A";
     Profile.summary :=
       or_else (profileData?.CompanyDetails.businessSummary) "No summary available.";
     Profile.location :=
       or_else (profileData?.(fun d => val (CompanyDetails.location d))) "N/A";
     Profile.exchange := or_else (profileData?.CompanyDetails.exchange) "N/A" |}.

(** Lines 96-178: the result assembled from the four values of the join, for
    a history whose first row is [first]. *)
Definition assemble (ticker startDate amount : string)
    (first : HistoricalRow.t) (historicalData : list HistoricalRow.t)
    (quote : Quote.t) (profileData : nullable CompanyDetails.t)
    (summaryData : QuoteSummary.t) (requestTimestamp : string) : Result.t :=
  let lastRow := List.last historicalData first in
  let lastTradingDayDate := formatDateToYMD (HistoricalRow.date lastRow) in
  let '(revenueValue, revenueDate, revenueLabel) :=
    resolveRevenue summaryData lastTradingDayDate in
  let beta := (QuoteSummary.summaryDetail summaryData)?.SummaryDetail.beta in
  let sharesOutstanding :=
    (QuoteSummary.defaultKeyStatistics summaryData)?.KeyStatistics.sharesOutstanding in
  let calculatedMarketCap := calculatedMarketCap quote sharesOutstanding in
  let initialInvestment := Number.parseFloat amount in
  let startingPrice := HistoricalRow.adjClose first in
  let sharesPurchased := (initialInvestment / startingPrice)%float in
  let currentValue := (sharesPurchased * ToNumber (Quote.regularMarketPrice quote))%float in
  {| Result.summary :=
       {| Summary.initialInvestment := initialInvestment;
          Summary.currentValue := round_to 2 currentValue;
          Summary.totalReturnDollars := round_to 2 (currentValue - initialInvestment)%float;
          Summary.totalReturnPercent :=
            round_to 2 (((currentValue - initialInvestment) / initialInvestment) * 100)%float;
          Summary.ticker := Str.toUpperCase ticker;
          Summary.startDate := startDate;
          Summary.sharesOwned := round_to 6 sharesPurchased;
          Summary.requestTimestamp := requestTimestamp |};
     Result.chartData := List.map (chartPoint sharesPurchased) historicalData;
     Result.profile := profileBlock profileData ticker;
     Result.metrics :=
       {| Metrics.previousClose :=
            {| PreviousClose.value := HistoricalRow.adjClose lastRow;
               PreviousClose.asOfDate := lastTradingDayDate |};
          Metrics.marketCap :=
            {| MarketCap.value := calculatedMarketCap;
               MarketCap.asOfDate := lastTradingDayDate |};
          Metrics.totalRevenue :=
            {| TotalRevenue.value := revenueValue;
               TotalRevenue.asOfDate := revenueDate;
               TotalRevenue.label := revenueLabel |};
          Metrics.beta := {| Beta.value := beta |} |} |}.

Definition json (status : Z) (body : Body) : Response := mkResponse status body.

(** The arguments of the upstream calls, lines 84-89 and 30. *)
Definition dailySince (startDate : string) : HistoricalOptions.t :=
  {| HistoricalOptions.period1 := startDate; HistoricalOptions.interval := "1d" |}.

Definition statsModules : list string :=
  ["defaultKeyStatistics"; "incomeStatementHistory"; "summaryDetail"; "financialData"].

(** Lines 82-180, the [try] block: the response it returns, or the error it
    throws. *)
Definition tryBlock (ticker startDate amount : string) : Run (Outcome Response) :=
  ph <- yahooFinance_historical ticker (dailySince startDate) ;;
  pq <- yahooFinance_quote ticker ;;
  pp <- getCompanyDetails ticker ;;
  ps <- yahooFinance_quoteSummary ticker statsModules ;;
  match Promise_all ph pq pp ps with
  | Rejected error => ret (Rejected error)
  | Fulfilled (historicalData, quote, profileData, summaryData) =>
      match historicalData with
      | [] =>
          ret (Fulfilled (json 404
            (ErrorBody "No historical data found for the given ticker and date.")))
      | first :: _ =>
          d <- new_Date ;;
          match Date.toISOString d with
          | None => ret (Rejected (mkError undefined (val "Invalid time value")))
          | Some requestTimestamp =>
              ret (Fulfilled (json 200 (ResultBody
                (assemble ticker startDate amount first historicalData quote
                          profileData summaryData requestTimestamp))))
          end
      end
  end.

(** [x === s] for a string literal [s]. *)
Definition strict_equal (x : nullable string) (s : string) : bool :=
  match x with
  | val c => (c =? s)%string
  | _ => false
  end.

(** The test of line 184. *)
Definition signalsNotFound (error : Error) : bool :=
  strict_equal (code error) "404"
  || truthy ((message error)?.(fun m => val (Str.includes "Not Found" m))).

(** Lines 182-188, the [catch] block. *)
Definition catchBlock (ticker : string) (error : Error) : Run Response :=
  console_error ("Error in main endpoint for " ++ ticker ++ ":") (message error) ;;;
  if signalsNotFound error
  then ret (json 404 (ErrorBody ("Invalid ticker symbol: " ++ ticker)))
  else ret (json 500 (ErrorBody "An internal server error occurred.")).

(** A query parameter that passes the test of line 78. *)
Definition present (q : nullable string) : option string :=
  match q with
  | val s => if truthy s then Some s else None
  | _ => None
  end.

Definition handler (req : Request) : Run Response :=
  match present (Query.ticker (query req)),
        present (Query.startDate (query req)),
        present (Query.amount (query req)) with
  | Some ticker, Some startDate, Some amount =>
      r <- tryBlock ticker startDate amount ;;
      match r with
      | Fulfilled response => ret response
      | Rejected error => catchBlock ticker error
      end
  | _, _, _ =>
      ret (json 400
        (ErrorBody "Missing required query parameters: ticker, startDate, amount"))
  end.

(* ================================================================= *)
(** * Vocabulary of the specification *)
(* ================================================================= *)

(** The value [getCompanyDetails] fulfils with on a given host. *)
Definition profileData_of (h : Host) (ticker : string) : nullable CompanyDetails.t :=
  match outcome (quoteSummary h ticker profileModules) with
  | Fulfilled summary => val (companyDetails summary)
  | Rejected _ => null
  end.

(** The join of the handler on a given host. *)
Definition joined (h : Host) (ticker startDate : string)
    : Outcome (list HistoricalRow.t * Quote.t * nullable CompanyDetails.t * QuoteSummary.t) :=
  Promise_all
    (historical h ticker (dailySince startDate))
    (quote h ticker)
    (mkPromise (Fulfilled (profileData_of h ticker))
               (settledAt (quoteSummary h ticker profileModules)))
    (quoteSummary h ticker statsModules).

(** The handler answers the request with status 200 and the result [res]. *)
Definition succeeds (req : Request) (h : Host) (res : Result.t) : Prop :=
  result_of (handler req) h = json 200 (ResultBody res).

(** The most recent annual statement and the trailing-twelve-month figure,
    as lines 106-113 read them. *)
Definition latestAnnualStatement (sd : QuoteSummary.t) : nullable IncomeStatement.t :=
  first_of ((QuoteSummary.incomeStatementHistory sd)
              ?.IncomeStatementHistory.incomeStatementHistory).

Definition trailingRevenue (sd : QuoteSummary.t) : nullable float :=
  (QuoteSummary.financialData sd)?.FinancialData.totalRevenue?.RawValue.raw.

(** A query parameter that was not sent. *)
Definition absent (q : nullable string) : Prop := q = undefined.

Definition missingParameter (req : Request) : Prop :=
  absent (Query.ticker (query req)) \/
  absent (Query.startDate (query req)) \/
  absent (Query.amount (query req)).

(** The rejections among the three fetches that can fail the join. *)
Definition upstreamRejections (h : Host) (ticker startDate : string) : list (nat * Error) :=
  (rejection (historical h ticker (dailySince startDate))
   ++ rejection (quote h ticker)
   ++ rejection (quoteSummary h ticker statsModules))%list.

(** The number of days of month [m] (from [0]) in a year of [365 + leap] days. *)
Definition DaysInMonth (leap m : Z) : Z :=
  match m with
  | 1 => 28 + leap
  | 3 | 5 | 8 | 10 => 30
  | _ => 31
  end.

Definition leapOf (y : Z) : Z := if Date.DaysInYear y =? 366 then 1 else 0.

(** A calendar date: a month [0..11] and a day of that month. *)
Definition validDate (y m d : Z) : Prop :=
  0 <= m <= 11 /\ 1 <= d <= DaysInMonth (leapOf y) m.

(** The text [YYYY-MM-DD], written digit by digit. *)
Definition two_digits (n : Z) : string :=
  String (Str.digit (n / 10)) (String (Str.digit (n mod 10)) "").

Definition four_digits (n : Z) : string := two_digits (n / 100) ++ two_digits (n mod 100).

Definition ymd_text (year month day : Z) : string :=
  four_digits year ++ "-" ++ two_digits month ++ "-" ++ two_digits day.

(** The shape [dddd-dd-dd]. *)
Definition isYMD (s : string) : bool :=
  match list_ascii_of_string s with
  | [y1; y2; y3; y4; h1; m1; m2; h2; d1; d2] =>
      forallb Number.is_digit [y1; y2; y3; y4; m1; m2; d1; d2]
      && (h1 =? "-")%char && (h2 =? "-")%char
  | _ => false
  end.

(** Texts in ascending (non-decreasing) lexicographic order, which on
    [YYYY-MM-DD] texts is the order of the calendar. *)
Fixpoint ascending (l : list string) : bool :=
  match l with
  | a :: (b :: _) as l' => String.leb a b && ascending l'
  | _ => true
  end.

(** A valid date within the years 1000 to 9999. *)
Definition fourDigitYear (d : Date) : bool :=
  match DateValue d with
  | Some t => (Date.UTC 1000 0 1 <=? t) && (t <? Date.UTC 10000 0 1)
  | None => false
  end.

(** Valid dates, each no earlier than the one before. *)
Fixpoint nondecreasing (ds : list Date) : bool :=
  match ds with
  | a :: (b :: _) as ds' =>
      match DateValue a, DateValue b with
      | Some ta, Some tb => (ta <=? tb) && nondecreasing ds'
      | _, _ => false
      end
  | _ => true
  end.

(** A historical series in chronological order: valid dates within the
    years 1000 to 9999, each no earlier than the one before. *)
Definition chronological (rows : list HistoricalRow.t) : bool :=
  forallb fourDigitYear (List.map HistoricalRow.date rows)
  && nondecreasing (List.map HistoricalRow.date rows).

(** Two hosts whose provider gives the same replies, whenever they arrive. *)
Definition sameReplies (h1 h2 : Host) : Prop :=
  (forall t o, outcome (historical h1 t o) = outcome (historical h2 t o)) /\
  (forall t, outcome (quote h1 t) = outcome (quote h2 t)) /\
  (forall t ms, outcome (quoteSummary h1 t ms) = outcome (quoteSummary h2 t ms)).

(** The failure that reaches the join first, if any of the three fetches
    fails. *)
Definition firstFailure (h : Host) (ticker startDate : string) : option Error :=
  option_map snd (earliest (upstreamRejections h ticker startDate)).

(** Two hosts whose provider gives the same replies, of which the same one
    fails first. *)
Definition sameRun (h1 h2 : Host) : Prop :=
  sameReplies h1 h2 /\
  forall ticker startDate,
    firstFailure h1 ticker startDate = firstFailure h2 ticker startDate.

(** A response with [summary.requestTimestamp] blanked. *)
Definition withoutTimestamp (r : Response) : Response :=
  match body r with
  | ErrorBody _ => r
  | ResultBody res =>
      let s := Result.summary res in
      mkResponse (status r) (ResultBody
        {| Result.summary :=
             {| Summary.initialInvestment := Summary.initialInvestment s;
                Summary.currentValue := Summary.currentValue s;
                Summary.totalReturnDollars := Summary.totalReturnDollars s;
                Summary.totalReturnPercent := Summary.totalReturnPercent s;
                Summary.ticker := Summary.ticker s;
                Summary.startDate := Summary.startDate s;
                Summary.sharesOwned := Summary.sharesOwned s;
                Summary.requestTimestamp := "" |};
           Result.chartData := Result.chartData res;
           Result.profile := Result.profile res;
           Result.metrics := Result.metrics res |})
  end.

(** [y] is [x] rounded to [k] decimals. A finite [x] of magnitude
    [num / den] below 1e21 is rounded to the decimal [n / 10 ^ k] nearest to
    its magnitude, the larger of two that are equally near: [n] is the
    integer with [n - 1/2 <= num / den * 10 ^ k < n + 1/2]; [y] is the Number
    nearest to that decimal, with the sign of [x]. [NaN] and the infinities
    are kept, and a zero becomes [0]. (From 1e21 on, where every Number is an
    integer, the relation asks nothing.) *)
Definition roundedTo (k : nat) (x y : float) : Prop :=
  match Prim2SF x with
  | S754_nan => y = nan
  | S754_infinity _ => y = x
  | S754_zero _ => y = zero
  | S754_finite negative m e =>
      let num := Zpos m * 2 ^ Z.max 0 e in
      let den := 2 ^ Z.max 0 (- e) in
      num < 10 ^ 21 * den ->
      exists n : Z,
        2 * n * den - den <= 2 * num * 10 ^ Z.of_nat k < 2 * n * den + den /\
        y = Number.of_decimal negative n (- Z.of_nat k)
  end.

(** The text [t] occurs in [s]. *)
Definition occursIn (t s : string) : Prop := exists a b, s = a ++ t ++ b.

(** An error that signals not-found: its code is the string '404', or it
    has a message in which 'Not Found' occurs. *)
Definition notFoundError (error : Error) : Prop :=
  code error = val "404" \/
  exists m, message error = val m /\ occursIn "Not Found" m.

(* ================================================================= *)
(** * Example runs *)
(* ================================================================= *)

(** A host whose provider gives the same four replies for every ticker. *)
Definition hostOf (rows : Promise (list HistoricalRow.t)) (q : Promise Quote.t)
    (profile stats : Promise QuoteSummary.t) (clock : Z) : Host :=
  {| historical := fun _ _ => rows;
     quote := fun _ => q;
     quoteSummary := fun _ modules =>
       match modules with
       | "assetProfile" :: _ => profile
       | _ => stats
       end;
     now := clock |}.

Definition fulfilled {A} (a : A) : Promise A := mkPromise (Fulfilled a) 1.
Definition rejected {A} (text : string) (t : nat) : Promise A :=
  mkPromise (Rejected (mkError undefined (val text))) t.

Definition exampleRequest : Request :=
  mkRequest (Query.mk (val "aapl") (val "2024-01-01") (val "1000")).

Definition day1 : HistoricalRow.t :=
  HistoricalRow.mk (mkDate (Some (Date.UTC 2024 0 2))) 100.
Definition day2 : HistoricalRow.t :=
  HistoricalRow.mk (mkDate (Some (Date.UTC 2024 0 3 + 52200000))) 49.

Definition exampleQuote : Quote.t :=
  {| Quote.regularMarketPrice := val 120%float;
     Quote.regularMarketPreviousClose := val 50%float;
     Quote.marketCap := val 60000000%float |}.

Definition exampleProfile : QuoteSummary.t :=
  {| QuoteSummary.assetProfile :=
       val {| AssetProfile.longBusinessSummary := val "Makes things.";
              AssetProfile.sector := val "Technology";
              AssetProfile.industry := val "Consumer Electronics";
              AssetProfile.city := val "Cupertino";
              AssetProfile.country := val "United States" |};
     QuoteSummary.price :=
       val {| Price.longName := val "Apple Inc."; Price.exchangeName := val "NasdaqGS" |};
     QuoteSummary.defaultKeyStatistics := undefined;
     QuoteSummary.incomeStatementHistory := undefined;
     QuoteSummary.summaryDetail := undefined;
     QuoteSummary.financialData := undefined |}.

(** A profile whose [assetProfile] has neither [city] nor [country]. *)
Definition sparseProfile : QuoteSummary.t :=
  {| QuoteSummary.assetProfile :=
       val {| AssetProfile.longBusinessSummary := undefined;
              AssetProfile.sector := val "Technology";
              AssetProfile.industry := undefined;
              AssetProfile.city := undefined;
              AssetProfile.country := undefined |};
     QuoteSummary.price := undefined;
     QuoteSummary.defaultKeyStatistics := undefined;
     QuoteSummary.incomeStatementHistory := undefined;
     QuoteSummary.summaryDetail := undefined;
     QuoteSummary.financialData := undefined |}.

(** Statistics with an annual statement of revenue [annual] ending on
    2023-12-31, trailing-twelve-month revenue 1200 and a million shares. *)
Definition statsWith (annual : float) : QuoteSummary.t :=
  {| QuoteSummary.assetProfile := undefined;
     QuoteSummary.price := undefined;
     QuoteSummary.defaultKeyStatistics :=
       val {| KeyStatistics.sharesOutstanding := val 1000000%float |};
     QuoteSummary.incomeStatementHistory :=
       val {| IncomeStatementHistory.incomeStatementHistory :=
                val [ {| IncomeStatement.totalRevenue := val annual;
                         IncomeStatement.endDate :=
                           val (mkDate (Some (Date.UTC 2023 11 31))) |} ] |};
     QuoteSummary.summaryDetail := val {| SummaryDetail.beta := val 1.25%float |};
     QuoteSummary.financialData :=
       val {| FinancialData.totalRevenue := val {| RawValue.raw := val 1200%float |} |} |}.

Definition exampleClock : Z := Date.UTC 2024 2 1 + 123.

Definition exampleHost : Host :=
  hostOf (fulfilled [day1; day2]) (fulfilled exampleQuote)
         (fulfilled exampleProfile) (fulfilled (statsWith 1000)) exampleClock.

(** The same upstream data with an annual revenue of zero. *)
Definition zeroRevenueHost : Host :=
  hostOf (fulfilled [day1; day2]) (fulfilled exampleQuote)
         (fulfilled exampleProfile) (fulfilled (statsWith 0)) exampleClock.

(** The same upstream data with the series in descending order. *)
Definition descendingHost : Host :=
  hostOf (fulfilled [day2; day1]) (fulfilled exampleQuote)
         (fulfilled exampleProfile) (fulfilled (statsWith 1000)) exampleClock.

Definition emptyHistoryHost : Host :=
  hostOf (fulfilled []) (fulfilled exampleQuote)
         (fulfilled exampleProfile) (fulfilled (statsWith 1000)) exampleClock.

Definition profileDownHost : Host :=
  hostOf (fulfilled [day1; day2]) (fulfilled exampleQuote)
         (rejected "Service Unavailable" 1) (fulfilled (statsWith 1000)) exampleClock.

Definition sparseProfileHost : Host :=
  hostOf (fulfilled [day1; day2]) (fulfilled exampleQuote)
         (fulfilled sparseProfile) (fulfilled (statsWith 1000)) exampleClock.

(** The historical fetch fails with a not-found error and the quote fetch
    with a network error; the first host hears of the former first, the
    second of the latter. *)
Definition raceHost (historicalAt quoteAt : nat) : Host :=
  hostOf (rejected "Not Found" historicalAt) (rejected "socket hang up" quoteAt)
         (fulfilled exampleProfile) (fulfilled (statsWith 1000)) exampleClock.

(** A run whose figures do not come out even: a starting price of 7, a last
    adjusted close of 49.006 and a current price of 9.5. *)
Definition unevenDay1 : HistoricalRow.t :=
  HistoricalRow.mk (mkDate (Some (Date.UTC 2024 0 2))) 7.
Definition unevenDay2 : HistoricalRow.t :=
  HistoricalRow.mk (mkDate (Some (Date.UTC 2024 0 3))) (49006 / 1000).

Definition unevenQuote : Quote.t :=
  {| Quote.regularMarketPrice := val 9.5%float;
     Quote.regularMarketPreviousClose := val 50%float;
     Quote.marketCap := val 60000000%float |}.

Definition unevenHost : Host :=
  hostOf (fulfilled [unevenDay1; unevenDay2]) (fulfilled unevenQuote)
         (fulfilled exampleProfile) (fulfilled (statsWith 1000)) exampleClock.

(** The digits of a text, and the number they write after [acc]. *)
Fixpoint all_digits (s : string) : bool :=
  match s with
  | EmptyString => true
  | String c s' => Number.is_digit c && all_digits s'
  end.

Fixpoint digits_value (s : string) (acc : Z) : Z :=
  match s with
  | EmptyString => acc
  | String c s' => digits_value s' (10 * acc + Z.of_nat (nat_of_ascii c - 48))
  end.

(** The integers [lo], ..., [lo + len - 1]. *)
Definition upto (lo len : Z) : list Z :=
  List.map (fun i => lo + Z.of_nat i) (List.seq 0 (Z.to_nat len)).

(** Lexicographic combination of two comparisons. *)
Definition lex (c1 c2 : comparison) : comparison :=
  match c1 with Eq => c2 | _ => c1 end.

(* ================================================================= *)
(** * Vocabulary of the further properties *)
(* ================================================================= *)

(** The entries the two [catch] blocks write to the console, lines 43 and
    183: one for a failed profile fetch, one for the failure that rejects
    the join. *)
Definition profileErrorLog (h : Host) (ticker : string) : list Event :=
  match outcome (quoteSummary h ticker profileModules) with
  | Rejected error =>
      [Console_error ("Error fetching profile data for " ++ ticker ++ ":") (message error)]
  | Fulfilled _ => []
  end.

Definition mainErrorLog (h : Host) (ticker startDate : string) : list Event :=
  match firstFailure h ticker startDate with
  | Some error =>
      [Console_error ("Error in main endpoint for " ++ ticker ++ ":") (message error)]
  | None => []
  end.

(** An upstream call, as opposed to a console entry. *)
Definition isFetch (e : Event) : bool :=
  match e with
  | Console_error _ _ => false
  | _ => true
  end.

(** A request one of whose parameters fails the test of line 78: it is
    [undefined], [null] or the empty string. *)
Definition falsyParameter (req : Request) : Prop :=
  truthy (Query.ticker (query req)) = false \/
  truthy (Query.startDate (query req)) = false \/
  truthy (Query.amount (query req)) = false.

(** ASCII text, and the lower-case letters in it. *)
Definition isASCII (s : string) : bool :=
  forallb (fun c => (nat_of_ascii c <? 128)%nat) (list_ascii_of_string s).

Definition isLower (c : ascii) : bool :=
  let n := nat_of_ascii c in ((97 <=? n) && (n <=? 122))%nat.

Fixpoint hasLower (s : string) : bool :=
  match s with
  | EmptyString => false
  | String c s' => isLower c || hasLower s'
  end.

(** The letters of the alphabet, and a text in upper case: each small
    letter replaced by the capital at its place in the alphabet, every other
    character kept. *)
Definition lowerCaseLetters : string := "abcdefghijklmnopqrstuvwxyz".
Definition upperCaseLetters : string := "ABCDEFGHIJKLMNOPQRSTUVWXYZ".

Fixpoint capitalAmong (smalls capitals : string) (c : ascii) : ascii :=
  match smalls, capitals with
  | String l smalls', String u capitals' =>
      if (c =? l)%char then u else capitalAmong smalls' capitals' c
  | _, _ => c
  end.

Fixpoint inUpperCase (s : string) : string :=
  match s with
  | EmptyString => EmptyString
  | String c s' => String (capitalAmong lowerCaseLetters upperCaseLetters c) (inUpperCase s')
  end.

(** The Numbers [NaN], [0] and [-0]. *)
Definition nanOrZero (x : float) : Prop :=
  Prim2SF x = S754_nan \/ exists s, Prim2SF x = S754_zero s.

(** Two hosts that differ at most in the reply to the profile fetch and in
    the time at which it arrives. *)
Definition sameButProfile (h1 h2 : Host) : Prop :=
  (forall t o, historical h1 t o = historical h2 t o) /\
  (forall t, quote h1 t = quote h2 t) /\
  (forall t, quoteSummary h1 t statsModules = quoteSummary h2 t statsModules) /\
  now h1 = now h2.

(** The example request with an amount that is not a number, and with an
    amount of zero. *)
Definition wordsRequest : Request :=
  mkRequest (Query.mk (val "aapl") (val "2024-01-01") (val "a lot")).

Definition nothingRequest : Request :=
  mkRequest (Query.mk (val "aapl") (val "2024-01-01") (val "0")).

(** The example request for a ticker of mixed case. *)
Definition mixedRequest : Request :=
  mkRequest (Query.mk (val "Brk.b") (val "2024-01-01") (val "1000")).

(* ================================================================= *)
(** * The runtime on examples *)
(* ================================================================= *)

(** [toFixed] rounds the exact binary value, half up in magnitude, and keeps
    the sign; from 1e21 on it gives the exponential text of [toString]. *)
Example toFixed_examples :
  Number.toFixed 2 1200 = "1200.00"
  /\ Number.toFixed 2 (Number.parseFloat "0.125") = "0.13"
  /\ Number.toFixed 2 (Number.parseFloat "1.005") = "1.00"
  /\ Number.toFixed 6 (1000 / 3) = "333.333333"
  /\ Number.toFixed 2 (Number.parseFloat "-0.001") = "-0.00"
  /\ Number.toFixed 2 (0 / 0) = "NaN"
  /\ Number.toFixed 2 (Number.parseFloat "1e21") = "1e+21".
Proof. repeat split; vm_compute; reflexivity. Qed.

(** [parseFloat] reads the longest numeric prefix and rounds it to the
    nearest Number. *)
Example parseFloat_examples :
  Number.parseFloat "1000" = 1000%float
  /\ Number.parseFloat "  -12.5e2xyz" = (-1250)%float
  /\ Number.parseFloat ".5" = 0.5%float
  /\ Number.parseFloat "1e" = 1%float
  /\ Number.parseFloat "abc" = nan
  /\ Number.parseFloat "" = nan
  /\ Number.parseFloat "9007199254740993" = 9007199254740992%float
  /\ Number.parseFloat "0.1" = (1 / 10)%float
  /\ Number.toString (Number.parseFloat "0.1" + Number.parseFloat "0.2") = "0.30000000000000004".
Proof. repeat split; vm_compute; reflexivity. Qed.

(** [formatMarketCap] tells a market cap of zero from a missing one. *)
Example formatMarketCap_examples :
  formatMarketCap (val 0%float) = "$0.00 Million"
  /\ formatMarketCap undefined = "N/A"
  /\ formatMarketCap (val 2950000000000%float) = "$2.95 Trillion".
Proof. repeat split; vm_compute; reflexivity. Qed.

(** A request that passes validation issues the four fetches, in the order
    of lines 84-89. *)
Example example_run_events :
  events_of (handler exampleRequest) exampleHost =
  [ Fetch_historical "aapl" (dailySince "2024-01-01");
    Fetch_quote "aapl";
    Fetch_quoteSummary "aapl" profileModules;
    Fetch_quoteSummary "aapl" statsModules ].
Proof. vm_compute. reflexivity. Qed.

(* ================================================================= *)
(** * The join and the shape of a run *)
(* ================================================================= *)

Lemma earliest_None (rs : list (nat * Error)) : earliest rs = None -> rs = [].
Proof.
  destruct rs as [|[t e] rs]; simpl; [reflexivity|].
  destruct (earliest rs) as [[t' e']|]; [destruct (t' <? t)%nat|]; discriminate.
Qed.

Lemma earliest_In (rs : list (nat * Error)) (t : nat) (e : Error) :
  earliest rs = Some (t, e) -> In (t, e) rs.
Proof.
  revert t e; induction rs as [|[t0 e0] rs IH]; simpl; intros t e; [discriminate|].
  destruct (earliest rs) as [[t' e']|].
  - destruct (t' <? t0)%nat; intros [= <- <-]; [right; apply IH; reflexivity | left; reflexivity].
  - intros [= <- <-]; left; reflexivity.
Qed.

Lemma earliest_least (rs : list (nat * Error)) (t : nat) (e : Error) :
  earliest rs = Some (t, e) -> forall t' e', In (t', e') rs -> (t <= t')%nat.
Proof.
  revert t e; induction rs as [|[t0 e0] rs IH]; simpl; intros t e; [discriminate|].
  destruct (earliest rs) as [[t1 e1]|] eqn:E.
  - destruct (Nat.ltb_spec t1 t0) as [Hlt|Hge]; intros [= <- <-] t' e' [[= <- <-]|Hin].
    + lia.
    + eapply IH; [reflexivity | exact Hin].
    + lia.
    + specialize (IH t1 e1 eq_refl t' e' Hin). lia.
  - apply earliest_None in E; subst rs.
    intros [= <- <-] t' e' [[= <- <-]|[]]. lia.
Qed.

Section Join.
Context {A B C D : Type}.
Variables (pa : Promise A) (pb : Promise B) (pc : Promise C) (pd : Promise D).

(** The join fulfils exactly when its four promises do. *)
Lemma Promise_all_fulfilled (a : A) (b : B) (c : C) (d : D) :
  Promise_all pa pb pc pd = Fulfilled (a, b, c, d) <->
  outcome pa = Fulfilled a /\ outcome pb = Fulfilled b /\
  outcome pc = Fulfilled c /\ outcome pd = Fulfilled d.
Proof.
  unfold Promise_all, rejection.
  destruct (outcome pa), (outcome pb), (outcome pc), (outcome pd); simpl;
    repeat match goal with
           | |- context [earliest ?l] => destruct (earliest l) as [[? ?]|]
           | |- context [(?x <? ?y)%nat] => destruct (x <? y)%nat
           end;
    split; try (intros [= -> -> -> ->]; auto; fail);
    try discriminate;
    try (intros (H1 & H2 & H3 & H4); congruence).
Qed.

(** It rejects with the reason of one of the promises that rejected, one
    that no other rejection preceded. *)
Lemma Promise_all_rejected (e : Error) :
  Promise_all pa pb pc pd = Rejected e ->
  exists t, In (t, e) (rejection pa ++ rejection pb ++ rejection pc ++ rejection pd)%list
    /\ forall t' e',
         In (t', e') (rejection pa ++ rejection pb ++ rejection pc ++ rejection pd)%list ->
         (t <= t')%nat.
Proof.
  unfold Promise_all.
  destruct (earliest _) as [[t e0]|] eqn:E.
  - intros [= <-]. exists t. split; [eapply earliest_In | eapply earliest_least]; exact E.
  - apply earliest_None in E. revert E. unfold rejection.
    destruct (outcome pa), (outcome pb), (outcome pc), (outcome pd); simpl; discriminate.
Qed.

(** It rejects as soon as one of them does. *)
Lemma Promise_all_rejects :
  (rejection pa ++ rejection pb ++ rejection pc ++ rejection pd)%list <> [] ->
  exists e, Promise_all pa pb pc pd = Rejected e.
Proof.
  unfold Promise_all. intros H.
  destruct (earliest _) as [[t e0]|] eqn:E; [eauto|].
  apply earliest_None in E. contradiction.
Qed.
End Join.

(** The result and the log of [getCompanyDetails]. *)
Lemma getCompanyDetails_run (ticker : string) (h : Host) (log : list Event) :
  getCompanyDetails ticker h log =
  (mkPromise (Fulfilled (profileData_of h ticker))
             (settledAt (quoteSummary h ticker profileModules)),
   match outcome (quoteSummary h ticker profileModules) with
   | Fulfilled _ => (log ++ [Fetch_quoteSummary ticker profileModules])%list
   | Rejected error =>
       ((log ++ [Fetch_quoteSummary ticker profileModules]) ++
        [Console_error ("Error fetching profile data for " ++ ticker ++ ":") (message error)])%list
   end).
Proof.
  unfold getCompanyDetails, profileData_of, yahooFinance_quoteSummary, console_error,
    bind, emit, ret; simpl.
  destruct (outcome (quoteSummary h ticker _)); reflexivity.
Qed.

(** The response of the [try] block in terms of the join. *)
Lemma tryBlock_result (ticker startDate amount : string) (h : Host) :
  result_of (tryBlock ticker startDate amount) h =
  match joined h ticker startDate with
  | Rejected error => Rejected error
  | Fulfilled (historicalData, quote, profileData, summaryData) =>
      match historicalData with
      | [] => Fulfilled (json 404
                (ErrorBody "No historical data found for the given ticker and date."))
      | first :: _ =>
          match Date.toISOString (mkDate (Some (now h))) with
          | None => Rejected (mkError undefined (val "Invalid time value"))
          | Some requestTimestamp =>
              Fulfilled (json 200 (ResultBody
                (assemble ticker startDate amount first historicalData quote
                          profileData summaryData requestTimestamp)))
          end
      end
  end.
Proof.
  unfold result_of, run, tryBlock, joined.
  unfold bind at 1. unfold yahooFinance_historical, bind, emit; simpl.
  unfold yahooFinance_quote, bind, emit; simpl.
  rewrite getCompanyDetails_run.
  unfold yahooFinance_quoteSummary, bind, emit; simpl.
  destruct (Promise_all _ _ _ _) as [[[[hd q] pdv] sd]|e]; [|reflexivity].
  destruct hd as [|first rest]; [reflexivity|].
  unfold new_Date; simpl.
  destruct (Date.toISOString (mkDate (Some (now h)))); reflexivity.
Qed.

(** The clock always yields a timestamp. *)
Lemma toISOString_now (t : Z) : exists s, Date.toISOString (mkDate (Some t)) = Some s.
Proof. unfold Date.toISOString; simpl. eexists; reflexivity. Qed.

(** The response of the handler, for parameters that pass validation. *)
Lemma handler_result (req : Request) (h : Host) (ticker startDate amount : string) :
  present (Query.ticker (query req)) = Some ticker ->
  present (Query.startDate (query req)) = Some startDate ->
  present (Query.amount (query req)) = Some amount ->
  result_of (handler req) h =
  match result_of (tryBlock ticker startDate amount) h with
  | Fulfilled response => response
  | Rejected error =>
      if signalsNotFound error
      then json 404 (ErrorBody ("Invalid ticker symbol: " ++ ticker))
      else json 500 (ErrorBody "An internal server error occurred.")
  end.
Proof.
  intros Ht Hs Ha. unfold result_of, run, handler. rewrite Ht, Hs, Ha.
  unfold bind.
  destruct (tryBlock ticker startDate amount h []) as [[response|error] log]; simpl;
    [reflexivity|].
  unfold catchBlock, bind, console_error, emit; simpl.
  destruct (signalsNotFound error); reflexivity.
Qed.

(** The handler answers 200 only through the assembly of a result. *)
Lemma handler_200 (req : Request) (h : Host) (r : Response) :
  result_of (handler req) h = r -> status r = 200 ->
  exists ticker startDate amount first rest quoteData summaryData requestTimestamp,
    present (Query.ticker (query req)) = Some ticker /\
    present (Query.startDate (query req)) = Some startDate /\
    present (Query.amount (query req)) = Some amount /\
    outcome (historical h ticker (dailySince startDate)) = Fulfilled (first :: rest) /\
    outcome (quote h ticker) = Fulfilled quoteData /\
    outcome (quoteSummary h ticker statsModules) = Fulfilled summaryData /\
    Date.toISOString (mkDate (Some (now h))) = Some requestTimestamp /\
    body r = ResultBody
      (assemble ticker startDate amount first (first :: rest) quoteData
                (profileData_of h ticker) summaryData requestTimestamp).
Proof.
  intros Hr Hst.
  destruct (present (Query.ticker (query req))) as [ticker|] eqn:Ht;
  [destruct (present (Query.startDate (query req))) as [startDate|] eqn:Hs;
   [destruct (present (Query.amount (query req))) as [amount|] eqn:Ha|]|].
  - rewrite (handler_result req h ticker startDate amount Ht Hs Ha) in Hr.
    rewrite tryBlock_result in Hr.
    destruct (joined h ticker startDate) as [[[[hd q] pdv] sd]|e] eqn:J.
    + apply Promise_all_fulfilled in J. simpl in J. destruct J as (Jh & Jq & Jp & Js).
      destruct hd as [|first rest]; [subst r; discriminate|].
      destruct (Date.toISOString _) as [ts|] eqn:T.
      * subst r. exists ticker, startDate, amount, first, rest, q, sd, ts.
        injection Jp as <-. repeat split; auto.
      * destruct (toISOString_now (now h)) as [s Hs']. congruence.
    + destruct (signalsNotFound e); subst r; discriminate.
  - subst r. unfold result_of, run, handler in Hst. rewrite Ht, Hs, Ha in Hst. discriminate.
  - subst r. unfold result_of, run, handler in Hst. rewrite Ht, Hs in Hst. discriminate.
  - subst r. unfold result_of, run, handler in Hst. rewrite Ht in Hst. discriminate.
Qed.

(* ================================================================= *)
(** * Numbers and their decimal text *)
(* ================================================================= *)

Module Decimal.


Lemma digit_code (d : Z) : 0 <= d <= 9 ->
  Number.is_digit (Str.digit d) = true /\ Z.of_nat (nat_of_ascii (Str.digit d) - 48) = d.
Proof.
  intros H.
  assert (E : d = 0 \/ d = 1 \/ d = 2 \/ d = 3 \/ d = 4 \/ d = 5 \/ d = 6 \/ d = 7 \/
              d = 8 \/ d = 9) by lia.
  destruct E as [E|[E|[E|[E|[E|[E|[E|[E|[E|E]]]]]]]]]; subst d; split; reflexivity.
Qed.

Lemma all_digits_app (a b : string) :
  all_digits (a ++ b) = all_digits a && all_digits b.
Proof.
  induction a as [|c a IH]; [reflexivity|]. cbn [append all_digits]. rewrite IH.
  apply andb_assoc.
Qed.

Lemma digits_value_app (a b : string) (acc : Z) :
  digits_value (a ++ b) acc = digits_value b (digits_value a acc).
Proof.
  revert acc; induction a as [|c a IH]; intros acc; [reflexivity|].
  cbn [append digits_value]. apply IH.
Qed.

Lemma append_assoc (a b c : string) : (a ++ b) ++ c = a ++ (b ++ c).
Proof. induction a as [|x a IH]; [reflexivity|]. cbn [append]. rewrite IH. reflexivity. Qed.

Lemma append_nil_r (a : string) : a ++ "" = a.
Proof. induction a as [|x a IH]; [reflexivity|]. cbn [append]. rewrite IH. reflexivity. Qed.

Lemma length_app (a b : string) :
  String.length (a ++ b) = (String.length a + String.length b)%nat.
Proof. induction a as [|c a IH]; [reflexivity|]. cbn [append String.length]. rewrite IH. reflexivity. Qed.

(** Scanning reads a run of digits whole. *)
Lemma scan_digits_app (ds rest : string) (acc cnt : Z) :
  all_digits ds = true ->
  Number.scan_digits (ds ++ rest) acc cnt =
  Number.scan_digits rest (digits_value ds acc) (cnt + Z.of_nat (String.length ds)).
Proof.
  revert acc cnt; induction ds as [|c ds IH]; intros acc cnt H.
  - cbn [append digits_value String.length]. f_equal. lia.
  - cbn [all_digits] in H. apply andb_true_iff in H. destruct H as [Hc H].
    cbn [append Number.scan_digits]. rewrite Hc.
    rewrite IH by exact H. cbn [digits_value String.length]. f_equal. lia.
Qed.

(** The digits of [n], written before [acc]. *)
Lemma digits_spec (fuel : nat) : forall (n : Z) (acc : string),
  (1 <= fuel)%nat -> 0 <= n < 10 ^ Z.of_nat fuel ->
  exists D,
    Str.digits fuel n acc = D ++ acc /\ all_digits D = true /\
    (1 <= String.length D)%nat /\
    forall a0, digits_value D a0 = a0 * 10 ^ Z.of_nat (String.length D) + n.
Proof.
  induction fuel as [|fuel IH]; intros n acc Hf Hn; [lia|].
  cbn [Str.digits].
  assert (Hd : 0 <= n mod 10 <= 9) by (Z.div_mod_to_equations; lia).
  destruct (digit_code (n mod 10) Hd) as [Dg Dv].
  destruct (Z.eqb_spec (n / 10) 0) as [E|E].
  - exists (String (Str.digit (n mod 10)) ""). repeat split.
    + cbn [all_digits]. rewrite Dg. reflexivity.
    + cbn. lia.
    + intros a0. cbn [digits_value String.length]. rewrite Dv.
      change (Z.of_nat 1) with 1. Z.div_mod_to_equations; lia.
  - assert (Hf' : (1 <= fuel)%nat).
    { destruct fuel; [|lia]. exfalso. apply E. change (10 ^ Z.of_nat 1) with 10 in Hn.
      Z.div_mod_to_equations; lia. }
    assert (Hn' : 0 <= n / 10 < 10 ^ Z.of_nat fuel).
    { rewrite Nat2Z.inj_succ, Z.pow_succ_r in Hn by lia. Z.div_mod_to_equations; lia. }
    destruct (IH (n / 10) (String (Str.digit (n mod 10)) acc) Hf' Hn')
      as (D' & ED & AD & LD & VD).
    exists (D' ++ String (Str.digit (n mod 10)) ""). repeat split.
    + rewrite ED. rewrite append_assoc. reflexivity.
    + rewrite all_digits_app, AD. cbn [all_digits]. rewrite Dg. reflexivity.
    + rewrite length_app. lia.
    + intros a0. rewrite digits_value_app, VD. cbn [digits_value]. rewrite Dv.
      rewrite length_app. cbn [String.length].
      replace (Z.of_nat (String.length D' + 1)) with (Z.succ (Z.of_nat (String.length D')))
        by lia.
      rewrite Z.pow_succ_r by lia. Z.div_mod_to_equations; nia.
Qed.

Lemma of_Z_spec (n : Z) : 0 <= n ->
  all_digits (Str.of_Z n) = true /\ (1 <= String.length (Str.of_Z n))%nat /\
  digits_value (Str.of_Z n) 0 = n.
Proof.
  intros H. unfold Str.of_Z.
  destruct (Z.ltb_spec n 0) as [?|_]; [lia|]. rewrite Z.abs_eq by exact H.
  assert (B : 0 <= n < 10 ^ Z.of_nat (S (Z.to_nat (Z.log2 n)))).
  { split; [exact H|]. rewrite Nat2Z.inj_succ, Z2Nat.id by apply Z.log2_nonneg.
    destruct (Z.eq_dec n 0) as [->|Hz]; [reflexivity|].
    pose proof (Z.log2_spec n ltac:(lia)) as [_ U].
    apply Z.lt_le_trans with (1 := U).
    apply Z.pow_le_mono_l. pose proof (Z.log2_nonneg n). lia. }
  destruct (digits_spec (S (Z.to_nat (Z.log2 n))) n "" (le_n_S _ _ (Nat.le_0_l _)) B)
    as (D & E & A & L & V).
  rewrite E, append_nil_r.
  repeat split; [exact A | exact L |]. rewrite V. lia.
Qed.


Lemma take_drop (n : nat) (s : string) : Str.take n s ++ Str.drop n s = s.
Proof.
  revert s; induction n as [|n IH]; intros [|c s]; try reflexivity.
  cbn [Str.take Str.drop append]. rewrite IH. reflexivity.
Qed.

Lemma take_length (n : nat) (s : string) :
  (n <= String.length s)%nat -> String.length (Str.take n s) = n.
Proof.
  revert s; induction n as [|n IH]; intros [|c s] H; cbn [String.length] in *;
    try reflexivity; try lia.
  cbn [Str.take String.length]. rewrite IH by lia. reflexivity.
Qed.

Lemma repeat_zero (k : nat) :
  all_digits (Str.repeat "0" k) = true /\
  digits_value (Str.repeat "0" k) 0 = 0 /\
  String.length (Str.repeat "0" k) = k.
Proof.
  induction k as [|k (A & V & L)]; [repeat split|].
  cbn [Str.repeat all_digits digits_value String.length]. rewrite A, L.
  repeat split. exact V.
Qed.

Lemma padStart_spec (w : nat) (ds : string) :
  all_digits ds = true ->
  all_digits (Str.padStart w "0" ds) = true /\
  digits_value (Str.padStart w "0" ds) 0 = digits_value ds 0 /\
  (w <= String.length (Str.padStart w "0" ds))%nat /\
  (String.length ds <= String.length (Str.padStart w "0" ds))%nat.
Proof.
  intros A. unfold Str.padStart.
  destruct (repeat_zero (w - String.length ds)) as (Az & Vz & Lz).
  rewrite all_digits_app, digits_value_app, length_app, Az, Vz, Lz, A.
  repeat split; lia.
Qed.

Lemma digit_not_space (c : ascii) : Number.is_digit c = true -> Number.is_space c = false.
Proof.
  unfold Number.is_digit, Number.is_space. intros H.
  apply andb_true_iff in H. destruct H as [L U].
  apply Nat.leb_le in L. apply Nat.leb_le in U.
  apply orb_false_iff. split.
  - apply andb_false_iff. right. apply Nat.leb_gt. lia.
  - apply Nat.eqb_neq. lia.
Qed.

Lemma digit_head (c : ascii) (r : string) : Number.is_digit c = true ->
  Number.split_sign (String c r) = (false, String c r) /\
  Str.startsWith "Infinity" (String c r) = false.
Proof.
  destruct c as [[] [] [] [] [] [] [] []]; intros H; try discriminate H; split; reflexivity.
Qed.

Lemma scan_all (ds : string) (acc cnt : Z) : all_digits ds = true ->
  Number.scan_digits ds acc cnt = (digits_value ds acc, cnt + Z.of_nat (String.length ds), "").
Proof.
  intros A. rewrite <- (append_nil_r ds) at 1. rewrite scan_digits_app by exact A. reflexivity.
Qed.

(** Parsing the text of a number with a fraction, and of an integer. *)
Lemma parseFloat_fixed (neg : bool) (A B : string) :
  all_digits A = true -> (1 <= String.length A)%nat -> all_digits B = true ->
  Number.parseFloat ((if neg then "-" else "") ++ A ++ "." ++ B) =
  Number.of_decimal neg (digits_value (A ++ B) 0) (- Z.of_nat (String.length B)).
Proof.
  intros HA LA HB.
  destruct A as [|c A]; [cbn in LA; lia|].
  pose proof HA as HA'. cbn [all_digits] in HA'. apply andb_true_iff in HA'.
  destruct HA' as [Hc _].
  destruct (digit_head c (A ++ "." ++ B) Hc) as [SS SW].
  assert (P : Number.split_sign (Number.trim_start
               ((if neg then "-" else "") ++ String c A ++ "." ++ B))
              = (neg, String c A ++ "." ++ B)).
  { destruct neg.
    - reflexivity.
    - cbn [append Number.trim_start]. rewrite (digit_not_space c Hc). exact SS. }
  unfold Number.parseFloat. rewrite P.
  change (String c A ++ "." ++ B) with (String c (A ++ "." ++ B)) at 1. rewrite SW.
  rewrite scan_digits_app by exact HA.
  change ("." ++ B) with (String "." B). cbn [Number.scan_digits].
  change (Number.is_digit ".") with false. cbv iota.
  rewrite scan_all by exact HB.
  rewrite digits_value_app.
  destruct (Z.eqb_spec (0 + Z.of_nat (String.length (String c A)) + Z.of_nat (String.length B)) 0)
    as [E|_]; [cbn [String.length] in E; lia|].
  change (Number.scan_exponent "") with 0. f_equal. lia.
Qed.

Lemma parseFloat_integer (neg : bool) (A : string) :
  all_digits A = true -> (1 <= String.length A)%nat ->
  Number.parseFloat ((if neg then "-" else "") ++ A) =
  Number.of_decimal neg (digits_value A 0) 0.
Proof.
  intros HA LA.
  destruct A as [|c A]; [cbn in LA; lia|].
  pose proof HA as HA'. cbn [all_digits] in HA'. apply andb_true_iff in HA'.
  destruct HA' as [Hc _].
  destruct (digit_head c A Hc) as [SS SW].
  assert (P : Number.split_sign (Number.trim_start ((if neg then "-" else "") ++ String c A))
              = (neg, String c A)).
  { destruct neg.
    - reflexivity.
    - cbn [append Number.trim_start]. rewrite (digit_not_space c Hc). exact SS. }
  unfold Number.parseFloat. rewrite P, SW.
  rewrite scan_all by exact HA.
  destruct (Z.eqb_spec (0 + Z.of_nat (String.length (String c A))) 0)
    as [E|_]; [cbn [String.length] in E; lia|].
  reflexivity.
Qed.

(** Parsing what [place_point] prints. *)
Lemma parseFloat_place_point (neg : bool) (f : nat) (n : Z) : 0 <= n ->
  Number.parseFloat ((if neg then "-" else "") ++ Number.place_point f (Str.of_Z n)) =
  Number.of_decimal neg n (- Z.of_nat f).
Proof.
  intros Hn. destruct (of_Z_spec n Hn) as (A & L & V).
  destruct f as [|f].
  - cbn [Number.place_point]. rewrite parseFloat_integer by assumption. rewrite V. reflexivity.
  - cbn [Number.place_point].
    destruct (padStart_spec (S (S f)) (Str.of_Z n) A) as (Am & Vm & Lm & _).
    set (m := Str.padStart (S (S f)) "0" (Str.of_Z n)) in *.
    set (k := String.length m) in *.
    pose proof (take_drop (k - S f) m) as TD.
    pose proof (take_length (k - S f) m ltac:(fold k; lia)) as TL.
    assert (DL : String.length (Str.drop (k - S f) m) = S f).
    { pose proof (f_equal String.length TD) as E. rewrite length_app, TL in E. fold k in E. lia. }
    assert (AD : all_digits (Str.take (k - S f) m) = true /\
                 all_digits (Str.drop (k - S f) m) = true).
    { rewrite <- TD, all_digits_app in Am. apply andb_true_iff. exact Am. }
    destruct AD as [AT AD].
    rewrite parseFloat_fixed by (try assumption; lia).
    rewrite TD, DL, Vm, V. reflexivity.
Qed.
End Decimal.

(** ** Rounding to a number of decimals *)
Module Rounding.
Import Decimal.


Lemma exact_positive (m : positive) (e : Z) :
  0 < fst (Number.exact m e) /\ 0 < snd (Number.exact m e).
Proof.
  unfold Number.exact. destruct (Z.leb_spec 0 e) as [E|E]; cbn [fst snd]; split;
    try (apply Z.pow_pos_nonneg; lia); try reflexivity.
  pose proof (Z.pow_pos_nonneg 2 e ltac:(lia) E). nia.
Qed.

Lemma nearest_scaled_nonneg (f : nat) (m : positive) (e : Z) :
  0 <= Number.nearest_scaled f (Number.exact m e).
Proof.
  destruct (exact_positive m e) as [N D]. unfold Number.nearest_scaled.
  apply Z.div_pos; [|lia].
  pose proof (Z.pow_pos_nonneg 10 (Z.of_nat f) ltac:(lia) ltac:(lia)). nia.
Qed.

(** Rounding to [f] decimals, on each kind of Number: a finite Number below
    1e21 in magnitude becomes the Number nearest to [n / 10 ^ f], for [n]
    the integer nearest to its exact value times [10 ^ f] (the larger in
    magnitude of two), with its sign. *)
Lemma round_to_finite (f : nat) (x : float) (s : bool) (m : positive) (e : Z) :
  Prim2SF x = S754_finite s m e ->
  Number.rleb (Number.pow10 21) (Number.exact m e) = false ->
  round_to f x =
  Number.of_decimal s (Number.nearest_scaled f (Number.exact m e)) (- Z.of_nat f).
Proof.
  intros P B. unfold round_to, Number.toFixed. rewrite P, B.
  apply parseFloat_place_point, nearest_scaled_nonneg.
Qed.

Lemma round_to_zero (f : nat) (x : float) (s : bool) :
  Prim2SF x = S754_zero s -> round_to f x = zero.
Proof.
  intros P. unfold round_to, Number.toFixed. rewrite P.
  change (Number.place_point f "0") with ("" ++ Number.place_point f (Str.of_Z 0)).
  rewrite (parseFloat_place_point false f 0) by lia. reflexivity.
Qed.

Lemma round_to_nan (f : nat) (x : float) :
  Prim2SF x = S754_nan -> round_to f x = nan.
Proof. intros P. unfold round_to, Number.toFixed. rewrite P. reflexivity. Qed.

Lemma round_to_infinity (f : nat) (x : float) (s : bool) :
  Prim2SF x = S754_infinity s ->
  round_to f x = if s then neg_infinity else infinity.
Proof. intros P. unfold round_to, Number.toFixed. rewrite P. destruct s; reflexivity. Qed.
End Rounding.

(** The magnitude of a finite Number as a fraction. *)
Lemma exact_num_den (m : positive) (e : Z) :
  Number.exact m e = (Zpos m * 2 ^ Z.max 0 e, 2 ^ Z.max 0 (- e)).
Proof.
  unfold Number.exact. destruct (Z.leb_spec 0 e) as [E|E].
  - rewrite (Z.max_r 0 e) by lia. rewrite (Z.max_l 0 (- e)) by lia. reflexivity.
  - rewrite (Z.max_l 0 e) by lia. rewrite (Z.max_r 0 (- e)) by lia.
    rewrite Z.pow_0_r, Z.mul_1_r. reflexivity.
Qed.

(** The idiom [parseFloat(x.toFixed(k))] rounds to [k] decimals. *)
Lemma round_to_roundedTo (k : nat) (x : float) : roundedTo k x (round_to k x).
Proof.
  unfold roundedTo. destruct (Prim2SF x) as [s|s| |s m e] eqn:P.
  - apply (Rounding.round_to_zero k x s P).
  - rewrite (Rounding.round_to_infinity k x s P). apply Prim2SF_inj. rewrite P.
    destruct s; reflexivity.
  - apply Rounding.round_to_nan. exact P.
  - cbv zeta. intros B.
    exists (Number.nearest_scaled k (Number.exact m e)). split.
    + unfold Number.nearest_scaled. rewrite exact_num_den. cbn [fst snd].
      set (num := Zpos m * 2 ^ Z.max 0 e) in *. set (den := 2 ^ Z.max 0 (- e)) in *.
      assert (D : 0 < den) by (apply Z.pow_pos_nonneg; lia).
      set (P10 := 10 ^ Z.of_nat k).
      pose proof (Z.div_mod (2 * num * P10 + den) (2 * den) ltac:(lia)) as E.
      pose proof (Z.mod_pos_bound (2 * num * P10 + den) (2 * den) ltac:(lia)) as R.
      nia.
    + apply (Rounding.round_to_finite k x s m e P).
      unfold Number.rleb, Number.pow10. rewrite exact_num_den. cbn [fst snd Z.leb].
      apply Z.leb_gt. change (0 <=? 21) with true. cbn [fst snd]. lia.
Qed.

(* ================================================================= *)
(** * The calendar *)
(* ================================================================= *)

Ltac zdiv := Z.div_mod_to_equations; lia.

Module DateFacts.
Import Date.

Lemma DayFromYear_succ (y : Z) : DayFromYear (y + 1) = DayFromYear y + DaysInYear y.
Proof.
  unfold DayFromYear, DaysInYear.
  destruct (Z.eqb_spec (y mod 4) 0), (Z.eqb_spec (y mod 100) 0),
    (Z.eqb_spec (y mod 400) 0); cbn [negb]; zdiv.
Qed.

Lemma DaysInYear_cases (y : Z) : DaysInYear y = 365 \/ DaysInYear y = 366.
Proof.
  unfold DaysInYear.
  destruct (y mod 4 =? 0), (y mod 100 =? 0), (y mod 400 =? 0); cbn [negb]; auto.
Qed.

Lemma DayFromYear_lt (y1 y2 : Z) : y1 < y2 -> DayFromYear y1 < DayFromYear y2.
Proof. unfold DayFromYear. zdiv. Qed.

Lemma DayFromYear_le (y1 y2 : Z) : y1 <= y2 -> DayFromYear y1 <= DayFromYear y2.
Proof. unfold DayFromYear. zdiv. Qed.

(** [YearFromDay] meets its specification: the year that contains the day. *)
Lemma YearFromDay_spec (d : Z) :
  DayFromYear (YearFromDay d) <= d < DayFromYear (YearFromDay d + 1).
Proof.
  unfold YearFromDay.
  destruct (Z.ltb_spec d (DayFromYear (1970 + 400 * d / 146097))) as [H1|H1].
  - unfold DayFromYear in *. zdiv.
  - destruct (Z.leb_spec (DayFromYear (1970 + 400 * d / 146097 + 1)) d) as [H2|H2].
    + unfold DayFromYear in *. zdiv.
    + lia.
Qed.

Lemma YearFromDay_unique (d y : Z) :
  DayFromYear y <= d < DayFromYear (y + 1) -> YearFromDay d = y.
Proof.
  intros H. pose proof (YearFromDay_spec d) as S.
  destruct (Z.lt_trichotomy (YearFromDay d) y) as [L|[E|G]]; [|exact E|].
  - pose proof (DayFromYear_le (YearFromDay d + 1) y ltac:(lia)). lia.
  - pose proof (DayFromYear_le (y + 1) (YearFromDay d) ltac:(lia)). lia.
Qed.

Lemma YearFromDay_mono (d1 d2 : Z) : d1 <= d2 -> YearFromDay d1 <= YearFromDay d2.
Proof.
  intros H. pose proof (YearFromDay_spec d1). pose proof (YearFromDay_spec d2).
  destruct (Z.le_gt_cases (YearFromDay d1) (YearFromDay d2)) as [L|G]; [exact L|].
  pose proof (DayFromYear_le (YearFromDay d2 + 1) (YearFromDay d1) ltac:(lia)). lia.
Qed.

Lemma Day_mono (t1 t2 : Z) : t1 <= t2 -> Day t1 <= Day t2.
Proof. unfold Day, msPerDay. zdiv. Qed.

Lemma DayWithinYear_range (t : Z) : 0 <= DayWithinYear t < DaysInYear (YearFromTime t).
Proof.
  unfold DayWithinYear, YearFromTime.
  pose proof (YearFromDay_spec (Day t)) as S. rewrite DayFromYear_succ in S. lia.
Qed.

Lemma InLeapYear_eq (t : Z) : DaysInYear (YearFromTime t) = 365 + InLeapYear t.
Proof.
  unfold InLeapYear. destruct (DaysInYear_cases (YearFromTime t)) as [E|E]; rewrite E; reflexivity.
Qed.

Ltac months :=
  repeat match goal with
         | |- context [?a <? ?b] => destruct (Z.ltb_spec a b)
         | H : context [?a <? ?b] |- _ => destruct (Z.ltb_spec a b)
         end.

Lemma MonthFromTime_range (t : Z) : 0 <= MonthFromTime t <= 11.
Proof. unfold MonthFromTime. months; lia. Qed.

Lemma DateFromTime_range (t : Z) : 1 <= DateFromTime t <= 31.
Proof.
  pose proof (DayWithinYear_range t) as R. rewrite InLeapYear_eq in R.
  assert (L : InLeapYear t = 0 \/ InLeapYear t = 1)
    by (unfold InLeapYear; destruct (_ =? _); auto).
  unfold DateFromTime, MonthFromTime.
  months; lia.
Qed.

(** Within a year, a later day has a later or equal (month, date). *)
Lemma month_date_mono (t1 t2 : Z) :
  YearFromTime t1 = YearFromTime t2 -> Day t1 <= Day t2 ->
  MonthFromTime t1 < MonthFromTime t2 \/
  (MonthFromTime t1 = MonthFromTime t2 /\ DateFromTime t1 <= DateFromTime t2).
Proof.
  intros Y D.
  assert (L : InLeapYear t1 = InLeapYear t2) by (unfold InLeapYear; rewrite Y; reflexivity).
  assert (W : DayWithinYear t1 <= DayWithinYear t2) by (unfold DayWithinYear; rewrite Y; lia).
  unfold DateFromTime, MonthFromTime. rewrite <- L.
  generalize dependent (DayWithinYear t1). generalize dependent (DayWithinYear t2).
  intros w2 w1 W.
  months; lia.
Qed.
End DateFacts.

(** ** A calendar date and its time value *)
Module Roundtrip.
Import Date DateFacts.

Lemma months12 (m : Z) : 0 <= m <= 11 ->
  m = 0 \/ m = 1 \/ m = 2 \/ m = 3 \/ m = 4 \/ m = 5 \/ m = 6 \/ m = 7 \/
  m = 8 \/ m = 9 \/ m = 10 \/ m = 11.
Proof. lia. Qed.

Section Instant.
Variables (y m d r : Z).
Hypothesis V : validDate y m d.
Hypothesis R : 0 <= r < msPerDay.

Let t := UTC y m d + r.

Lemma leapOf_cases : leapOf y = 0 /\ DaysInYear y = 365 \/ leapOf y = 1 /\ DaysInYear y = 366.
Proof. unfold leapOf. destruct (DaysInYear_cases y) as [E|E]; rewrite E; auto. Qed.

Lemma Day_UTC : Day t = MakeDay y m d.
Proof. unfold t, UTC, Day. unfold msPerDay in *. zdiv. Qed.

Lemma MakeDay_within : 0 <= MakeDay y m d - DayFromYear y < DaysInYear y.
Proof.
  destruct V as [Vm Vd]. unfold MakeDay. fold (leapOf y).
  destruct leapOf_cases as [[L E]|[L E]]; rewrite L in *; rewrite E;
    destruct (months12 m Vm) as [M|[M|[M|[M|[M|[M|[M|[M|[M|[M|[M|M]]]]]]]]]]];
    subst m; unfold DaysBeforeMonth, DaysInMonth in *; lia.
Qed.

Lemma YearFromTime_UTC : YearFromTime t = y.
Proof.
  unfold YearFromTime. rewrite Day_UTC. apply YearFromDay_unique.
  rewrite DayFromYear_succ. pose proof MakeDay_within. lia.
Qed.

Lemma InLeapYear_UTC : InLeapYear t = leapOf y.
Proof. unfold InLeapYear. rewrite YearFromTime_UTC. reflexivity. Qed.

Lemma DayWithinYear_UTC : DayWithinYear t = DaysBeforeMonth (leapOf y) m + d - 1.
Proof.
  unfold DayWithinYear. rewrite YearFromTime_UTC, Day_UTC. unfold MakeDay.
  fold (leapOf y). lia.
Qed.

Lemma MonthFromTime_UTC : MonthFromTime t = m.
Proof.
  destruct V as [Vm Vd]. unfold MonthFromTime.
  rewrite DayWithinYear_UTC, InLeapYear_UTC.
  destruct leapOf_cases as [[L E]|[L E]]; rewrite L in *;
    destruct (months12 m Vm) as [M|[M|[M|[M|[M|[M|[M|[M|[M|[M|[M|M]]]]]]]]]]];
    subst m; unfold DaysBeforeMonth, DaysInMonth in *; months; lia.
Qed.

Lemma DateFromTime_UTC : DateFromTime t = d.
Proof.
  unfold DateFromTime. rewrite MonthFromTime_UTC, DayWithinYear_UTC, InLeapYear_UTC.
  destruct V as [Vm Vd].
  destruct (months12 m Vm) as [M|[M|[M|[M|[M|[M|[M|[M|[M|[M|[M|M]]]]]]]]]]];
    subst m; unfold DaysBeforeMonth; lia.
Qed.
End Instant.

(** Every instant lies in the UTC day of the calendar date that the three
    getters report. *)
Lemma instant_decomposition (t : Z) :
  validDate (YearFromTime t) (MonthFromTime t) (DateFromTime t) /\
  0 <= TimeWithinDay t < msPerDay /\
  t = UTC (YearFromTime t) (MonthFromTime t) (DateFromTime t) + TimeWithinDay t.
Proof.
  pose proof (DayWithinYear_range t) as R. rewrite InLeapYear_eq in R.
  assert (L : InLeapYear t = 0 \/ InLeapYear t = 1)
    by (unfold InLeapYear; destruct (_ =? _); auto).
  assert (M : DaysBeforeMonth (InLeapYear t) (MonthFromTime t) + DateFromTime t - 1
              = DayWithinYear t
              /\ 0 <= MonthFromTime t <= 11
              /\ 1 <= DateFromTime t <= DaysInMonth (InLeapYear t) (MonthFromTime t)).
  { unfold DateFromTime, MonthFromTime.
    generalize dependent (DayWithinYear t). intros w R.
    months; unfold DaysBeforeMonth, DaysInMonth; lia. }
  destruct M as (M & Mr & Dr).
  split; [|split].
  - unfold validDate. split; [exact Mr|].
    unfold leapOf. unfold InLeapYear in Dr. exact Dr.
  - unfold TimeWithinDay, msPerDay. zdiv.
  - unfold UTC, MakeDay.
    change (if DaysInYear (YearFromTime t) =? 366 then 1 else 0) with (InLeapYear t).
    replace (DayFromYear (YearFromTime t)
             + DaysBeforeMonth (InLeapYear t) (MonthFromTime t) + DateFromTime t - 1)
      with (Day t) by (unfold DayWithinYear in M; lia).
    unfold Day, TimeWithinDay, msPerDay. zdiv.
Qed.
End Roundtrip.

(* ================================================================= *)
(** * The text of a date *)
(* ================================================================= *)

Module Text.

Lemma upto_In (lo len z : Z) : lo <= z < lo + len -> In z (upto lo len).
Proof.
  intros H. unfold upto. apply in_map_iff. exists (Z.to_nat (z - lo)). split; [lia|].
  apply in_seq. lia.
Qed.

Lemma of_Z_four_digits_all :
  forallb (fun y => (Str.of_Z y =? four_digits y)%string) (upto 1000 9000) = true.
Proof. vm_compute. reflexivity. Qed.

Lemma of_Z_four_digits (y : Z) : 1000 <= y <= 9999 -> Str.of_Z y = four_digits y.
Proof.
  intros H. apply String.eqb_eq.
  exact (proj1 (forallb_forall _ _) of_Z_four_digits_all y (upto_In 1000 9000 y ltac:(lia))).
Qed.

Lemma pad_two_digits_all :
  forallb (fun n => (Str.padStart 2 "0" (Str.of_Z n) =? two_digits n)%string) (upto 0 100) = true.
Proof. vm_compute. reflexivity. Qed.

Lemma pad_two_digits (n : Z) : 0 <= n <= 99 -> Str.padStart 2 "0" (Str.of_Z n) = two_digits n.
Proof.
  intros H. apply String.eqb_eq.
  exact (proj1 (forallb_forall _ _) pad_two_digits_all n (upto_In 0 100 n ltac:(lia))).
Qed.

Lemma digit_compare_all :
  forallb (fun a => forallb (fun b =>
    match Ascii.compare (Str.digit a) (Str.digit b), (a ?= b) with
    | Eq, Eq | Lt, Lt | Gt, Gt => true
    | _, _ => false
    end) (upto 0 10)) (upto 0 10) = true.
Proof. vm_compute. reflexivity. Qed.

Lemma digit_compare (a b : Z) : 0 <= a <= 9 -> 0 <= b <= 9 ->
  Ascii.compare (Str.digit a) (Str.digit b) = (a ?= b).
Proof.
  intros Ha Hb.
  pose proof (proj1 (forallb_forall _ _) digit_compare_all a (upto_In 0 10 a ltac:(lia))) as H.
  cbv beta in H.
  pose proof (proj1 (forallb_forall _ _) H b (upto_In 0 10 b ltac:(lia))) as H'.
  cbv beta in H'.
  destruct (Ascii.compare _ _), (a ?= b); congruence.
Qed.

(** Lexicographic order of the text is numeric order of the fields. *)
Lemma compare_app (p1 p2 s1 s2 : string) :
  String.length p1 = String.length p2 ->
  String.compare (p1 ++ s1) (p2 ++ s2) = lex (String.compare p1 p2) (String.compare s1 s2).
Proof.
  revert p2; induction p1 as [|c1 p1 IH]; intros [|c2 p2]; simpl; try discriminate.
  - reflexivity.
  - intros [= L]. destruct (Ascii.compare c1 c2); auto.
Qed.

Lemma two_digits_compare (a b : Z) : 0 <= a <= 99 -> 0 <= b <= 99 ->
  String.compare (two_digits a) (two_digits b) = (a ?= b).
Proof.
  intros Ha Hb. unfold two_digits. cbn [String.compare].
  rewrite !digit_compare by zdiv.
  destruct (Z.compare_spec (a / 10) (b / 10)), (Z.compare_spec (a mod 10) (b mod 10)),
    (Z.compare_spec a b); try reflexivity; exfalso; zdiv.
Qed.

Lemma four_digits_compare (a b : Z) : 0 <= a <= 9999 -> 0 <= b <= 9999 ->
  String.compare (four_digits a) (four_digits b) = (a ?= b).
Proof.
  intros Ha Hb. unfold four_digits.
  rewrite compare_app by reflexivity.
  rewrite !two_digits_compare by zdiv. unfold lex.
  destruct (Z.compare_spec (a / 100) (b / 100)), (Z.compare_spec (a mod 100) (b mod 100)),
    (Z.compare_spec a b); try reflexivity; exfalso; zdiv.
Qed.

Lemma ymd_text_compare (y1 m1 d1 y2 m2 d2 : Z) :
  0 <= y1 <= 9999 -> 0 <= y2 <= 9999 -> 0 <= m1 <= 99 -> 0 <= m2 <= 99 ->
  0 <= d1 <= 99 -> 0 <= d2 <= 99 ->
  String.compare (ymd_text y1 m1 d1) (ymd_text y2 m2 d2) =
  lex (y1 ?= y2) (lex (m1 ?= m2) (d1 ?= d2)).
Proof.
  intros. unfold ymd_text.
  rewrite compare_app by reflexivity. rewrite four_digits_compare by assumption.
  f_equal. rewrite (compare_app "-" "-") by reflexivity.
  change (String.compare "-" "-") with Eq. cbn [lex].
  rewrite compare_app by reflexivity. rewrite two_digits_compare by assumption.
  f_equal. rewrite (compare_app "-" "-") by reflexivity.
  change (String.compare "-" "-") with Eq. cbn [lex].
  apply two_digits_compare; assumption.
Qed.

Lemma isYMD_ymd_text (y m d : Z) :
  0 <= y <= 9999 -> 0 <= m <= 99 -> 0 <= d <= 99 -> isYMD (ymd_text y m d) = true.
Proof.
  intros Hy Hm Hd.
  assert (D : forall a, 0 <= a <= 9 -> Number.is_digit (Str.digit a) = true).
  { intros a Ha.
    assert (E : forallb (fun a => Number.is_digit (Str.digit a)) (upto 0 10) = true)
      by (vm_compute; reflexivity).
    exact (proj1 (forallb_forall _ _) E a (upto_In 0 10 a ltac:(lia))). }
  unfold isYMD, ymd_text, four_digits, two_digits. cbn [append list_ascii_of_string forallb].
  rewrite !D by zdiv. reflexivity.
Qed.
End Text.

(* ================================================================= *)
(** * [formatDateToYMD] on the calendar *)
(* ================================================================= *)

(** On a valid date the formatter writes the three UTC components. *)
Lemma formatDateToYMD_valid (t : Z) :
  formatDateToYMD (mkDate (Some t)) =
  Str.of_Z (Date.YearFromTime t) ++ "-"
  ++ Str.padStart 2 "0" (Str.of_Z (Date.MonthFromTime t + 1)) ++ "-"
  ++ Str.padStart 2 "0" (Str.of_Z (Date.DateFromTime t)).
Proof. reflexivity. Qed.

(** With a four-digit year that is the text [YYYY-MM-DD] of the components. *)
Lemma formatDateToYMD_text (t : Z) :
  1000 <= Date.YearFromTime t <= 9999 ->
  formatDateToYMD (mkDate (Some t)) =
  ymd_text (Date.YearFromTime t) (Date.MonthFromTime t + 1) (Date.DateFromTime t).
Proof.
  intros Hy. rewrite formatDateToYMD_valid. unfold ymd_text.
  pose proof (DateFacts.MonthFromTime_range t). pose proof (DateFacts.DateFromTime_range t).
  rewrite Text.of_Z_four_digits by assumption.
  rewrite !Text.pad_two_digits by lia. reflexivity.
Qed.

(** The years of the time values from 1000-01-01 to 9999-12-31. *)
Lemma fourDigitYear_year (t : Z) :
  fourDigitYear (mkDate (Some t)) = true -> 1000 <= Date.YearFromTime t <= 9999.
Proof.
  unfold fourDigitYear; simpl DateValue. intros H.
  apply andb_true_iff in H. destruct H as [Hlo Hhi].
  apply Z.leb_le in Hlo. apply Z.ltb_lt in Hhi.
  unfold Date.YearFromTime.
  assert (L : Date.DayFromYear 1000 <= Date.Day t).
  { change (Date.UTC 1000 0 1) with (Date.DayFromYear 1000 * Date.msPerDay) in Hlo.
    unfold Date.Day, Date.msPerDay in *. zdiv. }
  assert (U : Date.Day t < Date.DayFromYear 10000).
  { change (Date.UTC 10000 0 1) with (Date.DayFromYear 10000 * Date.msPerDay) in Hhi.
    unfold Date.Day, Date.msPerDay in *. zdiv. }
  pose proof (DateFacts.YearFromDay_spec (Date.Day t)) as S.
  split.
  - destruct (Z.le_gt_cases 1000 (Date.YearFromDay (Date.Day t))) as [?|G]; [assumption|].
    pose proof (DateFacts.DayFromYear_le (Date.YearFromDay (Date.Day t) + 1) 1000 ltac:(lia)). lia.
  - destruct (Z.le_gt_cases (Date.YearFromDay (Date.Day t)) 9999) as [?|G]; [assumption|].
    pose proof (DateFacts.DayFromYear_le 10000 (Date.YearFromDay (Date.Day t)) ltac:(lia)). lia.
Qed.

(** A later instant has a later or equal text. *)
Lemma formatDateToYMD_mono (t1 t2 : Z) :
  fourDigitYear (mkDate (Some t1)) = true -> fourDigitYear (mkDate (Some t2)) = true ->
  t1 <= t2 ->
  String.leb (formatDateToYMD (mkDate (Some t1))) (formatDateToYMD (mkDate (Some t2))) = true.
Proof.
  intros F1 F2 Le.
  apply fourDigitYear_year in F1. apply fourDigitYear_year in F2.
  rewrite !formatDateToYMD_text by assumption.
  pose proof (DateFacts.MonthFromTime_range t1). pose proof (DateFacts.MonthFromTime_range t2).
  pose proof (DateFacts.DateFromTime_range t1). pose proof (DateFacts.DateFromTime_range t2).
  unfold String.leb. rewrite Text.ymd_text_compare by lia.
  pose proof (DateFacts.Day_mono t1 t2 Le) as D.
  pose proof (DateFacts.YearFromDay_mono _ _ D) as Y. fold (Date.YearFromTime t1) in Y.
  fold (Date.YearFromTime t2) in Y.
  unfold lex.
  destruct (Z.compare_spec (Date.YearFromTime t1) (Date.YearFromTime t2)) as [E|L|G];
    [|reflexivity|lia].
  destruct (DateFacts.month_date_mono t1 t2 E D) as [M|[M Dt]].
  - rewrite (proj2 (Z.compare_lt_iff _ _)) by lia. reflexivity.
  - rewrite (proj2 (Z.compare_eq_iff _ _)) by lia.
    destruct (Z.compare_spec (Date.DateFromTime t1) (Date.DateFromTime t2)); [reflexivity..|lia].
Qed.

(** The text of an instant of the UTC day [y]-[m + 1]-[d]. *)
Lemma formatDateToYMD_UTC (y m d r : Z) :
  validDate y m d -> 1000 <= y <= 9999 -> 0 <= r < Date.msPerDay ->
  formatDateToYMD (mkDate (Some (Date.UTC y m d + r))) = ymd_text y (m + 1) d.
Proof.
  intros V Hy Hr. rewrite formatDateToYMD_text.
  - rewrite (Roundtrip.YearFromTime_UTC y m d r V Hr), (Roundtrip.MonthFromTime_UTC y m d r V Hr),
      (Roundtrip.DateFromTime_UTC y m d r V Hr). reflexivity.
  - rewrite (Roundtrip.YearFromTime_UTC y m d r V Hr). exact Hy.
Qed.

(* ================================================================= *)
(** * The handler, case by case *)
(* ================================================================= *)

Lemma present_val (q : nullable string) (s : string) :
  present q = Some s -> q = val s /\ truthy s = true.
Proof.
  destruct q as [| |a]; simpl; try discriminate.
  destruct (truthy a) eqn:T; [|discriminate]. intros [= <-]. auto.
Qed.

Lemma present_falsy (q : nullable string) : truthy q = false -> present q = None.
Proof.
  destruct q as [| |a]; simpl; try reflexivity.
  unfold truthy at 1; simpl. intros ->. reflexivity.
Qed.

(** Line 78: a falsy parameter ends the run at once, before any effect. *)
Lemma handler_falsy_parameter (req : Request) (h : Host) :
  truthy (Query.ticker (query req)) = false \/
  truthy (Query.startDate (query req)) = false \/
  truthy (Query.amount (query req)) = false ->
  run (handler req) h =
  (json 400 (ErrorBody "Missing required query parameters: ticker, startDate, amount"), []).
Proof.
  unfold run, handler. intros [H|[H|H]]; apply present_falsy in H; rewrite H.
  - reflexivity.
  - destruct (present (Query.ticker (query req))); reflexivity.
  - destruct (present (Query.ticker (query req))), (present (Query.startDate (query req)));
      reflexivity.
Qed.

(** The profile promise never rejects. *)
Lemma joined_rejections (h : Host) (ticker startDate : string) :
  (rejection (historical h ticker (dailySince startDate))
   ++ rejection (quote h ticker)
   ++ rejection (mkPromise (Fulfilled (profileData_of h ticker))
                           (settledAt (quoteSummary h ticker profileModules)))
   ++ rejection (quoteSummary h ticker statsModules))%list
  = upstreamRejections h ticker startDate.
Proof. reflexivity. Qed.

(** The join, by the first failure and else by the three replies. *)
Lemma joined_cases (h : Host) (ticker startDate : string) :
  joined h ticker startDate =
  match firstFailure h ticker startDate with
  | Some e => Rejected e
  | None =>
      match outcome (historical h ticker (dailySince startDate)),
            outcome (quote h ticker),
            outcome (quoteSummary h ticker statsModules) with
      | Fulfilled rows, Fulfilled q, Fulfilled sd =>
          Fulfilled (rows, q, profileData_of h ticker, sd)
      | Rejected e, _, _ | _, Rejected e, _ | _, _, Rejected e => Rejected e
      end
  end.
Proof.
  unfold joined, Promise_all. rewrite joined_rejections. unfold firstFailure.
  destruct (earliest (upstreamRejections h ticker startDate)) as [[t e]|]; [reflexivity|].
  cbn [option_map outcome].
  destruct (outcome (historical h ticker (dailySince startDate))),
    (outcome (quote h ticker)), (outcome (quoteSummary h ticker statsModules)); reflexivity.
Qed.

Lemma firstFailure_In (h : Host) (ticker startDate : string) (e : Error) :
  firstFailure h ticker startDate = Some e ->
  exists t, In (t, e) (upstreamRejections h ticker startDate).
Proof.
  unfold firstFailure.
  destruct (earliest (upstreamRejections h ticker startDate)) as [[t e']|] eqn:E;
    [|discriminate].
  intros [= <-]. exists t. apply earliest_In. exact E.
Qed.

Lemma firstFailure_Some (h : Host) (ticker startDate : string) :
  upstreamRejections h ticker startDate <> [] ->
  exists e, firstFailure h ticker startDate = Some e.
Proof.
  unfold firstFailure. intros H.
  destruct (earliest (upstreamRejections h ticker startDate)) as [[t e]|] eqn:E;
    [exists e; reflexivity|].
  apply earliest_None in E. contradiction.
Qed.

Lemma joined_fulfilled (h : Host) (ticker startDate : string)
    (rows : list HistoricalRow.t) (q : Quote.t) (sd : QuoteSummary.t) :
  outcome (historical h ticker (dailySince startDate)) = Fulfilled rows ->
  outcome (quote h ticker) = Fulfilled q ->
  outcome (quoteSummary h ticker statsModules) = Fulfilled sd ->
  joined h ticker startDate = Fulfilled (rows, q, profileData_of h ticker, sd).
Proof.
  intros Hh Hq Hs. apply Promise_all_fulfilled. simpl. auto.
Qed.

(** A successful response is the assembly of the replies to its request. *)
Lemma succeeds_assemble (req : Request) (h : Host) (res : Result.t)
    (ticker startDate amount : string) :
  succeeds req h res ->
  Query.ticker (query req) = val ticker ->
  Query.startDate (query req) = val startDate ->
  Query.amount (query req) = val amount ->
  exists first rest q summaryData requestTimestamp,
    outcome (historical h ticker (dailySince startDate)) = Fulfilled (first :: rest) /\
    outcome (quote h ticker) = Fulfilled q /\
    outcome (quoteSummary h ticker statsModules) = Fulfilled summaryData /\
    Date.toISOString (mkDate (Some (now h))) = Some requestTimestamp /\
    res = assemble ticker startDate amount first (first :: rest) q
                   (profileData_of h ticker) summaryData requestTimestamp.
Proof.
  intros S Ht Hs Ha.
  destruct (handler_200 req h _ S eq_refl)
    as (t' & s' & a' & first & rest & q & sd & ts & Pt & Ps & Pa & Oh & Oq & Os & T & B).
  apply present_val in Pt, Ps, Pa.
  destruct Pt as [Pt _], Ps as [Ps _], Pa as [Pa _].
  assert (t' = ticker) by congruence. assert (s' = startDate) by congruence.
  assert (a' = amount) by congruence. subst t' s' a'.
  exists first, rest, q, sd, ts. simpl in B. injection B as B. auto.
Qed.

(** The replies that make the handler succeed. *)
Lemma handler_succeeds (req : Request) (h : Host) (ticker startDate amount : string)
    (first : HistoricalRow.t) (rest : list HistoricalRow.t) (q : Quote.t)
    (sd : QuoteSummary.t) :
  present (Query.ticker (query req)) = Some ticker ->
  present (Query.startDate (query req)) = Some startDate ->
  present (Query.amount (query req)) = Some amount ->
  outcome (historical h ticker (dailySince startDate)) = Fulfilled (first :: rest) ->
  outcome (quote h ticker) = Fulfilled q ->
  outcome (quoteSummary h ticker statsModules) = Fulfilled sd ->
  exists requestTimestamp,
    Date.toISOString (mkDate (Some (now h))) = Some requestTimestamp /\
    succeeds req h (assemble ticker startDate amount first (first :: rest) q
                             (profileData_of h ticker) sd requestTimestamp).
Proof.
  intros Pt Ps Pa Oh Oq Os.
  destruct (toISOString_now (now h)) as [ts T]. exists ts. split; [exact T|].
  unfold succeeds. rewrite (handler_result req h ticker startDate amount Pt Ps Pa).
  rewrite tryBlock_result, (joined_fulfilled h ticker startDate _ _ _ Oh Oq Os), T.
  reflexivity.
Qed.

(** The four blocks of an assembled result. *)
Section Assembled.
Variables (ticker startDate amount : string).
Variables (first : HistoricalRow.t) (rows : list HistoricalRow.t).
Variables (q : Quote.t) (profileData : nullable CompanyDetails.t).
Variables (sd : QuoteSummary.t) (ts : string).

Let res := assemble ticker startDate amount first rows q profileData sd ts.
Let initialInvestment := Number.parseFloat amount.
Let sharesPurchased := (initialInvestment / HistoricalRow.adjClose first)%float.
Let currentValue := (sharesPurchased * ToNumber (Quote.regularMarketPrice q))%float.
Let lastTradingDayDate := formatDateToYMD (HistoricalRow.date (List.last rows first)).

Lemma assemble_summary :
  Result.summary res =
  {| Summary.initialInvestment := initialInvestment;
     Summary.currentValue := round_to 2 currentValue;
     Summary.totalReturnDollars := round_to 2 (currentValue - initialInvestment)%float;
     Summary.totalReturnPercent :=
       round_to 2 (((currentValue - initialInvestment) / initialInvestment) * 100)%float;
     Summary.ticker := Str.toUpperCase ticker;
     Summary.startDate := startDate;
     Summary.sharesOwned := round_to 6 sharesPurchased;
     Summary.requestTimestamp := ts |}.
Proof. unfold res, assemble. destruct (resolveRevenue _ _) as [[? ?] ?]. reflexivity. Qed.

Lemma assemble_chartData :
  Result.chartData res = List.map (chartPoint sharesPurchased) rows.
Proof. unfold res, assemble. destruct (resolveRevenue _ _) as [[? ?] ?]. reflexivity. Qed.

Lemma assemble_profile : Result.profile res = profileBlock profileData ticker.
Proof. unfold res, assemble. destruct (resolveRevenue _ _) as [[? ?] ?]. reflexivity. Qed.

Lemma assemble_previousClose :
  Metrics.previousClose (Result.metrics res) =
  {| PreviousClose.value := HistoricalRow.adjClose (List.last rows first);
     PreviousClose.asOfDate := lastTradingDayDate |}.
Proof. unfold res, assemble. destruct (resolveRevenue _ _) as [[? ?] ?]. reflexivity. Qed.

Lemma assemble_marketCap :
  Metrics.marketCap (Result.metrics res) =
  {| MarketCap.value :=
       calculatedMarketCap q
         ((QuoteSummary.defaultKeyStatistics sd)?.KeyStatistics.sharesOutstanding);
     MarketCap.asOfDate := lastTradingDayDate |}.
Proof. unfold res, assemble. destruct (resolveRevenue _ _) as [[? ?] ?]. reflexivity. Qed.

Lemma assemble_totalRevenue :
  Metrics.totalRevenue (Result.metrics res) =
  let '(value, asOfDate, label) := resolveRevenue sd lastTradingDayDate in
  {| TotalRevenue.value := value; TotalRevenue.asOfDate := asOfDate;
     TotalRevenue.label := label |}.
Proof.
  unfold res, assemble, lastTradingDayDate.
  destruct (resolveRevenue _ _) as [[? ?] ?]. reflexivity.
Qed.

Lemma assemble_beta :
  Metrics.beta (Result.metrics res) =
  {| Beta.value := (QuoteSummary.summaryDetail sd)?.SummaryDetail.beta |}.
Proof. unfold res, assemble. destruct (resolveRevenue _ _) as [[? ?] ?]. reflexivity. Qed.

End Assembled.

(* ================================================================= *)
(** * Properties of the endpoint *)
(* ================================================================= *)

(** ** Parameter validation *)

(** C5. For every request in which any of the three parameters [ticker],
    [startDate], [amount] is absent, the endpoint responds with status 400
    and the body [{ error: "Missing required query parameters: ticker,
    startDate, amount" }], and the run has no event at all: no upstream fetch
    is issued (and nothing is logged). *)
Theorem missing_parameter_is_bad_request (req : Request) (h : Host) :
  missingParameter req ->
  result_of (handler req) h =
    json 400 (ErrorBody "Missing required query parameters: ticker, startDate, amount")
  /\ events_of (handler req) h = [].
Proof.
  intros M. unfold result_of, events_of.
  rewrite handler_falsy_parameter; [split; reflexivity|].
  destruct M as [A|[A|A]]; unfold absent in A; rewrite A; auto.
Qed.

(** A request without [amount], on a host whose provider would answer. *)
Lemma missing_parameter_is_bad_request_witness :
  let req := mkRequest (Query.mk (val "aapl") (val "2024-01-01") undefined) in
  result_of (handler req) exampleHost =
    json 400 (ErrorBody "Missing required query parameters: ticker, startDate, amount")
  /\ events_of (handler req) exampleHost = [].
Proof.
  intros req. apply (missing_parameter_is_bad_request req exampleHost).
  right; right. reflexivity.
Defined.

(** ** Errors of the upstream provider *)

(** The tests of line 184, as texts: [startsWith] and [includes] find the
    prefixes and the occurrences. *)
Lemma startsWith_iff (t s : string) :
  Str.startsWith t s = true <-> exists b, s = t ++ b.
Proof.
  revert s. induction t as [|c t IH]; intros s.
  - split; [intros _; exists s; reflexivity | reflexivity].
  - destruct s as [|d s]; cbn [Str.startsWith append].
    + split; [discriminate | intros [b E]; discriminate E].
    + rewrite andb_true_iff, Ascii.eqb_eq, IH. split.
      * intros [-> [b ->]]. exists b. reflexivity.
      * intros [b [= -> ->]]. split; [reflexivity | exists b; reflexivity].
Qed.

Lemma includes_iff (t s : string) : Str.includes t s = true <-> occursIn t s.
Proof.
  unfold occursIn. induction s as [|d s IH].
  - cbn [Str.includes]. rewrite orb_false_r, startsWith_iff. split.
    + intros [b E]. exists "", b. exact E.
    + intros (a & b & E). destruct a as [|x a]; [exists b; exact E | discriminate E].
  - cbn [Str.includes]. rewrite orb_true_iff, startsWith_iff, IH. split.
    + intros [[b E]|(a & b & E)].
      * exists "", b. exact E.
      * exists (String d a), b. rewrite E. reflexivity.
    + intros (a & b & E). destruct a as [|x a].
      * left. exists b. exact E.
      * right. cbn [append] in E. injection E as -> ->. exists a, b. reflexivity.
Qed.

(** The test of line 184 holds of the errors that signal not-found, and of
    no other. *)
Lemma signalsNotFound_iff (error : Error) :
  signalsNotFound error = true <-> notFoundError error.
Proof.
  unfold signalsNotFound, notFoundError, strict_equal.
  rewrite orb_true_iff. split.
  - intros [C|M].
    + left. destruct (code error) as [| |c]; try discriminate C.
      apply String.eqb_eq in C. rewrite C. reflexivity.
    + right. destruct (message error) as [| |m]; try discriminate M.
      exists m. split; [reflexivity|]. apply includes_iff. exact M.
  - intros [C|(m & M & O)].
    + left. rewrite C. reflexivity.
    + right. rewrite M. cbn [chain]. apply includes_iff in O.
      unfold truthy, Truthy_nullable, truthy, Truthy_Boolean. exact O.
Qed.

(** C6. For every request that passes validation: when the historical, quote
    and statistics fetches succeed but the historical series is empty, the
    endpoint responds with status 404 and the body "No historical data found
    for the given ticker and date." (whatever the profile fetch does); when
    one of these fetches fails, the response is decided by the error [error]
    of the fetch that fails first: when that error signals not-found, that
    is when its code is the string '404' or 'Not Found' occurs in its
    message, the response is 404 with "Invalid ticker symbol: <ticker>",
    and for every other error it is 500 with "An internal server error
    occurred."; and the two 404 bodies are distinct. *)
Theorem empty_history_and_upstream_failure
    (req : Request) (h : Host) (ticker startDate amount : string) :
  present (Query.ticker (query req)) = Some ticker ->
  present (Query.startDate (query req)) = Some startDate ->
  present (Query.amount (query req)) = Some amount ->
  (forall q sd,
      outcome (historical h ticker (dailySince startDate)) = Fulfilled [] ->
      outcome (quote h ticker) = Fulfilled q ->
      outcome (quoteSummary h ticker statsModules) = Fulfilled sd ->
      result_of (handler req) h =
        json 404 (ErrorBody "No historical data found for the given ticker and date."))
  /\ (upstreamRejections h ticker startDate <> [] ->
      exists t error,
        In (t, error) (upstreamRejections h ticker startDate) /\
        firstFailure h ticker startDate = Some error /\
        (notFoundError error ->
         result_of (handler req) h =
           json 404 (ErrorBody ("Invalid ticker symbol: " ++ ticker))) /\
        (~ notFoundError error ->
         result_of (handler req) h =
           json 500 (ErrorBody "An internal server error occurred.")))
  /\ json 404 (ErrorBody "No historical data found for the given ticker and date.")
     <> json 404 (ErrorBody ("Invalid ticker symbol: " ++ ticker)).
Proof.
  intros Pt Ps Pa. repeat split.
  - intros q sd Oh Oq Os.
    rewrite (handler_result req h ticker startDate amount Pt Ps Pa), tryBlock_result.
    rewrite (joined_fulfilled h ticker startDate _ _ _ Oh Oq Os). reflexivity.
  - intros R. destruct (firstFailure_Some h ticker startDate R) as [e F].
    destruct (firstFailure_In h ticker startDate e F) as [t Hin].
    exists t, e. split; [exact Hin|]. split; [exact F|].
    rewrite (handler_result req h ticker startDate amount Pt Ps Pa), tryBlock_result.
    rewrite joined_cases, F.
    pose proof (signalsNotFound_iff e) as I.
    destruct (signalsNotFound e); split; intros N; try reflexivity.
    + exfalso. apply N. apply I. reflexivity.
    + apply I in N. discriminate N.
  - intros E. discriminate E.
Qed.

(** An empty series answers 404 "No historical data found ...". When the
    historical fetch fails with the message "Not Found" and the quote fetch
    with "socket hang up", the run that hears of the former first answers
    404 "Invalid ticker symbol: aapl", and the run that hears of the latter
    first answers 500. *)
Lemma empty_history_and_upstream_failure_witness :
  result_of (handler exampleRequest) emptyHistoryHost =
    json 404 (ErrorBody "No historical data found for the given ticker and date.")
  /\ result_of (handler exampleRequest) (raceHost 1 2) =
       json 404 (ErrorBody "Invalid ticker symbol: aapl")
  /\ result_of (handler exampleRequest) (raceHost 2 1) =
       json 500 (ErrorBody "An internal server error occurred.").
Proof.
  split; [|split].
  - apply (proj1 (empty_history_and_upstream_failure exampleRequest emptyHistoryHost
                    "aapl" "2024-01-01" "1000" eq_refl eq_refl eq_refl)
             exampleQuote (statsWith 1000)); reflexivity.
  - destruct (proj1 (proj2 (empty_history_and_upstream_failure exampleRequest (raceHost 1 2)
                    "aapl" "2024-01-01" "1000" eq_refl eq_refl eq_refl)))
      as (t & error & _ & F & Y & _); [discriminate|].
    injection F as <-. apply Y. right. exists "Not Found". split; [reflexivity|].
    exists "", "". reflexivity.
  - destruct (proj1 (proj2 (empty_history_and_upstream_failure exampleRequest (raceHost 2 1)
                    "aapl" "2024-01-01" "1000" eq_refl eq_refl eq_refl)))
      as (t & error & _ & F & _ & N); [discriminate|].
    injection F as <-. apply N. intros [C|(m & M & a & b & O)].
    + discriminate C.
    + injection M as <-.
      apply (f_equal (Str.includes "Not Found")) in O.
      rewrite (proj2 (includes_iff "Not Found" (a ++ "Not Found" ++ b))) in O
        by (exists a, b; reflexivity).
      discriminate O.
Defined.

(** ** The investment summary *)



(** ** The profile block *)

Lemma or_else_truthy (s d : string) : truthy s = true -> or_else (val s) d = s.
Proof. unfold or_else. intros ->. reflexivity. Qed.

Lemma location_truthy (a b : string) : truthy (a ++ ", " ++ b) = true.
Proof. destruct a; reflexivity. Qed.

Lemma location_not_default (a b : string) : a ++ ", " ++ b <> "N/A".
Proof.
  intros E. apply (f_equal (Str.includes ", ")) in E.
  assert (I : Str.includes ", " (a ++ ", " ++ b) = true).
  { clear E. induction a as [|c a IH].
    - reflexivity.
    - change (String c a ++ ", " ++ b) with (String c (a ++ ", " ++ b)).
      cbn [Str.includes]. rewrite IH. apply orb_true_r. }
  rewrite I in E. discriminate E.
Qed.

(** The profile block when there is no profile. *)
Lemma profileBlock_null (ticker : string) :
  profileBlock null ticker =
  {| Profile.name := Str.toUpperCase ticker;
     Profile.sector := "N/A";
     Profile.industry := "N/A";
     Profile.summary := "No summary available.";
     Profile.location := "N/A";
     Profile.exchange := "N/A" |}.
Proof. reflexivity. Qed.

(** C8. For every request that passes validation and whose company-profile
    sub-fetch fails with [error]: [getCompanyDetails] logs the failure and
    fulfils with [null]; the request proceeds, so that when the three other
    fetches succeed with a non-empty series the response is the 200 result
    assembled from their replies and a [null] profile; and the profile
    fields of that result are the field-level defaults: "N/A" for sector,
    industry, location and exchange, "No summary available." for the
    summary, and the upper-cased ticker for the name. *)
Theorem profile_failure_is_tolerated
    (req : Request) (h : Host) (ticker startDate amount : string) (error : Error) :
  present (Query.ticker (query req)) = Some ticker ->
  present (Query.startDate (query req)) = Some startDate ->
  present (Query.amount (query req)) = Some amount ->
  outcome (quoteSummary h ticker profileModules) = Rejected error ->
  (forall log,
      exists t,
        getCompanyDetails ticker h log =
        (mkPromise (Fulfilled null) t,
         (log ++ [Fetch_quoteSummary ticker profileModules;
                  Console_error ("Error fetching profile data for " ++ ticker ++ ":")
                                (message error)])%list))
  /\ (forall first rest q sd,
      outcome (historical h ticker (dailySince startDate)) = Fulfilled (first :: rest) ->
      outcome (quote h ticker) = Fulfilled q ->
      outcome (quoteSummary h ticker statsModules) = Fulfilled sd ->
      exists requestTimestamp,
        let res := assemble ticker startDate amount first (first :: rest) q null sd
                            requestTimestamp in
        succeeds req h res /\
        Result.profile res =
          {| Profile.name := Str.toUpperCase ticker;
             Profile.sector := "N/A";
             Profile.industry := "N/A";
             Profile.summary := "No summary available.";
             Profile.location := "N/A";
             Profile.exchange := "N/A" |}).
Proof.
  intros Pt Ps Pa Op. split.
  - intros log. eexists. rewrite getCompanyDetails_run. unfold profileData_of. rewrite Op.
    rewrite <- app_assoc. reflexivity.
  - intros first rest q sd Oh Oq Os.
    destruct (handler_succeeds req h ticker startDate amount first rest q sd
                Pt Ps Pa Oh Oq Os) as (ts & _ & S).
    exists ts. unfold profileData_of in S. rewrite Op in S. split; [exact S|].
    rewrite assemble_profile. apply profileBlock_null.
Qed.

(** A run in which the profile fetch fails and the others succeed. *)
Lemma profile_failure_is_tolerated_witness :
  exists res,
    succeeds exampleRequest profileDownHost res /\
    Result.profile res =
      {| Profile.name := "AAPL";
         Profile.sector := "N/A";
         Profile.industry := "N/A";
         Profile.summary := "No summary available.";
         Profile.location := "N/A";
         Profile.exchange := "N/A" |}.
Proof.
  destruct (proj2 (profile_failure_is_tolerated exampleRequest profileDownHost
                     "aapl" "2024-01-01" "1000" (mkError undefined (val "Service Unavailable"))
                     eq_refl eq_refl eq_refl eq_refl)
                  day1 [day2] exampleQuote (statsWith 1000) eq_refl eq_refl eq_refl)
    as (ts & S & P).
  eexists. split; [exact S | exact P].
Defined.

(** C10. When the profile fetch itself succeeds, with reply [summary], the
    response's [profile.location] is the interpolation
    [`${city}, ${country}`] of the two components of
    [summary.assetProfile], never the default "N/A"; with both components
    missing it is "undefined, undefined". *)
Theorem location_is_interpolated
    (req : Request) (h : Host) (res : Result.t) (ticker startDate amount : string)
    (summary : QuoteSummary.t) :
  succeeds req h res ->
  Query.ticker (query req) = val ticker ->
  Query.startDate (query req) = val startDate ->
  Query.amount (query req) = val amount ->
  outcome (quoteSummary h ticker profileModules) = Fulfilled summary ->
  let city := (QuoteSummary.assetProfile summary)?.AssetProfile.city in
  let country := (QuoteSummary.assetProfile summary)?.AssetProfile.country in
  Profile.location (Result.profile res) = interpolate city ++ ", " ++ interpolate country
  /\ Profile.location (Result.profile res) <> "N/A"
  /\ (city = undefined -> country = undefined ->
      Profile.location (Result.profile res) = "undefined, undefined").
Proof.
  intros S Ht Hs Ha Op city country.
  destruct (succeeds_assemble req h res ticker startDate amount S Ht Hs Ha)
    as (first & rest & q & sd & ts & _ & _ & _ & _ & ->).
  rewrite assemble_profile. unfold profileData_of. rewrite Op.
  assert (L : Profile.location (profileBlock (val (companyDetails summary)) ticker)
              = interpolate city ++ ", " ++ interpolate country).
  { unfold profileBlock, companyDetails, chain; cbn [Profile.location CompanyDetails.location].
    apply or_else_truthy, location_truthy. }
  rewrite L. repeat split.
  - apply location_not_default.
  - intros -> ->. reflexivity.
Qed.

(** A profile reply without [city] and [country]. *)
Lemma location_is_interpolated_witness :
  exists res,
    succeeds exampleRequest sparseProfileHost res /\
    Profile.location (Result.profile res) = "undefined, undefined".
Proof.
  destruct (handler_succeeds exampleRequest sparseProfileHost "aapl" "2024-01-01" "1000"
              day1 [day2] exampleQuote (statsWith 1000)
              eq_refl eq_refl eq_refl eq_refl eq_refl eq_refl) as (ts & _ & S).
  eexists. split; [exact S|].
  exact (proj1 (location_is_interpolated exampleRequest sparseProfileHost _
                  "aapl" "2024-01-01" "1000" sparseProfile
                  S eq_refl eq_refl eq_refl eq_refl)).
Defined.

(** ** Revenue *)

(** The three cases of the revenue block, by the truthiness the code tests:
    a non-zero annual figure with an end date; else a non-zero trailing
    figure; else nothing. *)
Lemma resolveRevenue_cases (sd : QuoteSummary.t) (lastTradingDayDate : string) :
  let annual := (latestAnnualStatement sd)?.IncomeStatement.totalRevenue in
  let endDate := (latestAnnualStatement sd)?.IncomeStatement.endDate in
  resolveRevenue sd lastTradingDayDate =
  if truthy annual && truthy endDate
  then (annual, val (formatDateToYMD (Date.construct endDate)), "Annual")
  else if truthy (trailingRevenue sd)
       then (trailingRevenue sd, val lastTradingDayDate, "TTM")
       else (null, null, "Annual").
Proof. reflexivity. Qed.

(** The example of the specification: an annual statement with revenue 1000
    ending 2023-12-31 and a trailing revenue of 1200 resolve to the annual
    figure. *)
Lemma resolveRevenue_example :
  resolveRevenue (statsWith 1000) "2024-01-03" = (val 1000%float, val "2023-12-31", "Annual").
Proof. vm_compute. reflexivity. Qed.

(** C1, where the code departs from it. The most recent annual statement
    has a total-revenue figure, 0, and an end date, 2023-12-31, and the
    trailing-twelve-month revenue is 1200: the response carries the trailing
    value 1200 with label "TTM" and the last trading day's date, not the
    annual figure 0 with label "Annual" and date 2023-12-31, because line
    108 tests the figure for truthiness and 0 is falsy. *)
Theorem zero_annual_revenue_is_passed_over :
  exists res,
    succeeds exampleRequest zeroRevenueHost res /\
    (latestAnnualStatement (statsWith 0))?.IncomeStatement.totalRevenue = val 0%float /\
    Metrics.totalRevenue (Result.metrics res) =
      {| TotalRevenue.value := val 1200%float;
         TotalRevenue.asOfDate := val "2024-01-03";
         TotalRevenue.label := "TTM" |}.
Proof.
  destruct (handler_succeeds exampleRequest zeroRevenueHost "aapl" "2024-01-01" "1000"
              day1 [day2] exampleQuote (statsWith 0)
              eq_refl eq_refl eq_refl eq_refl eq_refl eq_refl) as (ts & _ & S).
  eexists. split; [exact S|]. split; [reflexivity|].
  rewrite assemble_totalRevenue. vm_compute. reflexivity.
Qed.

(** ** Market capitalization *)

(** The two cases of lines 123-125, by the truthiness the code tests. *)
Lemma calculatedMarketCap_cases (q : Quote.t) (sharesOutstanding : nullable float) :
  calculatedMarketCap q sharesOutstanding =
  match Quote.regularMarketPreviousClose q, sharesOutstanding with
  | val p, val n =>
      if truthy p && truthy n then val (p * n)%float else Quote.marketCap q
  | _, _ => Quote.marketCap q
  end.
Proof.
  unfold calculatedMarketCap.
  destruct (Quote.regularMarketPreviousClose q) as [| |p], sharesOutstanding as [| |n];
    try reflexivity; cbn; destruct (truthy p); reflexivity.
Qed.

(** C2, where the code departs from it. With a previous close of 50 and a
    million shares in the quote and the statistics, a raw market cap of 60
    million, and a historical series that ends at an adjusted close of 49:
    [metrics.marketCap.value] is 50 * 1000000, the computed form, but the
    price in that product is [quote.regularMarketPreviousClose], not the
    value the response reports as [metrics.previousClose.value], which is
    the last historical adjusted close, 49. *)
Theorem market_cap_uses_another_previous_close :
  exists res,
    succeeds exampleRequest exampleHost res /\
    MarketCap.value (Metrics.marketCap (Result.metrics res)) = val 50000000%float /\
    PreviousClose.value (Metrics.previousClose (Result.metrics res)) = 49%float /\
    (49 * 1000000 =? 50000000)%float = false.
Proof.
  destruct (handler_succeeds exampleRequest exampleHost "aapl" "2024-01-01" "1000"
              day1 [day2] exampleQuote (statsWith 1000)
              eq_refl eq_refl eq_refl eq_refl eq_refl eq_refl) as (ts & _ & S).
  eexists. split; [exact S|].
  rewrite assemble_marketCap, assemble_previousClose. repeat split.
Qed.

(** ** Date normalization *)

(** What the UTC getters avoid: at 2024-03-01T00:00:00Z a process five hours
    behind UTC has the local date February 29. *)
Example local_date_is_the_day_before :
  let d := mkDate (Some (Date.UTC 2024 2 1)) in
  Date.getUTCFullYear d = Some 2024 /\ Date.getUTCMonth d = Some 2 /\
  Date.getUTCDate d = Some 1 /\
  Date.getFullYear (-18000000) d = Some 2024 /\ Date.getMonth (-18000000) d = Some 1 /\
  Date.getDate (-18000000) d = Some 29.
Proof. repeat split; vm_compute; reflexivity. Qed.

(** C4 as stated fails: the year is written without padding and an Invalid
    Date has no components. The last day of the year 999 is written
    "999-12-31" and an Invalid Date "NaN-NaN-NaN", neither of the form
    YYYY-MM-DD. *)
Lemma formatDateToYMD_not_always_YMD :
  formatDateToYMD (mkDate (Some (Date.UTC 999 11 31))) = "999-12-31"
  /\ isYMD (formatDateToYMD (mkDate (Some (Date.UTC 999 11 31)))) = false
  /\ formatDateToYMD (mkDate None) = "NaN-NaN-NaN"
  /\ isYMD (formatDateToYMD (mkDate None)) = false.
Proof. repeat split; vm_compute; reflexivity. Qed.

(** C4, amended. For every valid date whose UTC year is between 1000 and
    9999, that is for every instant [r] milliseconds into the UTC day
    [y]-[m + 1]-[d], the normalizer returns the text YYYY-MM-DD of the UTC
    year, month and day of the instant (every instant is of that form,
    [Roundtrip.instant_decomposition]). It reads nothing but the time
    value of the date, so the local timezone offset of the process has no
    part in it. *)
Theorem formatDateToYMD_is_the_UTC_date (y m d r : Z) :
  validDate y m d -> 1000 <= y <= 9999 -> 0 <= r < Date.msPerDay ->
  formatDateToYMD (mkDate (Some (Date.UTC y m d + r))) = ymd_text y (m + 1) d
  /\ isYMD (formatDateToYMD (mkDate (Some (Date.UTC y m d + r)))) = true.
Proof.
  intros V Hy Hr. rewrite (formatDateToYMD_UTC y m d r V Hy Hr). split; [reflexivity|].
  destruct V as [Vm Vd].
  assert (DaysInMonth (leapOf y) m <= 31).
  { unfold leapOf. destruct (_ =? _);
      destruct (Roundtrip.months12 m Vm) as [M|[M|[M|[M|[M|[M|[M|[M|[M|[M|[M|M]]]]]]]]]]];
      subst m; unfold DaysInMonth; lia. }
  apply Text.isYMD_ymd_text; lia.
Qed.

(** The example of the specification: 2024-03-01T00:00:00Z is written
    "2024-03-01". *)
Lemma formatDateToYMD_is_the_UTC_date_witness :
  formatDateToYMD (mkDate (Some 1709251200000)) = "2024-03-01".
Proof.
  refine (proj1 (formatDateToYMD_is_the_UTC_date 2024 2 1 0 _ _ _)).
  - unfold validDate. vm_compute. intuition discriminate.
  - lia.
  - unfold Date.msPerDay. lia.
Defined.

(** ** The chart *)

Lemma ascending_formatted (ds : list Date) :
  forallb fourDigitYear ds = true -> nondecreasing ds = true ->
  ascending (List.map formatDateToYMD ds) = true.
Proof.
  induction ds as [|a ds IH]; [reflexivity|].
  destruct ds as [|b ds]; [reflexivity|].
  intros F N. cbn [forallb] in F. apply andb_true_iff in F. destruct F as [Fa F].
  cbn [nondecreasing] in N.
  destruct a as [[ta|]], b as [[tb|]]; cbn [DateValue] in N; try discriminate.
  apply andb_true_iff in N. destruct N as [Le N]. apply Z.leb_le in Le.
  change (ascending (List.map formatDateToYMD (mkDate (Some ta) :: mkDate (Some tb) :: ds)))
    with (String.leb (formatDateToYMD (mkDate (Some ta))) (formatDateToYMD (mkDate (Some tb)))
          && ascending (List.map formatDateToYMD (mkDate (Some tb) :: ds))).
  rewrite (IH F N), andb_true_r.
  apply formatDateToYMD_mono; [exact Fa | | exact Le].
  cbn [forallb] in F. apply andb_true_iff in F. exact (proj1 F).
Qed.

(** C7 as stated fails: the handler maps the series as it comes and sorts
    nothing. On a series that the provider returns latest first, the
    response succeeds with the dates of [chartData] in that same, descending
    order. *)
Lemma chartData_of_a_descending_series :
  exists res,
    succeeds exampleRequest descendingHost res /\
    List.map ChartPoint.date (Result.chartData res) = ["2024-01-03"; "2024-01-02"] /\
    ascending (List.map ChartPoint.date (Result.chartData res)) = false.
Proof.
  destruct (handler_succeeds exampleRequest descendingHost "aapl" "2024-01-01" "1000"
              day2 [day1] exampleQuote (statsWith 1000)
              eq_refl eq_refl eq_refl eq_refl eq_refl eq_refl) as (ts & _ & S).
  eexists. split; [exact S|]. rewrite assemble_chartData. split; vm_compute; reflexivity.
Qed.

(** C7, amended. For every successful response, [chartData] has exactly one
    entry per point of the historical series returned upstream, in the order
    of that series: entry [i] carries the normalized date of point [i], its
    adjusted close and the value of the shares at that close, each rounded
    to 2 decimals. Its dates are ascending whenever the series is
    chronological: valid dates within the years 1000 to 9999, each no
    earlier than the one before. *)
Theorem chartData_follows_the_series
    (req : Request) (h : Host) (res : Result.t) (ticker startDate amount : string)
    (first : HistoricalRow.t) (rest : list HistoricalRow.t) :
  succeeds req h res ->
  Query.ticker (query req) = val ticker ->
  Query.startDate (query req) = val startDate ->
  Query.amount (query req) = val amount ->
  outcome (historical h ticker (dailySince startDate)) = Fulfilled (first :: rest) ->
  let rows := first :: rest in
  let sharesPurchased := (Number.parseFloat amount / HistoricalRow.adjClose first)%float in
  Result.chartData res =
    List.map (fun day =>
      {| ChartPoint.date := formatDateToYMD (HistoricalRow.date day);
         ChartPoint.value := round_to 2 (sharesPurchased * HistoricalRow.adjClose day)%float;
         ChartPoint.price := round_to 2 (HistoricalRow.adjClose day) |}) rows
  /\ List.length (Result.chartData res) = List.length rows
  /\ (chronological rows = true ->
      ascending (List.map ChartPoint.date (Result.chartData res)) = true).
Proof.
  intros S Ht Hs Ha Oh rows sharesPurchased.
  destruct (succeeds_assemble req h res ticker startDate amount S Ht Hs Ha)
    as (first' & rest' & q & sd & ts & Oh' & _ & _ & _ & ->).
  rewrite Oh in Oh'. injection Oh' as <- <-.
  rewrite assemble_chartData. fold rows. fold sharesPurchased.
  split; [reflexivity|]. split; [apply length_map|].
  intros C. unfold chronological in C. apply andb_true_iff in C. destruct C as [F N].
  rewrite map_map. cbn [ChartPoint.date chartPoint].
  rewrite <- (map_map HistoricalRow.date formatDateToYMD).
  apply ascending_formatted; assumption.
Qed.

(** The example series, two trading days in order. *)
Lemma chartData_follows_the_series_witness :
  exists res,
    succeeds exampleRequest exampleHost res /\
    List.map ChartPoint.date (Result.chartData res) = ["2024-01-02"; "2024-01-03"] /\
    ascending (List.map ChartPoint.date (Result.chartData res)) = true.
Proof.
  destruct (handler_succeeds exampleRequest exampleHost "aapl" "2024-01-01" "1000"
              day1 [day2] exampleQuote (statsWith 1000)
              eq_refl eq_refl eq_refl eq_refl eq_refl eq_refl) as (ts & _ & S).
  eexists. split; [exact S|].
  destruct (chartData_follows_the_series exampleRequest exampleHost _
              "aapl" "2024-01-01" "1000" day1 [day2] S eq_refl eq_refl eq_refl eq_refl)
    as (E & _ & A).
  split; [rewrite E; reflexivity | apply A; reflexivity].
Defined.

(** ** Determinism *)

Lemma withoutTimestamp_assemble (ticker startDate amount : string)
    (first : HistoricalRow.t) (rows : list HistoricalRow.t) (q : Quote.t)
    (profileData : nullable CompanyDetails.t) (sd : QuoteSummary.t) (ts1 ts2 : string) :
  withoutTimestamp (json 200 (ResultBody
    (assemble ticker startDate amount first rows q profileData sd ts1))) =
  withoutTimestamp (json 200 (ResultBody
    (assemble ticker startDate amount first rows q profileData sd ts2))).
Proof.
  unfold withoutTimestamp, json, assemble; cbn [body status].
  destruct (resolveRevenue _ _) as [[? ?] ?]. reflexivity.
Qed.

Lemma sameRun_joined (h1 h2 : Host) (ticker startDate : string) :
  sameRun h1 h2 -> joined h1 ticker startDate = joined h2 ticker startDate.
Proof.
  intros [(Hh & Hq & Hs) F]. rewrite !joined_cases. unfold profileData_of.
  rewrite F, Hh, Hq, !Hs. reflexivity.
Qed.

(** C9 as stated fails: which rejection the join reports depends on which
    promise rejects first. The provider gives the same replies to the same
    request in both runs, a not-found error for the historical series and a
    network error for the quote; the run that hears of the former first
    answers 404 "Invalid ticker symbol: aapl", the other 500. *)
Lemma same_replies_in_another_order :
  sameReplies (raceHost 1 2) (raceHost 2 1)
  /\ now (raceHost 1 2) = now (raceHost 2 1)
  /\ result_of (handler exampleRequest) (raceHost 1 2)
     = json 404 (ErrorBody "Invalid ticker symbol: aapl")
  /\ result_of (handler exampleRequest) (raceHost 2 1)
     = json 500 (ErrorBody "An internal server error occurred.").
Proof.
  split; [|split; [reflexivity | split; vm_compute; reflexivity]].
  repeat split; intros; reflexivity.
Qed.

(** C9, amended. For any two runs of the endpoint with identical request
    parameters and identical upstream replies, of which the same one fails
    first when any fails, the two responses have the same status and their
    payloads are identical in every field except
    [summary.requestTimestamp]. *)
Theorem deterministic_up_to_timestamp (req : Request) (h1 h2 : Host) :
  sameRun h1 h2 ->
  withoutTimestamp (result_of (handler req) h1) =
  withoutTimestamp (result_of (handler req) h2).
Proof.
  intros P.
  destruct (present (Query.ticker (query req))) as [ticker|] eqn:Pt;
  [destruct (present (Query.startDate (query req))) as [startDate|] eqn:Ps;
   [destruct (present (Query.amount (query req))) as [amount|] eqn:Pa|]|].
  - rewrite !(handler_result req _ ticker startDate amount Pt Ps Pa), !tryBlock_result.
    rewrite (sameRun_joined h1 h2 ticker startDate P).
    destruct (joined h2 ticker startDate) as [[[[rows q] pd] sd]|e]; [|reflexivity].
    destruct rows as [|first rest]; [reflexivity|].
    destruct (toISOString_now (now h1)) as [ts1 ->].
    destruct (toISOString_now (now h2)) as [ts2 ->].
    apply withoutTimestamp_assemble.
  - unfold result_of, run, handler. rewrite Pt, Ps, Pa. reflexivity.
  - unfold result_of, run, handler. rewrite Pt, Ps. reflexivity.
  - unfold result_of, run, handler. rewrite Pt. reflexivity.
Qed.

(** The example run at two readings of the clock, with replies that arrive
    at other times. *)
Lemma deterministic_up_to_timestamp_witness :
  let later := hostOf (mkPromise (Fulfilled [day1; day2]) 7) (fulfilled exampleQuote)
                 (fulfilled exampleProfile) (fulfilled (statsWith 1000))
                 (exampleClock + 5000) in
  withoutTimestamp (result_of (handler exampleRequest) exampleHost) =
  withoutTimestamp (result_of (handler exampleRequest) later).
Proof.
  intros later. apply (deterministic_up_to_timestamp exampleRequest exampleHost later).
  repeat split; reflexivity.
Defined.

(* ================================================================= *)
(** * Further properties of the endpoint *)
(* ================================================================= *)

(** ** The ways the handler answers *)

Lemma present_None (q : nullable string) : present q = None -> truthy q = false.
Proof.
  destruct q as [| |a]; try reflexivity. simpl.
  unfold truthy at 2; simpl. destruct (truthy a); [discriminate|reflexivity].
Qed.

(** The five ways the handler answers. *)
Lemma handler_cases (req : Request) (h : Host) :
  (falsyParameter req /\
   result_of (handler req) h =
     json 400 (ErrorBody "Missing required query parameters: ticker, startDate, amount"))
  \/ exists ticker startDate amount,
       present (Query.ticker (query req)) = Some ticker /\
       present (Query.startDate (query req)) = Some startDate /\
       present (Query.amount (query req)) = Some amount /\
       (result_of (handler req) h =
          json 404 (ErrorBody "No historical data found for the given ticker and date.")
        \/ result_of (handler req) h =
             json 404 (ErrorBody ("Invalid ticker symbol: " ++ ticker))
        \/ result_of (handler req) h =
             json 500 (ErrorBody "An internal server error occurred.")
        \/ exists res, result_of (handler req) h = json 200 (ResultBody res)).
Proof.
  destruct (present (Query.ticker (query req))) as [ticker|] eqn:Pt;
  [destruct (present (Query.startDate (query req))) as [startDate|] eqn:Ps;
   [destruct (present (Query.amount (query req))) as [amount|] eqn:Pa|]|].
  - right. exists ticker, startDate, amount. repeat split.
    rewrite (handler_result req h ticker startDate amount Pt Ps Pa), tryBlock_result.
    destruct (joined h ticker startDate) as [[[[hd q] pdv] sd]|e].
    + destruct hd as [|first rest]; [left; reflexivity|].
      destruct (toISOString_now (now h)) as [ts ->]. right; right; right. eauto.
    + destruct (signalsNotFound e); [right; left | right; right; left]; reflexivity.
  - left. assert (F : falsyParameter req) by (right; right; apply present_None; exact Pa).
    split; [exact F|]. unfold result_of. rewrite (handler_falsy_parameter req h F). reflexivity.
  - left. assert (F : falsyParameter req) by (right; left; apply present_None; exact Ps).
    split; [exact F|]. unfold result_of. rewrite (handler_falsy_parameter req h F). reflexivity.
  - left. assert (F : falsyParameter req) by (left; apply present_None; exact Pt).
    split; [exact F|]. unfold result_of. rewrite (handler_falsy_parameter req h F). reflexivity.
Qed.

(** X1. The endpoint answers with status 400 exactly when one of [ticker],
    [startDate] and [amount] is falsy: not sent ([undefined]), [null], or
    sent as the empty string. Every other request, whatever the provider
    does, gets another status. *)
Theorem bad_request_iff_falsy_parameter (req : Request) (h : Host) :
  status (result_of (handler req) h) = 400 <-> falsyParameter req.
Proof.
  split.
  - intros S. destruct (handler_cases req h) as [[F _]|(t & s & a & _ & _ & _ & C)];
      [exact F|].
    destruct C as [E|[E|[E|[res E]]]]; rewrite E in S; discriminate S.
  - intros F. unfold result_of. rewrite (handler_falsy_parameter req h F). reflexivity.
Qed.

(** X2. Whatever the request and the provider, the status of the response is
    200, 400, 404 or 500; the body is a result exactly when the status is
    200, and an [{ error }] object otherwise. *)
Theorem status_and_body (req : Request) (h : Host) :
  let r := result_of (handler req) h in
  (status r = 200 \/ status r = 400 \/ status r = 404 \/ status r = 500)
  /\ (status r = 200 <-> exists res, body r = ResultBody res).
Proof.
  cbv zeta.
  destruct (handler_cases req h) as [[_ E]|(t & s & a & _ & _ & _ & [E|[E|[E|[res E]]]])];
    rewrite E; cbn [json status body]; (split; [auto|]);
    split; try discriminate; try (intros [res' D]; discriminate D); eauto.
Qed.

(** ** The upstream calls and the console *)

Lemma firstFailure_None (h : Host) (ticker startDate : string) :
  firstFailure h ticker startDate = None ->
  exists rows q sd,
    outcome (historical h ticker (dailySince startDate)) = Fulfilled rows /\
    outcome (quote h ticker) = Fulfilled q /\
    outcome (quoteSummary h ticker statsModules) = Fulfilled sd.
Proof.
  unfold firstFailure.
  destruct (earliest (upstreamRejections h ticker startDate)) as [[t e]|] eqn:E;
    [discriminate|]. intros _.
  apply earliest_None in E. unfold upstreamRejections, rejection in E.
  destruct (outcome (historical h ticker (dailySince startDate))) as [rows|];
    [|discriminate E].
  destruct (outcome (quote h ticker)) as [q|]; [|discriminate E].
  destruct (outcome (quoteSummary h ticker statsModules)) as [sd|]; [|discriminate E].
  exists rows, q, sd. auto.
Qed.

Lemma joined_Fulfilled_firstFailure (h : Host) (ticker startDate : string) x :
  joined h ticker startDate = Fulfilled x -> firstFailure h ticker startDate = None.
Proof.
  rewrite joined_cases. destruct (firstFailure h ticker startDate); [discriminate|reflexivity].
Qed.

Lemma joined_Rejected_firstFailure (h : Host) (ticker startDate : string) e :
  joined h ticker startDate = Rejected e -> firstFailure h ticker startDate = Some e.
Proof.
  rewrite joined_cases. destruct (firstFailure h ticker startDate) as [e'|] eqn:F.
  - intros [= ->]. reflexivity.
  - destruct (firstFailure_None h ticker startDate F) as (rows & q & sd & -> & -> & ->).
    discriminate.
Qed.

(** The log of the [try] block. *)
Lemma tryBlock_events (ticker startDate amount : string) (h : Host) :
  events_of (tryBlock ticker startDate amount) h =
  ([Fetch_historical ticker (dailySince startDate); Fetch_quote ticker;
    Fetch_quoteSummary ticker profileModules]
   ++ profileErrorLog h ticker
   ++ [Fetch_quoteSummary ticker statsModules])%list.
Proof.
  unfold events_of, run, tryBlock.
  unfold bind at 1. unfold yahooFinance_historical, bind, emit; simpl.
  unfold yahooFinance_quote, bind, emit; simpl.
  rewrite getCompanyDetails_run.
  unfold yahooFinance_quoteSummary, bind, emit; simpl.
  unfold profileErrorLog.
  destruct (Promise_all _ _ _ _) as [[[[hd q] pdv] sd]|e];
    [destruct hd as [|first rest]|].
  - destruct (outcome (quoteSummary h ticker profileModules)); reflexivity.
  - unfold new_Date; simpl.
    destruct (Date.toISOString (mkDate (Some (now h))));
      destruct (outcome (quoteSummary h ticker profileModules)); reflexivity.
  - destruct (outcome (quoteSummary h ticker profileModules)); reflexivity.
Qed.

(** The log of the handler, for parameters that pass validation. *)
Lemma handler_events (req : Request) (h : Host) (ticker startDate amount : string) :
  present (Query.ticker (query req)) = Some ticker ->
  present (Query.startDate (query req)) = Some startDate ->
  present (Query.amount (query req)) = Some amount ->
  events_of (handler req) h =
  ([Fetch_historical ticker (dailySince startDate); Fetch_quote ticker;
    Fetch_quoteSummary ticker profileModules]
   ++ profileErrorLog h ticker
   ++ [Fetch_quoteSummary ticker statsModules]
   ++ mainErrorLog h ticker startDate)%list.
Proof.
  intros Pt Ps Pa.
  pose proof (tryBlock_events ticker startDate amount h) as TE.
  pose proof (tryBlock_result ticker startDate amount h) as TR.
  unfold events_of, result_of, run in *. unfold handler. rewrite Pt, Ps, Pa.
  unfold bind.
  destruct (tryBlock ticker startDate amount h []) as [r log]. cbn [fst snd] in TE, TR.
  subst log. unfold mainErrorLog.
  destruct (joined h ticker startDate) as [[[[hd q] pdv] sd]|e] eqn:J.
  - rewrite (joined_Fulfilled_firstFailure _ _ _ _ J).
    destruct r as [response|error].
    + cbn [ret snd]. rewrite !app_assoc, app_nil_r. reflexivity.
    + exfalso. destruct hd; [discriminate TR|].
      destruct (toISOString_now (now h)) as [s E]. rewrite E in TR. discriminate TR.
  - rewrite (joined_Rejected_firstFailure _ _ _ _ J). subst r.
    unfold catchBlock, bind, console_error, emit; cbn [fst snd].
    destruct (signalsNotFound e); cbn [ret snd]; rewrite <- !app_assoc; reflexivity.
Qed.

(** X3. Every request that passes validation issues exactly four upstream
    calls, in this order and with the ticker as it was sent: the daily
    history since [startDate], the quote, the quote summary for the profile
    modules and the quote summary for the statistics modules. All four are
    issued whatever any of them answers: a failed or empty history does
    not spare the other three. *)
Theorem validated_request_fetches (req : Request) (h : Host)
    (ticker startDate amount : string) :
  present (Query.ticker (query req)) = Some ticker ->
  present (Query.startDate (query req)) = Some startDate ->
  present (Query.amount (query req)) = Some amount ->
  List.filter isFetch (events_of (handler req) h) =
  [ Fetch_historical ticker (dailySince startDate);
    Fetch_quote ticker;
    Fetch_quoteSummary ticker profileModules;
    Fetch_quoteSummary ticker statsModules ].
Proof.
  intros Pt Ps Pa. rewrite (handler_events req h ticker startDate amount Pt Ps Pa).
  unfold profileErrorLog, mainErrorLog.
  destruct (outcome (quoteSummary h ticker profileModules)),
    (firstFailure h ticker startDate); reflexivity.
Qed.

(** A run in which the history and the quote both fail. *)
Lemma validated_request_fetches_witness :
  List.filter isFetch (events_of (handler exampleRequest) (raceHost 1 2)) =
  [ Fetch_historical "aapl" (dailySince "2024-01-01");
    Fetch_quote "aapl";
    Fetch_quoteSummary "aapl" profileModules;
    Fetch_quoteSummary "aapl" statsModules ].
Proof.
  exact (validated_request_fetches exampleRequest (raceHost 1 2) "aapl" "2024-01-01" "1000"
           eq_refl eq_refl eq_refl).
Defined.

(** X4. The console entries of a request that passes validation are, in
    some order: "Error fetching profile data for <ticker>:" with the
    message of the error, when the profile fetch fails; and "Error in main
    endpoint for <ticker>:" with the message of the failure that rejects
    the join, when one of the three other fetches fails. Nothing else is
    logged, and a response with status 200 has no main-endpoint entry. *)
Theorem validated_request_logs (req : Request) (h : Host)
    (ticker startDate amount : string) :
  present (Query.ticker (query req)) = Some ticker ->
  present (Query.startDate (query req)) = Some startDate ->
  present (Query.amount (query req)) = Some amount ->
  Permutation
    (List.filter (fun e => negb (isFetch e)) (events_of (handler req) h))
    (match outcome (quoteSummary h ticker profileModules) with
     | Rejected error =>
         [Console_error ("Error fetching profile data for " ++ ticker ++ ":") (message error)]
     | Fulfilled _ => []
     end ++
     match firstFailure h ticker startDate with
     | Some error =>
         [Console_error ("Error in main endpoint for " ++ ticker ++ ":") (message error)]
     | None => []
     end)%list
  /\ (status (result_of (handler req) h) = 200 -> firstFailure h ticker startDate = None).
Proof.
  intros Pt Ps Pa. split.
  - rewrite (handler_events req h ticker startDate amount Pt Ps Pa).
    unfold profileErrorLog, mainErrorLog.
    destruct (outcome (quoteSummary h ticker profileModules)),
      (firstFailure h ticker startDate); apply Permutation_refl.
  - rewrite (handler_result req h ticker startDate amount Pt Ps Pa), tryBlock_result.
    destruct (joined h ticker startDate) as [x|e] eqn:J.
    + intros _. exact (joined_Fulfilled_firstFailure _ _ _ _ J).
    + destruct (signalsNotFound e); discriminate.
Qed.

(** A run in which only the profile fetch fails. *)
Lemma validated_request_logs_witness :
  Permutation
    (List.filter (fun e => negb (isFetch e))
       (events_of (handler exampleRequest) profileDownHost))
    [Console_error "Error fetching profile data for aapl:" (val "Service Unavailable")].
Proof.
  exact (proj1 (validated_request_logs exampleRequest profileDownHost
                  "aapl" "2024-01-01" "1000" eq_refl eq_refl eq_refl)).
Defined.

(** ** The profile *)

Lemma sameButProfile_joined (h1 h2 : Host) (ticker startDate : string) :
  sameButProfile h1 h2 ->
  match joined h1 ticker startDate, joined h2 ticker startDate with
  | Rejected e1, Rejected e2 => e1 = e2
  | Fulfilled (rows1, q1, _, sd1), Fulfilled (rows2, q2, _, sd2) =>
      rows1 = rows2 /\ q1 = q2 /\ sd1 = sd2
  | _, _ => False
  end.
Proof.
  intros (Hh & Hq & Hs & _). rewrite !joined_cases.
  unfold firstFailure, upstreamRejections. rewrite Hh, Hq, Hs.
  destruct (earliest _) as [[t e]|]; cbn [option_map]; [reflexivity|].
  destruct (outcome (historical h2 ticker (dailySince startDate))),
    (outcome (quote h2 ticker)), (outcome (quoteSummary h2 ticker statsModules)); auto.
Qed.

(** X5. The profile fetch bears on the profile block and on nothing else:
    two runs of the same request that get the same history, quote and
    statistics at the same times and read the same clock, whatever the
    profile fetch answers in each and whenever, respond with the same
    status, the same error body, and results with the same [summary],
    [chartData] and [metrics]. *)
Theorem profile_fetch_touches_the_profile_only (req : Request) (h1 h2 : Host) :
  sameButProfile h1 h2 ->
  let r1 := result_of (handler req) h1 in
  let r2 := result_of (handler req) h2 in
  status r1 = status r2 /\
  match body r1, body r2 with
  | ErrorBody e1, ErrorBody e2 => e1 = e2
  | ResultBody a, ResultBody b =>
      Result.summary a = Result.summary b /\
      Result.chartData a = Result.chartData b /\
      Result.metrics a = Result.metrics b
  | _, _ => False
  end.
Proof.
  intros P. cbv zeta.
  destruct (present (Query.ticker (query req))) as [ticker|] eqn:Pt;
  [destruct (present (Query.startDate (query req))) as [startDate|] eqn:Ps;
   [destruct (present (Query.amount (query req))) as [amount|] eqn:Pa|]|].
  - rewrite !(handler_result req _ ticker startDate amount Pt Ps Pa), !tryBlock_result.
    pose proof (sameButProfile_joined h1 h2 ticker startDate P) as J.
    destruct P as (_ & _ & _ & <-).
    destruct (joined h1 ticker startDate) as [[[[rows1 q1] pd1] sd1]|e1],
      (joined h2 ticker startDate) as [[[[rows2 q2] pd2] sd2]|e2]; try contradiction.
    + destruct J as (<- & <- & <-).
      destruct rows1 as [|first rest]; [split; reflexivity|].
      destruct (toISOString_now (now h1)) as [ts ->].
      cbn [json status body]. split; [reflexivity|].
      unfold assemble. destruct (resolveRevenue _ _) as [[? ?] ?].
      cbn [Result.summary Result.chartData Result.metrics]. auto.
    + subst e2. destruct (signalsNotFound e1); split; reflexivity.
  - unfold result_of, run, handler. rewrite Pt, Ps, Pa. split; reflexivity.
  - unfold result_of, run, handler. rewrite Pt, Ps. split; reflexivity.
  - unfold result_of, run, handler. rewrite Pt. split; reflexivity.
Qed.

(** The example run, with the profile and without. *)
Lemma profile_fetch_touches_the_profile_only_witness :
  status (result_of (handler exampleRequest) exampleHost)
  = status (result_of (handler exampleRequest) profileDownHost).
Proof.
  refine (proj1 (profile_fetch_touches_the_profile_only exampleRequest exampleHost
                   profileDownHost _)).
  repeat split; intros; reflexivity.
Defined.

Lemma or_else_nonempty (a : nullable string) (d : string) :
  truthy d = true -> truthy (or_else a d) = true.
Proof.
  intros D. unfold or_else. destruct a as [| |x]; try exact D.
  destruct (truthy x) eqn:T; [exact T | exact D].
Qed.

Lemma toUpperCase_truthy (s : string) : truthy s = true -> truthy (Str.toUpperCase s) = true.
Proof. destruct s; [discriminate | reflexivity]. Qed.

(** X6. In every successful response each of the six fields of [profile],
    [name], [sector], [industry], [summary], [location] and [exchange], is
    a non-empty string, whether the profile fetch failed, succeeded with
    fields missing, or succeeded with empty strings. *)
Theorem profile_fields_are_never_empty (req : Request) (h : Host) (res : Result.t) :
  succeeds req h res ->
  let p := Result.profile res in
  truthy (Profile.name p) = true /\ truthy (Profile.sector p) = true /\
  truthy (Profile.industry p) = true /\ truthy (Profile.summary p) = true /\
  truthy (Profile.location p) = true /\ truthy (Profile.exchange p) = true.
Proof.
  intros S.
  destruct (handler_200 req h _ S eq_refl)
    as (t & s & a & first & rest & q & sd & ts & Pt & _ & _ & _ & _ & _ & _ & B).
  cbn [json body] in B. injection B as ->. cbv zeta. rewrite assemble_profile.
  destruct (present_val _ _ Pt) as [_ Tt].
  unfold profileBlock; cbn [Profile.name Profile.sector Profile.industry Profile.summary
                             Profile.location Profile.exchange].
  repeat split; apply or_else_nonempty; try reflexivity.
  apply toUpperCase_truthy. exact Tt.
Qed.

(** A profile reply with most fields missing. *)
Lemma profile_fields_are_never_empty_witness :
  exists res,
    succeeds exampleRequest sparseProfileHost res /\
    truthy (Profile.name (Result.profile res)) = true /\
    truthy (Profile.industry (Result.profile res)) = true.
Proof.
  destruct (handler_succeeds exampleRequest sparseProfileHost "aapl" "2024-01-01" "1000"
              day1 [day2] exampleQuote (statsWith 1000)
              eq_refl eq_refl eq_refl eq_refl eq_refl eq_refl) as (ts & _ & S).
  eexists. split; [exact S|].
  destruct (profile_fields_are_never_empty exampleRequest sparseProfileHost _ S)
    as (N & _ & I & _).
  split; [exact N | exact I].
Defined.

(** ** The summary *)

Lemma upper_not_lower (c : ascii) : isLower (Str.upper c) = false.
Proof. destruct c as [[] [] [] [] [] [] [] []]; reflexivity. Qed.

Lemma upper_fixed (c : ascii) : isLower c = false -> Str.upper c = c.
Proof.
  destruct c as [[] [] [] [] [] [] [] []]; intros H; try discriminate H; reflexivity.
Qed.

Lemma toUpperCase_spec (s : string) :
  hasLower (Str.toUpperCase s) = false /\
  String.length (Str.toUpperCase s) = String.length s /\
  (hasLower s = false -> Str.toUpperCase s = s).
Proof.
  induction s as [|c s (L & N & F)]; [repeat split|].
  cbn [Str.toUpperCase hasLower String.length]. rewrite L, N, upper_not_lower.
  repeat split. intros H. apply orb_false_iff in H. destruct H as [Hc Hs].
  rewrite (upper_fixed c Hc), (F Hs). reflexivity.
Qed.

(** [toUpperCase] on ASCII text is the text in upper case. *)
Lemma upper_capital (c : ascii) :
  Str.upper c = capitalAmong lowerCaseLetters upperCaseLetters c.
Proof. destruct c as [[] [] [] [] [] [] [] []]; reflexivity. Qed.

Lemma toUpperCase_inUpperCase (s : string) : Str.toUpperCase s = inUpperCase s.
Proof.
  induction s as [|c s IH]; [reflexivity|].
  cbn [Str.toUpperCase inUpperCase]. rewrite upper_capital, IH. reflexivity.
Qed.

(** X7. For every successful response to a request with an ASCII ticker:
    [summary.ticker] is the ticker of the request in upper case, each of
    its letters a to z replaced by the capital letter A to Z at the same
    place in the alphabet and every other character kept; so it has the
    length of the ticker and no lower-case letter, and is the ticker itself
    when that has none. [summary.startDate] is the start date as it was
    sent. *)
Theorem summary_echoes_the_request
    (req : Request) (h : Host) (res : Result.t) (ticker startDate : string) :
  succeeds req h res ->
  Query.ticker (query req) = val ticker ->
  Query.startDate (query req) = val startDate ->
  isASCII ticker = true ->
  let echoed := Summary.ticker (Result.summary res) in
  echoed = inUpperCase ticker /\
  hasLower echoed = false /\
  String.length echoed = String.length ticker /\
  (hasLower ticker = false -> echoed = ticker) /\
  Summary.startDate (Result.summary res) = startDate.
Proof.
  intros S Ht Hs _.
  destruct (handler_200 req h _ S eq_refl)
    as (t & s & a & first & rest & q & sd & ts & Pt & Ps & _ & _ & _ & _ & _ & B).
  cbn [json body] in B. injection B as ->.
  destruct (present_val _ _ Pt) as [Pt' _]. destruct (present_val _ _ Ps) as [Ps' _].
  assert (t = ticker) by congruence. assert (s = startDate) by congruence. subst t s.
  cbv zeta. rewrite assemble_summary.
  cbn [Summary.ticker Summary.startDate].
  destruct (toUpperCase_spec ticker) as (L & N & F).
  split; [apply toUpperCase_inUpperCase|]. repeat split; assumption.
Qed.

(** The example request, whose ticker "aapl" comes back as "AAPL", and a
    request for "Brk.b", which comes back as "BRK.B". *)
Lemma summary_echoes_the_request_witness :
  (exists res,
     succeeds exampleRequest exampleHost res /\
     Summary.ticker (Result.summary res) = "AAPL" /\
     Summary.startDate (Result.summary res) = "2024-01-01")
  /\ (exists res,
        succeeds mixedRequest exampleHost res /\
        Summary.ticker (Result.summary res) = "BRK.B").
Proof.
  split.
  - destruct (handler_succeeds exampleRequest exampleHost "aapl" "2024-01-01" "1000"
                day1 [day2] exampleQuote (statsWith 1000)
                eq_refl eq_refl eq_refl eq_refl eq_refl eq_refl) as (ts & _ & S).
    eexists. split; [exact S|].
    destruct (summary_echoes_the_request exampleRequest exampleHost _ "aapl" "2024-01-01"
                S eq_refl eq_refl eq_refl) as (E & _ & _ & _ & D).
    split; [exact E | exact D].
  - destruct (handler_succeeds mixedRequest exampleHost "Brk.b" "2024-01-01" "1000"
                day1 [day2] exampleQuote (statsWith 1000)
                eq_refl eq_refl eq_refl eq_refl eq_refl eq_refl) as (ts & _ & S).
    eexists. split; [exact S|].
    exact (proj1 (summary_echoes_the_request mixedRequest exampleHost _ "Brk.b" "2024-01-01"
                    S eq_refl eq_refl eq_refl)).
Defined.

Lemma startsWith_app (p r : string) : Str.startsWith p (p ++ r) = true.
Proof.
  induction p as [|c p IH]; [reflexivity|].
  cbn [append Str.startsWith]. rewrite Ascii.eqb_refl. exact IH.
Qed.

Lemma pad_three_all :
  forallb (fun n => (String.length (Date.pad 3 n) =? 3)%nat) (upto 0 1000) = true.
Proof. vm_compute. reflexivity. Qed.

Lemma pad_three (n : Z) : 0 <= n <= 999 -> String.length (Date.pad 3 n) = 3%nat.
Proof.
  intros H. apply Nat.eqb_eq.
  exact (proj1 (forallb_forall _ _) pad_three_all n (Text.upto_In 0 1000 n ltac:(lia))).
Qed.

Lemma pad_four (y : Z) : 1000 <= y <= 9999 -> Date.pad 4 y = Str.of_Z y.
Proof.
  intros H. unfold Date.pad. rewrite Text.of_Z_four_digits by exact H. reflexivity.
Qed.

(** X8. For every successful response, [summary.requestTimestamp] is the ISO
    text of the clock at the time of the request; while the clock reads a
    year from 1000 to 9999 it has 24 characters and begins with the date
    that [formatDateToYMD] gives for that instant, followed by "T": the
    timestamp and the dates of the response are on the same, UTC,
    calendar. *)
Theorem requestTimestamp_is_the_clock (req : Request) (h : Host) (res : Result.t) :
  succeeds req h res ->
  fourDigitYear (mkDate (Some (now h))) = true ->
  let stamp := Summary.requestTimestamp (Result.summary res) in
  Date.toISOString (mkDate (Some (now h))) = Some stamp /\
  Str.startsWith (formatDateToYMD (mkDate (Some (now h))) ++ "T") stamp = true /\
  String.length stamp = 24%nat.
Proof.
  intros S F.
  destruct (handler_200 req h _ S eq_refl)
    as (t & s & a & first & rest & q & sd & ts & _ & _ & _ & _ & _ & _ & T & B).
  cbn [json body] in B. injection B as ->. cbv zeta.
  rewrite assemble_summary. cbn [Summary.requestTimestamp].
  split; [exact T|].
  apply fourDigitYear_year in F.
  unfold Date.toISOString in T; cbn [DateValue] in T.
  replace ((0 <=? Date.YearFromTime (now h)) && (Date.YearFromTime (now h) <=? 9999)) with true
    in T by (symmetry; apply andb_true_iff; split; apply Z.leb_le; lia).
  rewrite (pad_four _ F) in T. injection T as <-.
  pose proof (DateFacts.MonthFromTime_range (now h)).
  pose proof (DateFacts.DateFromTime_range (now h)).
  assert (Hh : 0 <= Date.HourFromTime (now h) <= 99) by (unfold Date.HourFromTime; zdiv).
  assert (Hm : 0 <= Date.MinFromTime (now h) <= 99) by (unfold Date.MinFromTime; zdiv).
  assert (Hsec : 0 <= Date.SecFromTime (now h) <= 99) by (unfold Date.SecFromTime; zdiv).
  assert (Hms : 0 <= Date.msFromTime (now h) <= 999) by (unfold Date.msFromTime; zdiv).
  split.
  - rewrite formatDateToYMD_valid. fold (Date.pad 2 (Date.MonthFromTime (now h) + 1)).
    fold (Date.pad 2 (Date.DateFromTime (now h))).
    set (y := Str.of_Z (Date.YearFromTime (now h))).
    set (m := Date.pad 2 (Date.MonthFromTime (now h) + 1)).
    set (d := Date.pad 2 (Date.DateFromTime (now h))).
    set (r := Date.pad 2 (Date.HourFromTime (now h)) ++ _).
    replace (y ++ String "-" (m ++ String "-" (d ++ String "T" r)))
      with (((y ++ "-" ++ m ++ "-" ++ d) ++ "T") ++ r).
    + apply startsWith_app.
    + rewrite !Decimal.append_assoc. reflexivity.
  - pose proof (pad_three _ Hms) as L3.
    set (ms := Date.pad 3 (Date.msFromTime (now h))) in *.
    unfold Date.pad.
    rewrite !Text.pad_two_digits by lia.
    rewrite Text.of_Z_four_digits by exact F.
    unfold four_digits, two_digits.
    repeat (rewrite Decimal.length_app; cbn [String.length append]).
    rewrite L3. reflexivity.
Qed.

(** The example run, at 123 ms after the midnight of 2024-03-01. *)
Lemma requestTimestamp_is_the_clock_witness :
  exists res,
    succeeds exampleRequest exampleHost res /\
    Summary.requestTimestamp (Result.summary res) = "2024-03-01T00:00:00.123Z".
Proof.
  destruct (handler_succeeds exampleRequest exampleHost "aapl" "2024-01-01" "1000"
              day1 [day2] exampleQuote (statsWith 1000)
              eq_refl eq_refl eq_refl eq_refl eq_refl eq_refl) as (ts & _ & S).
  eexists. split; [exact S|].
  pose proof (proj1 (requestTimestamp_is_the_clock exampleRequest exampleHost _ S eq_refl)) as E.
  assert (V : Date.toISOString (mkDate (Some (now exampleHost)))
              = Some "2024-03-01T00:00:00.123Z") by (vm_compute; reflexivity).
  rewrite V in E. injection E as <-. reflexivity.
Defined.

(** ** The metrics *)

Lemma last_map {A B} (f : A -> B) (l : list A) (d : A) :
  List.last (List.map f l) (f d) = f (List.last l d).
Proof.
  induction l as [|a l IH]; [reflexivity|].
  destruct l as [|b l]; [reflexivity|]. exact IH.
Qed.

Lemma last_default {A} (l : list A) (d d' : A) :
  l <> [] -> List.last l d = List.last l d'.
Proof.
  induction l as [|a l IH]; [congruence|]. intros _.
  destruct l as [|b l]; [reflexivity|]. apply IH. discriminate.
Qed.

Lemma last_In {A} (l : list A) (d : A) : l <> [] -> In (List.last l d) l.
Proof.
  induction l as [|a l IH]; [congruence|]. intros _.
  destruct l as [|b l]; [left; reflexivity|]. right. apply IH. discriminate.
Qed.

(** X9. In every successful response the chart is not empty, and
    [metrics.previousClose.asOfDate] and [metrics.marketCap.asOfDate] are
    both the date of its last point; the price of that point is
    [metrics.previousClose.value], the last adjusted close, rounded to 2
    decimals, while the metric itself is not rounded. Rounded to 2 decimals
    means [roundedTo 2]: for a finite close below 1e21 the price is the
    Number nearest to [n / 100], [n] being the integer nearest to the close
    times 100 (the larger of two). *)
Theorem metrics_are_as_of_the_last_chart_point
    (req : Request) (h : Host) (res : Result.t) :
  succeeds req h res ->
  exists lastPoint,
    List.last (Result.chartData res) lastPoint = lastPoint /\
    In lastPoint (Result.chartData res) /\
    let m := Result.metrics res in
    PreviousClose.asOfDate (Metrics.previousClose m) = ChartPoint.date lastPoint /\
    MarketCap.asOfDate (Metrics.marketCap m) = ChartPoint.date lastPoint /\
    ChartPoint.price lastPoint = round_to 2 (PreviousClose.value (Metrics.previousClose m)) /\
    roundedTo 2 (PreviousClose.value (Metrics.previousClose m)) (ChartPoint.price lastPoint).
Proof.
  intros S.
  destruct (handler_200 req h _ S eq_refl)
    as (t & s & a & first & rest & q & sd & ts & _ & _ & _ & _ & _ & _ & _ & B).
  cbn [json body] in B. injection B as ->.
  set (shares := (Number.parseFloat a / HistoricalRow.adjClose first)%float).
  exists (chartPoint shares (List.last (first :: rest) first)).
  rewrite assemble_chartData. fold shares.
  split; [|split].
  - rewrite (last_default (List.map (chartPoint shares) (first :: rest)) _
               (chartPoint shares first)) by discriminate.
    apply last_map.
  - apply in_map. apply last_In. discriminate.
  - cbv zeta. rewrite assemble_previousClose, assemble_marketCap.
    cbn [PreviousClose.asOfDate PreviousClose.value MarketCap.asOfDate chartPoint
         ChartPoint.date ChartPoint.price].
    repeat split. apply round_to_roundedTo.
Qed.

(** A series that ends on 2024-01-03 at an adjusted close of 49.006: the
    metric is 49.006 and the price of the last chart point 49.01. *)
Lemma metrics_are_as_of_the_last_chart_point_witness :
  exists res,
    succeeds exampleRequest unevenHost res /\
    exists lastPoint,
      List.last (Result.chartData res) lastPoint = lastPoint /\
      PreviousClose.asOfDate (Metrics.previousClose (Result.metrics res)) = "2024-01-03" /\
      ChartPoint.date lastPoint = "2024-01-03" /\
      PreviousClose.value (Metrics.previousClose (Result.metrics res))
        = (49006 / 1000)%float /\
      ChartPoint.price lastPoint = (4901 / 100)%float.
Proof.
  destruct (handler_succeeds exampleRequest unevenHost "aapl" "2024-01-01" "1000"
              unevenDay1 [unevenDay2] unevenQuote (statsWith 1000)
              eq_refl eq_refl eq_refl eq_refl eq_refl eq_refl) as (ts & _ & S).
  eexists. split; [exact S|].
  destruct (metrics_are_as_of_the_last_chart_point exampleRequest unevenHost _ S)
    as (p & L & _ & D & _ & P & _).
  exists p. split; [exact L|].
  assert (A : PreviousClose.asOfDate
                (Metrics.previousClose (Result.metrics
                   (assemble "aapl" "2024-01-01" "1000" unevenDay1 [unevenDay1; unevenDay2]
                      unevenQuote (profileData_of unevenHost "aapl") (statsWith 1000) ts)))
              = "2024-01-03")
    by (rewrite assemble_previousClose; vm_compute; reflexivity).
  assert (V : PreviousClose.value
                (Metrics.previousClose (Result.metrics
                   (assemble "aapl" "2024-01-01" "1000" unevenDay1 [unevenDay1; unevenDay2]
                      unevenQuote (profileData_of unevenHost "aapl") (statsWith 1000) ts)))
              = (49006 / 1000)%float)
    by (rewrite assemble_previousClose; reflexivity).
  split; [exact A|]. split; [rewrite <- D; exact A|]. split; [exact V|].
  rewrite P, V. vm_compute. reflexivity.
Defined.

(** X10. In every successful response the revenue block is one of three:
    no revenue, with [value] and [asOfDate] both [null] and the label
    "Annual"; an annual figure, labelled "Annual", with a date; or a
    trailing figure, labelled "TTM", as of the date of the last trading
    day, the [asOfDate] of the previous close. A [value] that is not
    [null] is a Number other than 0 and [NaN], never [undefined]. *)
Theorem revenue_is_absent_or_non_zero (req : Request) (h : Host) (res : Result.t) :
  succeeds req h res ->
  let r := Metrics.totalRevenue (Result.metrics res) in
  let lastTradingDayDate := PreviousClose.asOfDate (Metrics.previousClose (Result.metrics res)) in
  (TotalRevenue.value r = null /\ TotalRevenue.asOfDate r = null /\
   TotalRevenue.label r = "Annual")
  \/ (truthy (TotalRevenue.value r) = true /\
      ((TotalRevenue.label r = "Annual" /\ exists d, TotalRevenue.asOfDate r = val d)
       \/ (TotalRevenue.label r = "TTM" /\
           TotalRevenue.asOfDate r = val lastTradingDayDate))).
Proof.
  intros S.
  destruct (handler_200 req h _ S eq_refl)
    as (t & s & a & first & rest & q & sd & ts & _ & _ & _ & _ & _ & _ & _ & B).
  cbn [json body] in B. injection B as ->. cbv zeta.
  rewrite assemble_totalRevenue, assemble_previousClose. cbn [PreviousClose.asOfDate].
  rewrite resolveRevenue_cases. cbv zeta.
  destruct (truthy ((latestAnnualStatement sd)?.IncomeStatement.totalRevenue)) eqn:Ta;
    [destruct (truthy ((latestAnnualStatement sd)?.IncomeStatement.endDate)) eqn:Te|];
    cbn [andb].
  - right. cbn [TotalRevenue.value TotalRevenue.asOfDate TotalRevenue.label].
    split; [exact Ta|]. left. eauto.
  - destruct (truthy (trailingRevenue sd)) eqn:Tt;
      cbn [TotalRevenue.value TotalRevenue.asOfDate TotalRevenue.label]; auto.
  - destruct (truthy (trailingRevenue sd)) eqn:Tt;
      cbn [TotalRevenue.value TotalRevenue.asOfDate TotalRevenue.label]; auto.
Qed.

(** The example run, whose annual revenue is 1000. *)
Lemma revenue_is_absent_or_non_zero_witness :
  exists res,
    succeeds exampleRequest exampleHost res /\
    (TotalRevenue.value (Metrics.totalRevenue (Result.metrics res)) = null
     \/ truthy (TotalRevenue.value (Metrics.totalRevenue (Result.metrics res))) = true).
Proof.
  destruct (handler_succeeds exampleRequest exampleHost "aapl" "2024-01-01" "1000"
              day1 [day2] exampleQuote (statsWith 1000)
              eq_refl eq_refl eq_refl eq_refl eq_refl eq_refl) as (ts & _ & S).
  eexists. split; [exact S|].
  destruct (revenue_is_absent_or_non_zero exampleRequest exampleHost _ S)
    as [(N & _)|(T & _)]; [left; exact N | right; exact T].
Defined.

(** ** The dates *)

Lemma isYMD_formatDateToYMD (d : Date) :
  fourDigitYear d = true -> isYMD (formatDateToYMD d) = true.
Proof.
  destruct d as [[t|]]; [|discriminate]. intros F.
  apply fourDigitYear_year in F. rewrite formatDateToYMD_text by exact F.
  pose proof (DateFacts.MonthFromTime_range t). pose proof (DateFacts.DateFromTime_range t).
  apply Text.isYMD_ymd_text; lia.
Qed.

(** [new Date(d)] copies a date of a four-digit year. *)
Lemma construct_fourDigitYear (d : Date) :
  fourDigitYear d = true -> Date.construct (val d) = d.
Proof.
  destruct d as [[t|]]; [|discriminate]. unfold fourDigitYear; cbn [DateValue].
  intros F. apply andb_true_iff in F. destruct F as [Lo Hi].
  apply Z.leb_le in Lo. apply Z.ltb_lt in Hi.
  change (Date.UTC 1000 0 1) with (-30610224000000) in Lo.
  change (Date.UTC 10000 0 1) with 253402300800000 in Hi.
  unfold Date.construct, Date.TimeClip; cbn [DateValue].
  destruct (Z.ltb_spec 8640000000000000 (Z.abs t)); [lia | reflexivity].
Qed.

(** X11. When the dates the provider gives, those of the historical series
    and the end date of the latest annual statement, are valid dates of
    the years 1000 to 9999, every date of a successful response has the
    form YYYY-MM-DD: the date of each chart point, the [asOfDate] of the
    previous close and of the market cap, and the [asOfDate] of the
    revenue when it is not [null]. *)
Theorem response_dates_are_YMD
    (req : Request) (h : Host) (res : Result.t) (ticker startDate : string)
    (rows : list HistoricalRow.t) (summaryData : QuoteSummary.t) :
  succeeds req h res ->
  Query.ticker (query req) = val ticker ->
  Query.startDate (query req) = val startDate ->
  outcome (historical h ticker (dailySince startDate)) = Fulfilled rows ->
  outcome (quoteSummary h ticker statsModules) = Fulfilled summaryData ->
  forallb fourDigitYear (List.map HistoricalRow.date rows) = true ->
  (forall d, (latestAnnualStatement summaryData)?.IncomeStatement.endDate = val d ->
             fourDigitYear d = true) ->
  let m := Result.metrics res in
  forallb isYMD (List.map ChartPoint.date (Result.chartData res)) = true /\
  isYMD (PreviousClose.asOfDate (Metrics.previousClose m)) = true /\
  isYMD (MarketCap.asOfDate (Metrics.marketCap m)) = true /\
  (forall d, TotalRevenue.asOfDate (Metrics.totalRevenue m) = val d -> isYMD d = true).
Proof.
  intros S Ht Hs Oh Os F Fe.
  destruct (handler_200 req h _ S eq_refl)
    as (t & s & a & first & rest & q & sd & ts & Pt & Ps & _ & Oh' & _ & Os' & _ & B).
  cbn [json body] in B. injection B as ->.
  destruct (present_val _ _ Pt) as [Pt' _]. destruct (present_val _ _ Ps) as [Ps' _].
  assert (t = ticker) by congruence. assert (s = startDate) by congruence. subst t s.
  rewrite Oh in Oh'. injection Oh' as ->. rewrite Os in Os'. injection Os' as <-.
  assert (L : isYMD (formatDateToYMD (HistoricalRow.date (List.last (first :: rest) first)))
              = true).
  { apply isYMD_formatDateToYMD.
    apply (proj1 (forallb_forall _ _) F). apply in_map. apply last_In. discriminate. }
  cbv zeta. rewrite assemble_chartData, assemble_previousClose, assemble_marketCap,
    assemble_totalRevenue.
  cbn [PreviousClose.asOfDate MarketCap.asOfDate].
  split; [|split; [exact L|split; [exact L|]]].
  - rewrite map_map. cbn [chartPoint ChartPoint.date].
    apply forallb_forall. intros x I. apply in_map_iff in I. destruct I as (day & <- & I).
    apply isYMD_formatDateToYMD. apply (proj1 (forallb_forall _ _) F).
    apply in_map. exact I.
  - rewrite resolveRevenue_cases. cbv zeta.
    destruct (truthy ((latestAnnualStatement summaryData)?.IncomeStatement.totalRevenue)
              && truthy ((latestAnnualStatement summaryData)?.IncomeStatement.endDate)) eqn:T.
    + cbn [TotalRevenue.asOfDate]. intros d [= <-].
      apply andb_true_iff in T. destruct T as [_ Te].
      destruct ((latestAnnualStatement summaryData)?.IncomeStatement.endDate) as [| |e] eqn:E;
        try discriminate Te.
      specialize (Fe e eq_refl). rewrite (construct_fourDigitYear e Fe).
      apply isYMD_formatDateToYMD. exact Fe.
    + destruct (truthy (trailingRevenue summaryData)); cbn [TotalRevenue.asOfDate].
      * intros d [= <-]. exact L.
      * discriminate.
Qed.

(** The example run. *)
Lemma response_dates_are_YMD_witness :
  exists res,
    succeeds exampleRequest exampleHost res /\
    forallb isYMD (List.map ChartPoint.date (Result.chartData res)) = true.
Proof.
  destruct (handler_succeeds exampleRequest exampleHost "aapl" "2024-01-01" "1000"
              day1 [day2] exampleQuote (statsWith 1000)
              eq_refl eq_refl eq_refl eq_refl eq_refl eq_refl) as (ts & _ & S).
  eexists. split; [exact S|].
  refine (proj1 (response_dates_are_YMD exampleRequest exampleHost _ "aapl" "2024-01-01"
                   [day1; day2] (statsWith 1000) S eq_refl eq_refl eq_refl eq_refl eq_refl _)).
  intros d [= <-]. reflexivity.
Defined.

(** The day number of an instant, from the components the getters report. *)
Lemma Day_components (t : Z) :
  Date.Day t = Date.MakeDay (Date.YearFromTime t) (Date.MonthFromTime t) (Date.DateFromTime t).
Proof.
  destruct (Roundtrip.instant_decomposition t) as (V & R & E).
  rewrite E at 1. apply (Roundtrip.Day_UTC _ _ _ _ R).
Qed.

Lemma components_of_Day (t1 t2 : Z) :
  Date.Day t1 = Date.Day t2 ->
  Date.YearFromTime t1 = Date.YearFromTime t2 /\
  Date.MonthFromTime t1 = Date.MonthFromTime t2 /\
  Date.DateFromTime t1 = Date.DateFromTime t2.
Proof.
  intros D.
  assert (Y : Date.YearFromTime t1 = Date.YearFromTime t2)
    by (unfold Date.YearFromTime; rewrite D; reflexivity).
  assert (L : Date.InLeapYear t1 = Date.InLeapYear t2)
    by (unfold Date.InLeapYear; rewrite Y; reflexivity).
  assert (W : Date.DayWithinYear t1 = Date.DayWithinYear t2)
    by (unfold Date.DayWithinYear; rewrite Y, D; reflexivity).
  assert (M : Date.MonthFromTime t1 = Date.MonthFromTime t2)
    by (unfold Date.MonthFromTime; rewrite W, L; reflexivity).
  repeat split; try assumption.
  unfold Date.DateFromTime. rewrite M, W, L. reflexivity.
Qed.

Lemma compare_refl (s : string) : String.compare s s = Eq.
Proof.
  induction s as [|c s IH]; [reflexivity|]. cbn [String.compare].
  unfold Ascii.compare. rewrite N.compare_refl. exact IH.
Qed.

(** X12. On valid dates of the years 1000 to 9999, [formatDateToYMD] orders
    the instants by their UTC day: the texts of two instants compare, as
    strings, as the day numbers of the instants do. So two instants get
    the same text exactly when they fall on the same UTC day, and an
    instant of an earlier day gets a strictly smaller text. *)
Theorem formatDateToYMD_orders_the_days (t1 t2 : Z) :
  fourDigitYear (mkDate (Some t1)) = true ->
  fourDigitYear (mkDate (Some t2)) = true ->
  String.compare (formatDateToYMD (mkDate (Some t1))) (formatDateToYMD (mkDate (Some t2)))
    = (Date.Day t1 ?= Date.Day t2)
  /\ (formatDateToYMD (mkDate (Some t1)) = formatDateToYMD (mkDate (Some t2))
      <-> Date.Day t1 = Date.Day t2).
Proof.
  intros F1 F2.
  apply fourDigitYear_year in F1. apply fourDigitYear_year in F2.
  pose proof (DateFacts.MonthFromTime_range t1). pose proof (DateFacts.MonthFromTime_range t2).
  pose proof (DateFacts.DateFromTime_range t1). pose proof (DateFacts.DateFromTime_range t2).
  assert (C : String.compare (formatDateToYMD (mkDate (Some t1)))
                (formatDateToYMD (mkDate (Some t2))) = (Date.Day t1 ?= Date.Day t2)).
  { rewrite !formatDateToYMD_text by assumption.
    rewrite Text.ymd_text_compare by lia.
    assert (Lt_case : forall a b,
              Date.Day a < Date.Day b ->
              lex (Date.YearFromTime a ?= Date.YearFromTime b)
                  (lex (Date.MonthFromTime a + 1 ?= Date.MonthFromTime b + 1)
                       (Date.DateFromTime a ?= Date.DateFromTime b)) = Lt).
    { intros a b L.
      pose proof (DateFacts.YearFromDay_mono _ _ (Z.lt_le_incl _ _ L)) as Y.
      fold (Date.YearFromTime a) in Y. fold (Date.YearFromTime b) in Y.
      unfold lex.
      destruct (Z.compare_spec (Date.YearFromTime a) (Date.YearFromTime b)) as [E| |];
        [|reflexivity|lia].
      destruct (DateFacts.month_date_mono a b E (Z.lt_le_incl _ _ L)) as [M|[M Dt]].
      - rewrite (proj2 (Z.compare_lt_iff _ _)) by lia. reflexivity.
      - rewrite (proj2 (Z.compare_eq_iff _ _)) by lia.
        destruct (Z.compare_spec (Date.DateFromTime a) (Date.DateFromTime b)) as [E'| |];
          [|reflexivity|lia].
        exfalso. rewrite (Day_components a), (Day_components b) in L.
        rewrite E, M, E' in L. lia. }
    destruct (Z.compare_spec (Date.Day t1) (Date.Day t2)) as [E|L|G].
    - destruct (components_of_Day t1 t2 E) as (-> & -> & ->).
      rewrite !Z.compare_refl. reflexivity.
    - apply Lt_case; assumption.
    - pose proof (Lt_case t2 t1 G) as R. unfold lex in *.
      rewrite (Z.compare_antisym (Date.YearFromTime t1) (Date.YearFromTime t2)) in R.
      rewrite (Z.compare_antisym (Date.MonthFromTime t1 + 1) (Date.MonthFromTime t2 + 1)) in R.
      rewrite (Z.compare_antisym (Date.DateFromTime t1) (Date.DateFromTime t2)) in R.
      destruct (Date.YearFromTime t1 ?= Date.YearFromTime t2),
        (Date.MonthFromTime t1 + 1 ?= Date.MonthFromTime t2 + 1),
        (Date.DateFromTime t1 ?= Date.DateFromTime t2); cbn [CompOpp] in R;
        try discriminate R; reflexivity. }
  split; [exact C|]. split.
  - intros E. rewrite E, compare_refl in C.
    symmetry in C. apply Z.compare_eq_iff in C. exact C.
  - intros E. rewrite E, Z.compare_refl in C. apply String.compare_eq_iff in C. exact C.
Qed.

(** The two days of the example series: the midnight of 2024-01-02 and
    14:30 on 2024-01-03. *)
Lemma formatDateToYMD_orders_the_days_witness :
  String.compare (formatDateToYMD (mkDate (Some 1704153600000)))
                 (formatDateToYMD (mkDate (Some 1704292200000))) = Lt.
Proof.
  exact (proj1 (formatDateToYMD_orders_the_days 1704153600000 1704292200000 eq_refl eq_refl)).
Defined.

(** ** Amounts that are not positive numbers *)

Module NumberFacts.

Lemma is_nan_Prim2SF (x : float) : PrimFloat.is_nan x = true <-> Prim2SF x = S754_nan.
Proof.
  unfold PrimFloat.is_nan. rewrite eqb_spec.
  destruct (Prim2SF x) as [s|s| |s m e].
  - split; discriminate.
  - destruct s; split; discriminate.
  - split; reflexivity.
  - unfold SFeqb, SFcompare. rewrite Z.compare_refl, Pos.compare_cont_refl.
    destruct s; split; discriminate.
Qed.

Lemma is_zero_Prim2SF (x : float) :
  PrimFloat.is_zero x = true <-> exists s, Prim2SF x = S754_zero s.
Proof.
  unfold PrimFloat.is_zero. rewrite eqb_spec.
  change (Prim2SF zero) with (S754_zero false).
  destruct (Prim2SF x) as [s|s| |s m e].
  - split; eauto.
  - destruct s; split; try discriminate; intros [? ?]; discriminate.
  - split; try discriminate; intros [? ?]; discriminate.
  - destruct s; split; try discriminate; intros [? ?]; discriminate.
Qed.

Lemma div_nan (a b : float) : Prim2SF a = S754_nan -> Prim2SF (a / b) = S754_nan.
Proof. intros P. rewrite div_spec, P. reflexivity. Qed.

Lemma mul_nan (a b : float) : Prim2SF a = S754_nan -> Prim2SF (a * b) = S754_nan.
Proof. intros P. rewrite mul_spec, P. reflexivity. Qed.

Lemma sub_nan (a b : float) : Prim2SF a = S754_nan -> Prim2SF (a - b) = S754_nan.
Proof. intros P. rewrite sub_spec, P. reflexivity. Qed.

Lemma sub_nan_r (a b : float) : Prim2SF b = S754_nan -> Prim2SF (a - b) = S754_nan.
Proof. intros P. rewrite sub_spec, P. destruct (Prim2SF a); reflexivity. Qed.

Lemma div_nanOrZero (a b : float) : nanOrZero a -> nanOrZero (a / b).
Proof.
  intros [P|[s P]]; [left; apply div_nan; exact P|].
  unfold nanOrZero. rewrite div_spec, P.
  destruct (Prim2SF b) as [s'|s'| |s' m e]; cbn; eauto.
Qed.

Lemma mul_nanOrZero (a b : float) : nanOrZero a -> nanOrZero (a * b).
Proof.
  intros [P|[s P]]; [left; apply mul_nan; exact P|].
  unfold nanOrZero. rewrite mul_spec, P.
  destruct (Prim2SF b) as [s'|s'| |s' m e]; cbn; eauto.
Qed.

Lemma sub_nanOrZero (a b : float) : nanOrZero a -> nanOrZero b -> nanOrZero (a - b).
Proof.
  intros [P|[s P]]; [left; apply sub_nan; exact P|].
  intros [Q|[s' Q]]; [left; apply sub_nan_r; exact Q|].
  unfold nanOrZero. rewrite sub_spec, P, Q. right.
  destruct s, s'; cbn; eauto.
Qed.

Lemma div_by_zero (a b : float) :
  nanOrZero a -> (exists s, Prim2SF b = S754_zero s) -> Prim2SF (a / b) = S754_nan.
Proof.
  intros [P|[s P]] [s' Q]; [apply div_nan; exact P|].
  rewrite div_spec, P, Q. reflexivity.
Qed.

Lemma round_to_nanOrZero (f : nat) (x : float) :
  nanOrZero x -> round_to f x = zero \/ round_to f x = nan.
Proof.
  intros [P|[s P]].
  - right. apply Rounding.round_to_nan. exact P.
  - left. apply (Rounding.round_to_zero f x s). exact P.
Qed.

End NumberFacts.

(** X13. An amount that [parseFloat] reads as [NaN] (say, "a lot") is not
    refused: it passes validation, being a non-empty string, and in the
    200 response [initialInvestment], [currentValue],
    [totalReturnDollars], [totalReturnPercent], [sharesOwned] and the
    value of every chart point are all [NaN]. *)
Theorem amount_that_is_not_a_number
    (req : Request) (h : Host) (res : Result.t) (amount : string) :
  succeeds req h res ->
  Query.amount (query req) = val amount ->
  PrimFloat.is_nan (Number.parseFloat amount) = true ->
  let s := Result.summary res in
  PrimFloat.is_nan (Summary.initialInvestment s) = true /\
  Summary.currentValue s = nan /\
  Summary.totalReturnDollars s = nan /\
  Summary.totalReturnPercent s = nan /\
  Summary.sharesOwned s = nan /\
  forall p, In p (Result.chartData res) -> ChartPoint.value p = nan.
Proof.
  intros S Ha N.
  destruct (handler_200 req h _ S eq_refl)
    as (t & sd & a & first & rest & q & stats & ts & _ & _ & Pa & _ & _ & _ & _ & B).
  cbn [json body] in B. injection B as ->.
  destruct (present_val _ _ Pa) as [Pa' _]. assert (a = amount) by congruence. subst a.
  cbv zeta. rewrite assemble_summary, assemble_chartData.
  cbn [Summary.initialInvestment Summary.currentValue Summary.totalReturnDollars
       Summary.totalReturnPercent Summary.sharesOwned].
  pose proof (proj1 (NumberFacts.is_nan_Prim2SF _) N) as P.
  pose proof (NumberFacts.div_nan _ (HistoricalRow.adjClose first) P) as Psh.
  pose proof (NumberFacts.mul_nan _ (ToNumber (Quote.regularMarketPrice q)) Psh) as Pcv.
  pose proof (NumberFacts.sub_nan _ (Number.parseFloat amount) Pcv) as Pd.
  split; [exact N|].
  split; [apply Rounding.round_to_nan; exact Pcv|].
  split; [apply Rounding.round_to_nan; exact Pd|].
  split; [apply Rounding.round_to_nan, NumberFacts.mul_nan, NumberFacts.div_nan; exact Pd|].
  split; [apply Rounding.round_to_nan; exact Psh|].
  intros p I. apply in_map_iff in I. destruct I as (day & <- & _).
  cbn [chartPoint ChartPoint.value]. apply Rounding.round_to_nan, NumberFacts.mul_nan.
  exact Psh.
Qed.

(** The example run for the amount "a lot". *)
Lemma amount_that_is_not_a_number_witness :
  exists res,
    succeeds wordsRequest exampleHost res /\
    Summary.totalReturnPercent (Result.summary res) = nan.
Proof.
  destruct (handler_succeeds wordsRequest exampleHost "aapl" "2024-01-01" "a lot"
              day1 [day2] exampleQuote (statsWith 1000)
              eq_refl eq_refl eq_refl eq_refl eq_refl eq_refl) as (ts & _ & S).
  eexists. split; [exact S|].
  destruct (amount_that_is_not_a_number wordsRequest exampleHost _ "a lot" S eq_refl eq_refl)
    as (_ & _ & _ & E & _).
  exact E.
Defined.

(** X14. An amount that [parseFloat] reads as zero ("0", "0.00", "-0")
    passes validation too, and in the 200 response [totalReturnPercent] is
    [NaN], a division of zero by zero, whatever the prices are;
    [currentValue], [totalReturnDollars], [sharesOwned] and the value of
    every chart point are each 0 or [NaN]. *)
Theorem amount_of_zero
    (req : Request) (h : Host) (res : Result.t) (amount : string) :
  succeeds req h res ->
  Query.amount (query req) = val amount ->
  PrimFloat.is_zero (Number.parseFloat amount) = true ->
  let s := Result.summary res in
  let zeroOrNaN x := x = zero \/ x = nan in
  Summary.totalReturnPercent s = nan /\
  zeroOrNaN (Summary.currentValue s) /\
  zeroOrNaN (Summary.totalReturnDollars s) /\
  zeroOrNaN (Summary.sharesOwned s) /\
  forall p, In p (Result.chartData res) -> zeroOrNaN (ChartPoint.value p).
Proof.
  intros S Ha Z.
  destruct (handler_200 req h _ S eq_refl)
    as (t & sd & a & first & rest & q & stats & ts & _ & _ & Pa & _ & _ & _ & _ & B).
  cbn [json body] in B. injection B as ->.
  destruct (present_val _ _ Pa) as [Pa' _]. assert (a = amount) by congruence. subst a.
  cbv zeta. rewrite assemble_summary, assemble_chartData.
  cbn [Summary.currentValue Summary.totalReturnDollars
       Summary.totalReturnPercent Summary.sharesOwned].
  pose proof (proj1 (NumberFacts.is_zero_Prim2SF _) Z) as P.
  assert (A : nanOrZero (Number.parseFloat amount)) by (right; exact P).
  pose proof (NumberFacts.div_nanOrZero _ (HistoricalRow.adjClose first) A) as Psh.
  pose proof (NumberFacts.mul_nanOrZero _ (ToNumber (Quote.regularMarketPrice q)) Psh) as Pcv.
  pose proof (NumberFacts.sub_nanOrZero _ _ Pcv A) as Pd.
  split; [apply Rounding.round_to_nan, NumberFacts.mul_nan, NumberFacts.div_by_zero;
          assumption|].
  split; [apply NumberFacts.round_to_nanOrZero; exact Pcv|].
  split; [apply NumberFacts.round_to_nanOrZero; exact Pd|].
  split; [apply NumberFacts.round_to_nanOrZero; exact Psh|].
  intros p I. apply in_map_iff in I. destruct I as (day & <- & _).
  cbn [chartPoint ChartPoint.value].
  apply NumberFacts.round_to_nanOrZero, NumberFacts.mul_nanOrZero. exact Psh.
Qed.

(** The example run for the amount "0". *)
Lemma amount_of_zero_witness :
  exists res,
    succeeds nothingRequest exampleHost res /\
    Summary.totalReturnPercent (Result.summary res) = nan.
Proof.
  destruct (handler_succeeds nothingRequest exampleHost "aapl" "2024-01-01" "0"
              day1 [day2] exampleQuote (statsWith 1000)
              eq_refl eq_refl eq_refl eq_refl eq_refl eq_refl) as (ts & _ & S).
  eexists. split; [exact S|].
  exact (proj1 (amount_of_zero nothingRequest exampleHost _ "0" S eq_refl eq_refl)).
Defined.

(** ** [formatMarketCap] *)

